(** * Chat persistence of deepagents: a shallow embedding

    The development follows [python/helpers/persist_chat.py] and
    [python/helpers/mem_graph_helper.py].  Python values are embedded as a
    small universe [pyval]; exceptions are explicit ([result]); the agent
    objects that the chain links point to live in a store of agents that is
    threaded through the functions that allocate or mutate them. *)

From stdpp Require Import gmap strings list.
From Stdlib Require Import ZArith Ascii.
From Stdlib Require DecimalString DecimalZ.

Set Warnings "-register-all".
Local Open Scope Z_scope.

(* ===================================================================== *)
(** ** Python values *)
(* ===================================================================== *)

(** The values the persistence layer handles.  [VObj a] is a reference to a
    live object with identity [a]: an agent when [a] is an address of the
    agent store, an opaque handle otherwise.  Dictionaries keep insertion
    order and have string keys (every dictionary here is a JSON object or a
    data bag).  Floats are left out. *)
Inductive pyval : Type :=
| VNone
| VBool (b : bool)
| VInt (z : Z)
| VStr (s : string)
| VList (l : list pyval)
| VDict (d : list (string * pyval))
| VObj (a : nat).

Abbreviation dict := (list (string * pyval)).

(** Python exceptions met in the modelled code.  [NonTermination] stands for
    a loop that has used up the fuel it was given. *)
Inductive exn : Type :=
| KeyError (k : string)
| TypeError
| AttributeError
| ValueError
| RecursionError
| JSONDecodeError
| RequestException
| Exception (msg : string)
| NonTermination.

Inductive result (A : Type) : Type :=
| Ok (a : A)
| Raise (e : exn).
Arguments Ok {A} a.
Arguments Raise {A} e.

#[global] Instance result_ret : MRet result := fun A a => Ok a.
#[global] Instance result_bind : MBind result := fun A B f m =>
  match m with
  | Ok a => f a
  | Raise e => Raise e
  end.

Definition returns {A} (m : result A) : Prop := exists a, m = Ok a.

(** [d.get(k)] on the association list: the first binding of [k]. *)
Fixpoint dict_get (k : string) (d : dict) : option pyval :=
  match d with
  | [] => None
  | (k', v) :: d' => if String.eqb k k' then Some v else dict_get k d'
  end.

(** [d[k] = v]: an existing key keeps its position, a new key goes last. *)
Fixpoint dict_set (k : string) (v : pyval) (d : dict) : dict :=
  match d with
  | [] => [(k, v)]
  | (k', v') :: d' =>
      if String.eqb k k' then (k', v) :: d' else (k', v') :: dict_set k v d'
  end.

(** Truth value of a Python object ([if x], [while x], [x or y]). Objects
    without [__bool__] and [__len__], such as agents, are true. *)
Definition py_truthy (v : pyval) : bool :=
  match v with
  | VNone => false
  | VBool b => b
  | VInt z => negb (z =? 0)
  | VStr s => negb (String.eqb s EmptyString)
  | VList l => match l with [] => false | _ => true end
  | VDict d => match d with [] => false | _ => true end
  | VObj _ => true
  end.

(** [o[k]] with a string subscript. *)
Definition py_getitem (o : pyval) (k : string) : result pyval :=
  match o with
  | VDict d => match dict_get k d with
               | Some v => Ok v
               | None => Raise (KeyError k)
               end
  | _ => Raise TypeError
  end.

(** [o.get(k, default)]: only dictionaries have the method. *)
Definition py_get (o : pyval) (k : string) (dflt : pyval) : result pyval :=
  match o with
  | VDict d => Ok (default dflt (dict_get k d))
  | _ => Raise AttributeError
  end.

(** [for x in o]: lists give their elements, dictionaries their keys,
    strings their characters; nothing else here is iterable. *)
Fixpoint str_chars (s : string) : list pyval :=
  match s with
  | EmptyString => []
  | String c s' => VStr (String c EmptyString) :: str_chars s'
  end.

Definition py_iter (o : pyval) : result (list pyval) :=
  match o with
  | VList l => Ok l
  | VDict d => Ok (map (fun kv => VStr (fst kv)) d)
  | VStr s => Ok (str_chars s)
  | _ => Raise TypeError
  end.

(** [l[start:]] with Python's treatment of a negative or too large start. *)
Definition slice_from {A} (start : Z) (l : list A) : list A :=
  let len := Z.of_nat (length l) in
  let s := if start <? 0 then Z.max (len + start) 0 else Z.min start len in
  drop (Z.to_nat s) l.

(** [OrderedDict(o)]: a copy of a mapping, or the mapping built from an
    iterable of two-element iterables.  Keys that are not strings have no
    place in [dict]; such a call is answered with [TypeError] here. *)
Definition pair_of_item (e : pyval) : result (string * pyval) :=
  xs ← py_iter e;
  match xs with
  | [VStr k; v] => Ok (k, v)
  | [_; _] => Raise TypeError
  | _ => Raise ValueError
  end.

Fixpoint dict_update (d : dict) (items : list pyval) : result dict :=
  match items with
  | [] => Ok d
  | e :: items' => kv ← pair_of_item e; dict_update (dict_set kv.1 kv.2 d) items'
  end.

Definition OrderedDict (o : pyval) : result dict :=
  match o with
  | VDict d => Ok d
  | _ => items ← py_iter o; dict_update [] items
  end.


(** Python's [==] on the values of the model: booleans are the integers 0
    and 1, dictionaries compare without regard to order, objects by
    identity. *)
Fixpoint py_eq (a b : pyval) {struct a} : bool :=
  match a, b with
  | VNone, VNone => true
  | VBool x, VBool y => Bool.eqb x y
  | VBool x, VInt y => (if x then 1 else 0) =? y
  | VInt x, VBool y => x =? (if y then 1 else 0)
  | VInt x, VInt y => x =? y
  | VStr s, VStr t => String.eqb s t
  | VList l, VList m =>
      (fix go (l m : list pyval) : bool :=
         match l, m with
         | [], [] => true
         | x :: l', y :: m' => py_eq x y && go l' m'
         | _, _ => false
         end) l m
  | VDict d, VDict e =>
      (length d =? length e)%nat &&
      (fix go (d : dict) : bool :=
         match d with
         | [] => true
         | (k, v) :: d' =>
             match dict_get k e with
             | Some w => py_eq v w
             | None => false
             end && go d'
         end) d
  | VObj x, VObj y => (x =? y)%nat
  | _, _ => false
  end.

(** [o[k] = v] with a string subscript. *)
Definition py_setitem (o : pyval) (k : string) (v : pyval) : result pyval :=
  match o with
  | VDict d => Ok (VDict (dict_set k v d))
  | _ => Raise TypeError
  end.

(** [k in o] for a string [k]: a key of a dictionary, an element of a list,
    a part of a string; the other values are not containers. *)
Fixpoint contains_str (needle s : string) : bool :=
  String.prefix needle s ||
  match s with
  | EmptyString => false
  | String _ s' => contains_str needle s'
  end.

Definition py_contains (k : string) (o : pyval) : result bool :=
  match o with
  | VDict d => Ok (match dict_get k d with Some _ => true | None => false end)
  | VList l => Ok (existsb (py_eq (VStr k)) l)
  | VStr s => Ok (contains_str k s)
  | _ => Raise TypeError
  end.

(** [del o[k]] with a string subscript. *)
Fixpoint dict_del (k : string) (d : dict) : dict :=
  match d with
  | [] => []
  | (k', v) :: d' =>
      if String.eqb k k' then dict_del k d' else (k', v) :: dict_del k d'
  end.

Definition py_delitem (o : pyval) (k : string) : result pyval :=
  match o with
  | VDict d => match dict_get k d with
               | Some _ => Ok (VDict (dict_del k d))
               | None => Raise (KeyError k)
               end
  | _ => Raise TypeError
  end.

(** [s.strip(c)] for a single character [c]. *)
Fixpoint lstrip (c : ascii) (s : string) : string :=
  match s with
  | String x s' => if Ascii.eqb x c then lstrip c s' else s
  | EmptyString => s
  end.

Fixpoint rstrip (c : ascii) (s : string) : string :=
  match s with
  | EmptyString => EmptyString
  | String x s' =>
      match rstrip c s' with
      | EmptyString => if Ascii.eqb x c then EmptyString else String x EmptyString
      | r => String x r
      end
  end.

Definition strip (c : ascii) (s : string) : string := rstrip c (lstrip c s).

(* ===================================================================== *)
(** ** The [json] module of the Python library *)
(* ===================================================================== *)

(** A model of [json.dumps] and [json.loads] on [pyval], after the library's
    documentation: compact separators [", "] and [": "], the string escapes
    of [ensure_ascii], and the [default] hook, which the encoder calls on an
    object it has no encoding for and whose answer it encodes in the object's
    place.  A character is a code point below 256.  The recursion depth is
    bounded by [fuel], as Python's is by its recursion limit. *)
Module json.

Definition dquote : ascii := "034"%char.

Definition hex_digit (n : N) : ascii :=
  ascii_of_N (if (n <? 10)%N then 48 + n else 87 + n).

(** [\u00XX] for a code point below 256. *)
Definition escape_u (c : ascii) : string :=
  let n := N_of_ascii c in
  String "\" (String "u" (String "0" (String "0"
    (String (hex_digit (n / 16)) (String (hex_digit (n mod 16)) EmptyString))))).

Definition escape_char (ensure_ascii : bool) (c : ascii) : string :=
  let n := N_of_ascii c in
  if (n =? 34)%N then String "\" (String dquote EmptyString)
  else if (n =? 92)%N then String "\" (String "\" EmptyString)
  else if (n =? 10)%N then String "\" (String "n" EmptyString)
  else if (n =? 13)%N then String "\" (String "r" EmptyString)
  else if (n =? 9)%N then String "\" (String "t" EmptyString)
  else if (n =? 12)%N then String "\" (String "f" EmptyString)
  else if (n =? 8)%N then String "\" (String "b" EmptyString)
  else if (n <? 32)%N then escape_u c
  else if ensure_ascii && (126 <? n)%N then escape_u c
  else String c EmptyString.

Fixpoint escape (ensure_ascii : bool) (s : string) : string :=
  match s with
  | EmptyString => EmptyString
  | String c s' => escape_char ensure_ascii c +:+ escape ensure_ascii s'
  end.

Definition encode_str (ensure_ascii : bool) (s : string) : string :=
  String dquote (escape ensure_ascii s +:+ String dquote EmptyString).

Definition encode_int (z : Z) : string :=
  DecimalString.NilZero.string_of_int (Z.to_int z).

Fixpoint join (sep : string) (l : list string) : string :=
  match l with
  | [] => EmptyString
  | [x] => x
  | x :: l' => x +:+ sep +:+ join sep l'
  end.

(** [markers] are the identities of the objects handed to [default] on the
    way down: meeting one again is a circular reference. *)
Fixpoint encode (ensure_ascii : bool) (dflt : pyval -> result pyval)
    (fuel : nat) (markers : list nat) (o : pyval) : result string :=
  match fuel with
  | O => Raise RecursionError
  | S n =>
      match o with
      | VNone => Ok "null"
      | VBool true => Ok "true"
      | VBool false => Ok "false"
      | VInt z => Ok (encode_int z)
      | VStr s => Ok (encode_str ensure_ascii s)
      | VList l =>
          items ← mapM (encode ensure_ascii dflt n markers) l;
          Ok ("[" +:+ join ", " items +:+ "]")
      | VDict d =>
          items ← mapM (fun kv : string * pyval =>
                          s ← encode ensure_ascii dflt n markers kv.2;
                          Ok (encode_str ensure_ascii kv.1 +:+ ": " +:+ s)) d;
          Ok ("{" +:+ join ", " items +:+ "}")
      | VObj a =>
          if bool_decide (a ∈ markers) then Raise ValueError
          else o' ← dflt o; encode ensure_ascii dflt n (a :: markers) o'
      end
  end.

(** [JSONEncoder.default]: no encoding for the object. *)
Definition default_raise (o : pyval) : result pyval := Raise TypeError.

Definition dumps (ensure_ascii : bool) (dflt : option (pyval -> result pyval))
    (fuel : nat) (obj : pyval) : result string :=
  encode ensure_ascii (default default_raise dflt) fuel [] obj.

(** *** Decoding *)

Definition is_ws (c : ascii) : bool :=
  let n := N_of_ascii c in
  (n =? 32)%N || (n =? 9)%N || (n =? 10)%N || (n =? 13)%N.

Fixpoint skip_ws (s : string) : string :=
  match s with
  | String c s' => if is_ws c then skip_ws s' else s
  | EmptyString => s
  end.

Definition is_digit (c : ascii) : bool :=
  let n := N_of_ascii c in (48 <=? n)%N && (n <=? 57)%N.

Fixpoint span_digits (s : string) : string * string :=
  match s with
  | String c s' =>
      if is_digit c then let '(d, r) := span_digits s' in (String c d, r)
      else (EmptyString, s)
  | EmptyString => (EmptyString, s)
  end.

Definition hex_value (c : ascii) : option N :=
  let n := N_of_ascii c in
  if (48 <=? n)%N && (n <=? 57)%N then Some (n - 48)%N
  else if (97 <=? n)%N && (n <=? 102)%N then Some (n - 87)%N
  else if (65 <=? n)%N && (n <=? 70)%N then Some (n - 55)%N
  else None.

Definition hex4 (a b c d : ascii) : option N :=
  x ← hex_value a; y ← hex_value b; z ← hex_value c; w ← hex_value d;
  Some (((x * 16 + y) * 16 + z) * 16 + w)%N.

Definition unescape (e : ascii) : option ascii :=
  let n := N_of_ascii e in
  if (n =? 34)%N then Some dquote
  else if (n =? 92)%N then Some "\"%char
  else if (n =? 47)%N then Some "/"%char
  else if (n =? 98)%N then Some "008"%char
  else if (n =? 102)%N then Some "012"%char
  else if (n =? 110)%N then Some "010"%char
  else if (n =? 114)%N then Some "013"%char
  else if (n =? 116)%N then Some "009"%char
  else None.

(** The body of a string literal, after its opening quote; control
    characters must be escaped, and a [\u] escape must denote a code point
    below 256. *)
Fixpoint scanstring (s : string) : option (string * string) :=
  match s with
  | EmptyString => None
  | String c r =>
      if (N_of_ascii c =? 34)%N then Some (EmptyString, r)
      else if (N_of_ascii c =? 92)%N then
        match r with
        | String e r' =>
            if (N_of_ascii e =? 117)%N then
              match r' with
              | String h1 (String h2 (String h3 (String h4 r''))) =>
                  code ← hex4 h1 h2 h3 h4;
                  if (code <? 256)%N
                  then tl ← scanstring r''; Some (String (ascii_of_N code) tl.1, tl.2)
                  else None
              | _ => None
              end
            else
              ch ← unescape e;
              tl ← scanstring r'; Some (String ch tl.1, tl.2)
        | EmptyString => None
        end
      else if (N_of_ascii c <? 32)%N then None
      else tl ← scanstring r; Some (String c tl.1, tl.2)
  end.

Definition starts_float (s : string) : bool :=
  match s with
  | String c _ =>
      let n := N_of_ascii c in (n =? 46)%N || (n =? 101)%N || (n =? 69)%N
  | EmptyString => false
  end.

(** An integer literal: an optional minus sign, then a single zero or a
    non-zero digit followed by digits.  A fraction or an exponent would make
    a float, which [pyval] does not have. *)
Definition scan_uint (s : string) : option (Decimal.uint * string) :=
  match s with
  | String c r =>
      if (N_of_ascii c =? 48)%N then Some (Decimal.D0 Decimal.Nil, r)
      else if is_digit c then
        let '(ds, rest) := span_digits s in
        d ← DecimalString.NilEmpty.uint_of_string ds; Some (d, rest)
      else None
  | EmptyString => None
  end.

Definition scan_int (s : string) : option (Z * string) :=
  r ← match s with
      | String c s' =>
          if (N_of_ascii c =? 45)%N
          then dr ← scan_uint s'; Some (Decimal.Neg dr.1, dr.2)
          else dr ← scan_uint s; Some (Decimal.Pos dr.1, dr.2)
      | EmptyString => None
      end;
  if starts_float r.2 then None else Some (Z.of_int r.1, r.2).

Fixpoint expect (lit : string) (s : string) : option string :=
  match lit, s with
  | EmptyString, _ => Some s
  | String a lit', String b s' => if Ascii.eqb a b then expect lit' s' else None
  | _, EmptyString => None
  end.

(** The object built from the pairs of an object literal: a repeated key
    keeps its first position and its last value. *)
Definition dict_of_pairs (kvs : list (string * pyval)) : dict :=
  foldl (fun d kv => dict_set kv.1 kv.2 d) [] kvs.

(** The text after its first character, when that character has code [k]. *)
Definition starts_with (k : N) (s : string) : option string :=
  match s with
  | String c r => if (N_of_ascii c =? k)%N then Some r else None
  | EmptyString => None
  end.

(** [scan_value] reads one value, [scan_items] the elements of an array
    after its opening bracket, [scan_pairs] the members of an object after
    its opening brace.  [fuel] bounds the number of nested calls; the length
    of the text is always enough. *)
Fixpoint scan_value (fuel : nat) (s : string) : option (pyval * string) :=
  match fuel with
  | O => None
  | S n =>
      match s with
      | EmptyString => None
      | String c r =>
          let k := N_of_ascii c in
          if (k =? 34)%N then tl ← scanstring r; Some (VStr tl.1, tl.2)
          else if (k =? 110)%N then r' ← expect "ull" r; Some (VNone, r')
          else if (k =? 116)%N then r' ← expect "rue" r; Some (VBool true, r')
          else if (k =? 102)%N then r' ← expect "alse" r; Some (VBool false, r')
          else if (k =? 91)%N then
            match starts_with 93 (skip_ws r) with
            | Some r' => Some (VList [], r')
            | None => res ← scan_items n (skip_ws r); Some (VList res.1, res.2)
            end
          else if (k =? 123)%N then
            match starts_with 125 (skip_ws r) with
            | Some r' => Some (VDict [], r')
            | None =>
                res ← scan_pairs n (skip_ws r);
                Some (VDict (dict_of_pairs res.1), res.2)
            end
          else res ← scan_int s; Some (VInt res.1, res.2)
      end
  end
with scan_items (fuel : nat) (s : string) : option (list pyval * string) :=
  match fuel with
  | O => None
  | S n =>
      v ← scan_value n s;
      match starts_with 93 (skip_ws v.2) with
      | Some r => Some ([v.1], r)
      | None =>
          r ← starts_with 44 (skip_ws v.2);
          res ← scan_items n (skip_ws r); Some (v.1 :: res.1, res.2)
      end
  end
with scan_pairs (fuel : nat) (s : string) : option (list (string * pyval) * string) :=
  match fuel with
  | O => None
  | S n =>
      r ← starts_with 34 s;
      key ← scanstring r;
      r1 ← starts_with 58 (skip_ws key.2);
      v ← scan_value n (skip_ws r1);
      match starts_with 125 (skip_ws v.2) with
      | Some r2 => Some ([(key.1, v.1)], r2)
      | None =>
          r2 ← starts_with 44 (skip_ws v.2);
          res ← scan_pairs n (skip_ws r2);
          Some ((key.1, v.1) :: res.1, res.2)
      end
  end.

Definition loads (s : string) : result pyval :=
  match scan_value (S (String.length s)) (skip_ws s) with
  | Some (v, rest) =>
      match skip_ws rest with
      | EmptyString => Ok v
      | _ => Raise JSONDecodeError
      end
  | None => Raise JSONDecodeError
  end.

End json.

(* ===================================================================== *)
(** ** Export sanitizer *)
(* ===================================================================== *)

(** The [try] of [is_json_serializable] catches [TypeError] (and
    [OverflowError], which the model has no source of); anything else
    propagates. *)
Definition is_json_serializable (fuel : nat) (item : pyval) : result bool :=
  match json.dumps true None fuel item with
  | Ok _ => Ok true
  | Raise TypeError => Ok false
  | Raise e => Raise e
  end.

(** A comprehension with a condition that may raise. *)
Fixpoint filter_if {A} (p : A -> result bool) (l : list A) : result (list A) :=
  match l with
  | [] => Ok []
  | x :: l' =>
      b ← p x;
      if b : bool then (r ← filter_if p l'; Ok (x :: r)) else filter_if p l'
  end.

(** The inner function [serializer] of [_safe_json_serialize]. *)
Definition serializer (fuel : nat) (o : pyval) : result pyval :=
  match o with
  | VDict d =>
      d' ← filter_if (fun kv : string * pyval => is_json_serializable fuel kv.2) d;
      Ok (VDict d')
  | VList l =>
      l' ← filter_if (is_json_serializable fuel) l;
      Ok (VList l')
  | _ =>
      b ← is_json_serializable fuel o;
      if b : bool then Ok o else Ok VNone
  end.

(** [persist_chat.py], lines 271-289: [json.dumps] with [serializer] as the
    [default] hook. *)
Definition _safe_json_serialize (fuel : nat) (obj : pyval) (ensure_ascii : bool)
    : result string :=
  json.dumps ensure_ascii (Some (serializer fuel)) fuel obj.

(* ===================================================================== *)
(** ** The log replay model ([python/helpers/log.py]) *)
(* ===================================================================== *)

(** Modelled from the spec: a log entry of [python/helpers/log.py], which is
    not among the sources.  The fields are those of section 3 (Log entry);
    [kvps] is an ordered mapping or absent.  The entry's back-reference to
    its log is not read by the persistence code and is left out. *)
Record LogItem : Type := mkLogItem {
  item_no : nat;
  item_type : pyval;
  item_heading : pyval;
  item_content : pyval;
  item_kvps : option dict;
  item_temp : pyval
}.

(** Modelled from the spec: the log replay model (section 3) of
    [python/helpers/log.py]. *)
Record Log : Type := mkLog {
  log_guid : pyval;
  log_logs : list LogItem;
  log_updates : list nat;
  log_progress : pyval;
  log_progress_no : pyval
}.

(** Modelled from the spec: [LogItem.output()] of [python/helpers/log.py],
    the plain-data form of an entry with the fields of section 3. *)
Definition LogItem_output (item : LogItem) : pyval :=
  VDict [ ("no", VInt (Z.of_nat (item_no item)));
          ("type", item_type item);
          ("heading", item_heading item);
          ("content", item_content item);
          ("kvps", match item_kvps item with Some d => VDict d | None => VNone end);
          ("temp", item_temp item) ].

Definition LOG_SIZE : Z := 1000.

(** [persist_chat.py], lines 157-165; the entries are [log.logs[-LOG_SIZE:]]. *)
Definition _serialize_log (log : Log) : pyval :=
  VDict [ ("guid", log_guid log);
          ("logs", VList (map LogItem_output (slice_from (- LOG_SIZE) (log_logs log))));
          ("progress", log_progress log);
          ("progress_no", log_progress_no log) ].

(* ===================================================================== *)
(** ** The remote store and the local marker directories *)
(* ===================================================================== *)

(** The two commands of the wire contract.  The client formats them as the
    texts [GET <key>] and [SET <key> <value>]; how the remote service splits
    such a text is its own business, so a command is kept structured. *)
Inductive command : Type :=
| GET (key : string)
| SET (key : string) (value : string).

(** What the persistence layer can observe of its surroundings: the content
    of the remote store, whether a request reaches it, the directories of
    the local file system, and whether [MemGraphHelper._instance] is set. *)
Record world : Type := mkWorld {
  store : gmap string string;
  online : bool;
  dirs : gset string;
  _instance : bool
}.

(** Modelled from the spec: the remote key-value service (section 6).  [GET]
    answers the stored text or the marker [(nil)]; [SET] stores the text
    and answers [OK]. *)
Definition remote (c : command) (st : gmap string string)
    : pyval * gmap string string :=
  match c with
  | GET key =>
      (VDict [("response", VStr (default "(nil)" (st !! key)))], st)
  | SET key value =>
      (VDict [("response", VStr "OK")], <[key := value]> st)
  end.

(** [requests.Session.post] followed by [raise_for_status]: a request that
    does not reach the service raises. *)
Definition session_post (c : command) (w : world) : result (pyval * world) :=
  if online w
  then let '(r, st) := remote c (store w) in
       Ok (r, {| store := st; online := online w; dirs := dirs w;
                 _instance := _instance w |})
  else Raise RequestException.

(** Modelled from the spec: [files.delete_dir] of
    [python/helpers/files.py]; the deletion is recursive. *)
Definition under (path p : string) : bool :=
  String.eqb p path || String.prefix (path +:+ "/") p.

Definition delete_dir (path : string) (w : world) : world :=
  {| store := store w; online := online w;
     dirs := filter (fun p => under path p = false) (dirs w);
     _instance := _instance w |}.

(** Modelled from the spec: [files.make_dirs] of [python/helpers/files.py],
    after which the marker folder of the path exists (section 4.4). *)
Definition make_dirs (path : string) (w : world) : world :=
  {| store := store w; online := online w;
     dirs := {[ path ]} ∪ dirs w;
     _instance := _instance w |}.

(** The one regular expression of the client, in [_get_csrf_token]: the
    literal text of a hidden input field named [csrf_token] up to the
    opening double quote of its value (the text [csrf_field] below), a group
    of one or more characters other than a double quote, and a double
    quote. *)
Module re.

Definition csrf_field : string :=
  "name=" +:+ String json.dquote ("csrf_token" +:+ String json.dquote
  (" type=" +:+ String json.dquote ("hidden" +:+ String json.dquote
  (" value=" +:+ String json.dquote EmptyString)))).

(** The longest prefix without a double quote, and what follows it. *)
Fixpoint span_unquoted (s : string) : string * string :=
  match s with
  | String c s' =>
      if (N_of_ascii c =? 34)%N then (EmptyString, s)
      else let '(a, r) := span_unquoted s' in (String c a, r)
  | EmptyString => (EmptyString, s)
  end.

(** A match of the pattern at the start of [s], as its group.  The
    quantifier takes every character up to the next double quote; giving
    characters back cannot make the closing quote match. *)
Definition match_csrf (s : string) : option string :=
  r ← json.expect csrf_field s;
  let '(tok, rest) := span_unquoted r in
  match tok, rest with
  | String _ _, String _ _ => Some tok
  | _, _ => None
  end.

(** [re.search]: the match at the leftmost position that has one. *)
Fixpoint search_csrf (s : string) : option string :=
  match match_csrf s with
  | Some tok => Some tok
  | None =>
      match s with
      | String _ s' => search_csrf s'
      | EmptyString => None
      end
  end.

End re.

(** The class [MemGraphHelper].  The session handshake (the CSRF token) and
    the calls of the module's logger do not bear on what is stored and are
    left out of the world; the handshake is modelled on its own
    ([_get_csrf_token]). *)
Module MemGraphHelper.

(** The constructor's guard. *)
Definition __init__ (w : world) : result world :=
  if _instance w then Raise (Exception "This class is a singleton!")
  else Ok w.

(** [mem_graph_helper.py], lines 43-54: a failed request is answered with
    an error record. *)
Definition _send_command (c : command) (w : world) : pyval * world :=
  match session_post c w with
  | Ok rw => rw
  | Raise _ => (VDict [("error", VStr "RequestException")], w)
  end.

(** The value written by [save_history]: the JSON text between two single
    quotes. *)
Definition encode_history (fuel : nat) (history : pyval) : result string :=
  js ← json.dumps true None fuel history;
  Ok ("'" +:+ js +:+ "'").

(** [response_str[1:-1]]. *)
Definition strip_ends (s : string) : string :=
  match s with
  | EmptyString => EmptyString
  | String _ s' => String.substring 0 (String.length s' - 1) s'
  end.

Fixpoint endswith (suffix s : string) : bool :=
  String.eqb suffix s ||
  match s with
  | EmptyString => false
  | String _ s' => endswith suffix s'
  end.

(** The body of the [try] in [load_history], with its handler. *)
Definition decode_response (response : pyval) : result pyval :=
  match response with
  | VStr response_str =>
      let response_str :=
        if String.prefix "'" response_str && endswith "'" response_str
        then strip_ends response_str else response_str in
      match json.loads response_str with
      | Ok v => Ok v
      | Raise JSONDecodeError => Ok (VList [])
      | Raise e => Raise e
      end
  | _ => Raise AttributeError
  end.

Definition key_of (conversation_id : string) : string :=
  "chat_history:" +:+ conversation_id.

(** [mem_graph_helper.py], lines 56-71. *)
Definition load_history (conversation_id : string) (w : world)
    : result (pyval * world) :=
  let key := key_of conversation_id in
  let '(response_data, w) := _send_command (GET key) w in
  match response_data with
  | VDict d =>
      match dict_get "response" d with
      | Some r =>
          if negb (py_eq r (VStr "(nil)"))
          then v ← decode_response r; Ok (v, w)
          else Ok (VList [], w)
      | None => Ok (VList [], w)
      end
  | _ => Raise TypeError
  end.

(** [mem_graph_helper.py], lines 73-83. *)
Definition save_history (fuel : nat) (conversation_id : string)
    (history : pyval) (w : world) : result world :=
  let key := key_of conversation_id in
  value ← encode_history fuel history;
  let '(_, w) := _send_command (SET key value) w in
  Ok w.

(** [mem_graph_helper.py], lines 13-17: the shared instance is constructed
    on first use and registered; this is the only assignment that sets
    [_instance]. *)
Definition get_instance (w : world) : result world :=
  if _instance w then Ok w
  else
    w ← __init__ w;
    Ok {| store := store w; online := online w; dirs := dirs w;
          _instance := true |}.

(** [mem_graph_helper.py], lines 31-41.  [page] is what [session.get]
    followed by [raise_for_status] gives: the text of the response, or the
    exception of a request that failed. *)
Definition _get_csrf_token (page : result string) : result pyval :=
  match page with
  | Ok text =>
      match re.search_csrf text with
      | Some tok => Ok (VStr tok)
      | None => Ok VNone
      end
  | Raise RequestException => Ok VNone
  | Raise e => Raise e
  end.

(** [mem_graph_helper.py], lines 27-29. *)
Definition disconnect (w : world) : world :=
  {| store := store w; online := online w; dirs := dirs w;
     _instance := false |}.

End MemGraphHelper.

(* ===================================================================== *)
(** ** [persist_chat.py] *)
(* ===================================================================== *)

(** Modelled from the spec: the enumeration [AgentContextType] of
    [agent.py] (section 3). *)
Inductive AgentContextType : Type := USER | TASK | BACKGROUND.

Definition CHATS_FOLDER : string := "tmp/chats".

Section PersistChat.

(** What the module takes from code outside the sources.
    - [str(uuid.uuid4())] at the call in [_deserialize_log], and the values
      that [Log.set_initial_progress()] installs;
    - the configuration returned by [initialize_agent()];
    - conversation histories, with [History.serialize] and
      [history.deserialize_history];
    - time stamps, with [isoformat], [fromisoformat] and
      [datetime.fromtimestamp(0)];
    - the names of the two chain links in an agent's data bag;
    - the [value] of each member of [AgentContextType];
    - [files.get_abs_path];
    - the identifier that the constructor of [AgentContext] issues to a
      context built without one. *)
Variable uuid4 : string.
Variable initial_progress : pyval.
Variable initial_progress_no : pyval.
Variable AgentConfig : Type.
Variable initialize_agent : AgentConfig.
Variable History : Type.
Variable History_new : History.
Variable History_serialize : History -> pyval.
Variable deserialize_history : pyval -> result History.
Variable datetime : Type.
Variable isoformat : datetime -> string.
Variable fromisoformat : string -> option datetime.
Variable epoch0 : datetime.
Variable DATA_NAME_SUPERIOR : string.
Variable DATA_NAME_SUBORDINATE : string.
Variable type_value : AgentContextType -> string.
Variable get_abs_path : string -> string -> string.
Variable new_context_id : string.

(** *** Log *)

(** Modelled from the spec: [Log()] of [python/helpers/log.py], a fresh model
    with no entries and the progress markers in their initial state. *)
Definition Log_new : Log :=
  {| log_guid := VStr uuid4; log_logs := []; log_updates := [];
     log_progress := initial_progress;
     log_progress_no := initial_progress_no |}.

(** Modelled from the spec: [Log.set_initial_progress()]. *)
Definition set_initial_progress (log : Log) : Log :=
  {| log_guid := log_guid log; log_logs := log_logs log;
     log_updates := log_updates log;
     log_progress := initial_progress;
     log_progress_no := initial_progress_no |}.

(** The keyword arguments of [LogItem(...)] in [_deserialize_log], evaluated
    left to right. *)
Definition deserialize_log_item (i : nat) (item_data : pyval) : result LogItem :=
  ty ← py_getitem item_data "type";
  hd ← py_get item_data "heading" (VStr EmptyString);
  ct ← py_get item_data "content" (VStr EmptyString);
  cond ← py_getitem item_data "kvps";
  kv ← (if py_truthy cond
        then (raw ← py_getitem item_data "kvps"; d ← OrderedDict raw; Ok (Some d))
        else Ok None);
  tp ← py_get item_data "temp" (VBool false);
  Ok {| item_no := i; item_type := ty; item_heading := hd; item_content := ct;
        item_kvps := kv; item_temp := tp |}.

(** The loop of [_deserialize_log]: [i] is the running index. *)
Fixpoint deserialize_log_loop (items : list pyval) (i : nat) (log : Log)
    : result Log :=
  match items with
  | [] => Ok log
  | item_data :: items' =>
      item ← deserialize_log_item i item_data;
      deserialize_log_loop items' (S i)
        {| log_guid := log_guid log; log_logs := log_logs log ++ [item];
           log_updates := log_updates log ++ [i];
           log_progress := log_progress log;
           log_progress_no := log_progress_no log |}
  end.

(** [persist_chat.py], lines 246-268. *)
Definition _deserialize_log (data : pyval) : result Log :=
  let log := Log_new in
  g ← py_get data "guid" (VStr uuid4);
  let log := {| log_guid := g; log_logs := log_logs log;
                log_updates := log_updates log;
                log_progress := log_progress log;
                log_progress_no := log_progress_no log |} in
  let log := set_initial_progress log in
  l ← py_get data "logs" (VList []);
  items ← py_iter l;
  deserialize_log_loop items 0%nat log.

(** *** Agents *)

(** Modelled from the spec: an agent node of [agent.py] (section 3).  The
    data bag holds the chain links as references to other agents.  The
    node's back-reference to its context is not read by the persistence
    code and is left out. *)
Record Agent : Type := mkAgent {
  agent_number : pyval;
  agent_config : AgentConfig;
  agent_data : pyval;
  agent_history : History
}.

(** The agents that exist, by address; [VObj a] refers to the agent at [a]. *)
Abbreviation agents_store := (list Agent).

(** Modelled from the spec: the constructor [Agent(number, config, context)],
    a node with an empty data bag and a fresh history. *)
Definition Agent_new (number : pyval) (config : AgentConfig) : Agent :=
  {| agent_number := number; agent_config := config;
     agent_data := VDict []; agent_history := History_new |}.

Definition alloc (ag : Agent) (h : agents_store) : nat * agents_store :=
  (length h, h ++ [ag]).

(** An attribute access [o.number], [o.data], ... on a value: it has to be a
    reference to an agent. *)
Definition deref (h : agents_store) (o : pyval) : result Agent :=
  match o with
  | VObj a => match h !! a with
              | Some ag => Ok ag
              | None => Raise AttributeError
              end
  | _ => Raise AttributeError
  end.

Definition with_data (ag : Agent) (d : pyval) : Agent :=
  {| agent_number := agent_number ag; agent_config := agent_config ag;
     agent_data := d; agent_history := agent_history ag |}.

Definition with_history (ag : Agent) (hist : History) : Agent :=
  {| agent_number := agent_number ag; agent_config := agent_config ag;
     agent_data := agent_data ag; agent_history := hist |}.

(** Modelled from the spec: [Agent.set_data(field, value)], an assignment
    into the data bag. *)
Definition set_data (a : nat) (field : string) (value : pyval)
    (h : agents_store) : result agents_store :=
  ag ← deref h (VObj a);
  d ← py_setitem (agent_data ag) field value;
  Ok (<[a := with_data ag d]> h).

(** The dictionary comprehension of [_serialize_agent]. *)
Definition public_items (d : dict) : dict :=
  filter (fun kv : string * pyval => String.prefix "_" kv.1 = false) d.

(** [persist_chat.py], lines 145-154. *)
Definition _serialize_agent (agent : Agent) : result pyval :=
  data ← match agent_data agent with
         | VDict d => Ok (public_items d)
         | _ => Raise AttributeError
         end;
  let history := History_serialize (agent_history agent) in
  Ok (VDict [ ("number", agent_number agent);
              ("data", VDict data);
              ("history", history) ]).

(** The loop [while agent: ...] of [_serialize_context]. *)
Fixpoint serialize_agents (fuel : nat) (h : agents_store) (agent : pyval)
    : result (list pyval) :=
  if py_truthy agent then
    match fuel with
    | O => Raise NonTermination
    | S n =>
        ag ← deref h agent;
        rec ← _serialize_agent ag;
        next ← py_get (agent_data ag) DATA_NAME_SUBORDINATE VNone;
        rest ← serialize_agents n h next;
        Ok (rec :: rest)
    end
  else Ok [].

(** *** Contexts *)

(** Modelled from the spec: a context of [agent.py] (section 3).  A time
    stamp may be absent; [agent0] and [streaming_agent] are references. *)
Record AgentContext : Type := mkAgentContext {
  ctx_config : AgentConfig;
  ctx_id : pyval;
  ctx_name : pyval;
  ctx_created_at : option datetime;
  ctx_type : AgentContextType;
  ctx_last_message : option datetime;
  ctx_log : Log;
  ctx_paused : bool;
  ctx_agent0 : pyval;
  ctx_streaming_agent : pyval
}.

(** Modelled from the spec: the constructor of [AgentContext].  It keeps the
    arguments it is given; a context built without an identifier is issued a
    new one.  [new_context_id] stands for the identifier of one such
    construction; nothing is concluded from it about the identifiers of two
    constructions. *)
Definition issued_id (id : pyval) : pyval :=
  match id with VNone => VStr new_context_id | _ => id end.

Definition AgentContext_new (config : AgentConfig) (id name : pyval)
    (created_at : datetime) (ty : AgentContextType) (last_message : datetime)
    (log : Log) (paused : bool) : AgentContext :=
  {| ctx_config := config;
     ctx_id := issued_id id;
     ctx_name := name;
     ctx_created_at := Some created_at;
     ctx_type := ty;
     ctx_last_message := Some last_message;
     ctx_log := log;
     ctx_paused := paused;
     ctx_agent0 := VNone;
     ctx_streaming_agent := VNone |}.

(** [AgentContextType(value)]: the member with that value. *)
Definition AgentContextType_of (v : pyval) : result AgentContextType :=
  match filter (fun m => py_eq (VStr (type_value m)) v = true)
          [USER; TASK; BACKGROUND] with
  | m :: _ => Ok m
  | [] => Raise ValueError
  end.

(** [datetime.fromisoformat(o)]. *)
Definition datetime_fromisoformat (o : pyval) : result datetime :=
  match o with
  | VStr s => match fromisoformat s with
              | Some d => Ok d
              | None => Raise ValueError
              end
  | _ => Raise TypeError
  end.

(** [persist_chat.py], lines 17-27. *)
Definition get_chat_folder_path (ctxid : string) : string :=
  get_abs_path CHATS_FOLDER ctxid.

(** [persist_chat.py], lines 106-114: the marker directory goes first, then
    a helper is constructed and the empty history is saved. *)
Definition remove_chat (fuel : nat) (ctxid : string) (w : world) : result world :=
  let path := get_chat_folder_path ctxid in
  let w := delete_dir path w in
  w ← MemGraphHelper.__init__ w;
  MemGraphHelper.save_history fuel ctxid (VList []) w.

(** [persist_chat.py], lines 117-142. *)
Definition _serialize_context (fuel : nat) (context : AgentContext)
    (h : agents_store) : result pyval :=
  agents ← serialize_agents fuel h (ctx_agent0 context);
  streaming ← (if py_truthy (ctx_streaming_agent context)
               then ag ← deref h (ctx_streaming_agent context);
                    Ok (agent_number ag)
               else Ok (VInt 0));
  Ok (VDict [ ("id", ctx_id context);
              ("name", ctx_name context);
              ("created_at",
               VStr (isoformat (default epoch0 (ctx_created_at context))));
              ("type", VStr (type_value (ctx_type context)));
              ("last_message",
               VStr (isoformat (default epoch0 (ctx_last_message context))));
              ("agents", VList agents);
              ("streaming_agent", streaming);
              ("log", _serialize_log (ctx_log context)) ]).

(** [persist_chat.py], lines 99-103. *)
Definition export_json_chat (fuel : nat) (context : AgentContext)
    (h : agents_store) : result string :=
  data ← _serialize_context fuel context h;
  _safe_json_serialize fuel data false.

(** The loop of [_deserialize_agents]; [prev] and [zero] are [None] or the
    address of an agent. *)
Fixpoint deserialize_agents_loop (ags : list pyval) (config : AgentConfig)
    (prev zero : option nat) (h : agents_store)
    : result (option nat * agents_store) :=
  match ags with
  | [] => Ok (zero, h)
  | ag :: ags' =>
      number ← py_getitem ag "number";
      let '(current, h) := alloc (Agent_new number config) h in
      d ← py_get ag "data" (VDict []);
      let h := alter (fun a => with_data a d) current h in
      hist_data ← py_get ag "history" (VStr EmptyString);
      hist ← deserialize_history hist_data;
      let h := alter (fun a => with_history a hist) current h in
      let zero := match zero with None => Some current | Some z => Some z end in
      h ← match prev with
           | Some p =>
               h ← set_data p DATA_NAME_SUBORDINATE (VObj current) h;
               set_data current DATA_NAME_SUPERIOR (VObj p) h
           | None => Ok h
           end;
      deserialize_agents_loop ags' config (Some current) zero h
  end.

(** [persist_chat.py], lines 206-230; the result is [zero or Agent(0, ...)]. *)
Definition _deserialize_agents (agents : pyval) (config : AgentConfig)
    (h : agents_store) : result (nat * agents_store) :=
  ags ← py_iter agents;
  r ← deserialize_agents_loop ags config None None h;
  match r.1 with
  | Some zero => Ok (zero, r.2)
  | None => Ok (alloc (Agent_new (VInt 0) config) r.2)
  end.

(** The loop that resolves the streaming agent in [_deserialize_context]. *)
Fixpoint find_streaming (fuel : nat) (h : agents_store)
    (streaming_agent : pyval) (wanted : pyval) : result pyval :=
  if py_truthy streaming_agent then
    match fuel with
    | O => Raise NonTermination
    | S n =>
        ag ← deref h streaming_agent;
        if negb (py_eq (agent_number ag) wanted)
        then next ← py_get (agent_data ag) DATA_NAME_SUBORDINATE VNone;
             find_streaming n h next wanted
        else Ok streaming_agent
    end
  else Ok streaming_agent.

(** [persist_chat.py], lines 168-203. *)
Definition _deserialize_context (fuel : nat) (data : pyval) (h : agents_store)
    : result (AgentContext * agents_store) :=
  let config := initialize_agent in
  log_data ← py_get data "log" VNone;
  log ← _deserialize_log log_data;
  id ← py_get data "id" VNone;
  name ← py_get data "name" VNone;
  created_raw ← py_get data "created_at" (VStr (isoformat epoch0));
  created_at ← datetime_fromisoformat created_raw;
  type_raw ← py_get data "type" (VStr (type_value USER));
  ty ← AgentContextType_of type_raw;
  last_raw ← py_get data "last_message" (VStr (isoformat epoch0));
  last_message ← datetime_fromisoformat last_raw;
  let context :=
    AgentContext_new config id name created_at ty last_message log false in
  agents ← py_get data "agents" (VList []);
  r ← _deserialize_agents agents config h;
  let '(zero, h) := r in
  let agent0 := VObj zero in
  wanted ← py_get data "streaming_agent" (VInt 0);
  streaming_agent ← find_streaming fuel h agent0 wanted;
  Ok ({| ctx_config := ctx_config context;
         ctx_id := ctx_id context;
         ctx_name := ctx_name context;
         ctx_created_at := ctx_created_at context;
         ctx_type := ctx_type context;
         ctx_last_message := ctx_last_message context;
         ctx_log := ctx_log context;
         ctx_paused := ctx_paused context;
         ctx_agent0 := agent0;
         ctx_streaming_agent := streaming_agent |}, h).

(** *** Import *)

(** One pass of the loop of [load_json_chats]: the text is decoded, an [id]
    entry is deleted, and the context is built from what is left. *)
Definition load_json_chat (fuel : nat) (js : string) (h : agents_store)
    : result (AgentContext * agents_store) :=
  data ← json.loads js;
  has_id ← py_contains "id" data;
  data ← (if has_id : bool then py_delitem data "id" else Ok data);
  _deserialize_context fuel data h.

(** [persist_chat.py], lines 87-96. *)
Fixpoint load_json_chats_loop (fuel : nat) (jsons : list string)
    (ctxids : list pyval) (h : agents_store)
    : result (list pyval * agents_store) :=
  match jsons with
  | [] => Ok (ctxids, h)
  | js :: jsons' =>
      r ← load_json_chat fuel js h;
      load_json_chats_loop fuel jsons' (ctxids ++ [ctx_id r.1]) r.2
  end.

Definition load_json_chats (fuel : nat) (jsons : list string)
    (h : agents_store) : result (list pyval * agents_store) :=
  load_json_chats_loop fuel jsons [] h.

(** *** Saving and restoring the conversations *)

(** What the orchestrator takes from code outside the sources, besides the
    above.
    - [History.output()], the messages of a history, and
      [History.add_message(ai, content)], which appends one;
    - [files.list_files(folder, "*")], the names of the entries of a folder,
      given the directories that exist;
    - the time at which a context is constructed. *)
Variable History_output : History -> pyval.
Variable add_message : bool -> pyval -> History -> History.
Variable list_files : string -> gset string -> list string.
Variable now : datetime.

(** [context.type == AgentContextType.BACKGROUND]. *)
Definition is_background (ty : AgentContextType) : bool :=
  match ty with
  | BACKGROUND => true
  | _ => false
  end.

(** The identifier of a context, where a path is made of it: a string
    (section 3); the path functions answer anything else with [TypeError]. *)
Definition id_string (id : pyval) : result string :=
  match id with
  | VStr s => Ok s
  | _ => Raise TypeError
  end.

(** The body of the inner loop of [save_tmp_chat]: the record written for
    one message. *)
Definition history_record (message : pyval) : result pyval :=
  ai ← py_getitem message "ai";
  let role := if py_truthy ai then "ai" else "user" in
  content ← py_getitem message "content";
  Ok (VDict [("role", VStr role); ("content", content)]).

(** The loop [while agent: ...] of [save_tmp_chat]; [history] is the list
    built so far. *)
Fixpoint flatten_histories (fuel : nat) (h : agents_store) (agent : pyval)
    (history : list pyval) : result (list pyval) :=
  if py_truthy agent then
    match fuel with
    | O => Raise NonTermination
    | S n =>
        ag ← deref h agent;
        messages ← py_iter (History_output (agent_history ag));
        records ← mapM history_record messages;
        next ← py_get (agent_data ag) DATA_NAME_SUBORDINATE VNone;
        flatten_histories n h next (history ++ records)
    end
  else Ok history.

(** [persist_chat.py], lines 30-49. *)
Definition save_tmp_chat (fuel : nat) (context : AgentContext)
    (h : agents_store) (w : world) : result world :=
  if is_background (ctx_type context) then Ok w
  else
    ctxid ← id_string (ctx_id context);
    let path := get_chat_folder_path ctxid in
    let w := make_dirs path w in
    w ← MemGraphHelper.__init__ w;
    history ← flatten_histories fuel h (ctx_agent0 context) [];
    MemGraphHelper.save_history fuel ctxid (VList history) w.

(** [persist_chat.py], lines 51-56; [contexts] are the values of the
    registry [AgentContext._contexts], in its order. *)
Fixpoint save_tmp_chats (fuel : nat) (contexts : list AgentContext)
    (h : agents_store) (w : world) : result world :=
  match contexts with
  | [] => Ok w
  | context :: contexts' =>
      if is_background (ctx_type context)
      then save_tmp_chats fuel contexts' h w
      else w ← save_tmp_chat fuel context h w;
           save_tmp_chats fuel contexts' h w
  end.

(** Modelled from the spec: the context that [AgentContext(config, id)]
    constructs in [load_tmp_chats], "a fresh agent-runtime context" with "a
    single root agent" (section 4.4).  The root agent has number 0; what the
    call does not give takes the constructor's defaults: no name, the type
    [USER], a new log, not paused, no streaming agent, and the time of the
    construction as both time stamps. *)
Definition AgentContext_fresh (config : AgentConfig) (id : pyval)
    (h : agents_store) : AgentContext * agents_store :=
  let '(root, h) := alloc (Agent_new (VInt 0) config) h in
  ({| ctx_config := config;
      ctx_id := issued_id id;
      ctx_name := VNone;
      ctx_created_at := Some now;
      ctx_type := USER;
      ctx_last_message := Some now;
      ctx_log := Log_new;
      ctx_paused := false;
      ctx_agent0 := VObj root;
      ctx_streaming_agent := VNone |}, h).

(** What [load_tmp_chats] has done so far: the identifiers collected, the
    contexts constructed, and the agents that exist. *)
Record restored : Type := mkRestored {
  restored_ctxids : list pyval;
  restored_contexts : list AgentContext;
  restored_agents : agents_store
}.

(** The body of the inner loop of [load_tmp_chats]: one stored record is
    replayed into the history of [agent]. *)
Definition replay_message (message : pyval) (agent : pyval)
    (h : agents_store) : result agents_store :=
  role ← py_getitem message "role";
  content ← py_getitem message "content";
  let is_ai := py_eq role (VStr "ai") in
  ag ← deref h agent;
  match agent with
  | VObj a =>
      Ok (<[a := with_history ag (add_message is_ai content (agent_history ag))]> h)
  | _ => Raise AttributeError
  end.

(** The inner loop; an exception leaves the agents as they were when it was
    raised. *)
Fixpoint replay (messages : list pyval) (agent : pyval) (h : agents_store)
    : agents_store * result unit :=
  match messages with
  | [] => (h, Ok tt)
  | message :: messages' =>
      match replay_message message agent h with
      | Ok h' => replay messages' agent h'
      | Raise e => (h, Raise e)
      end
  end.

(** The body of the [try] of [load_tmp_chats] with its handler, which
    catches every exception: what has been constructed by then stays, and
    the identifier is collected only when the end of the body is reached. *)
Definition load_folder (folder_name : string) (w : world) (st : restored)
    : restored * world :=
  let user_id := strip "/" folder_name in
  match MemGraphHelper.load_history user_id w with
  | Raise _ => (st, w)
  | Ok (history, w) =>
      if py_truthy history then
        let config := initialize_agent in
        let '(context, h) := AgentContext_fresh config (VStr user_id) (restored_agents st) in
        let agent := ctx_agent0 context in
        let constructed := restored_contexts st ++ [context] in
        match py_iter history with
        | Raise _ => ({| restored_ctxids := restored_ctxids st;
                        restored_contexts := constructed;
                        restored_agents := h |}, w)
        | Ok messages =>
            let '(h, r) := replay messages agent h in
            match r with
            | Ok _ => ({| restored_ctxids := restored_ctxids st ++ [ctx_id context];
                          restored_contexts := constructed;
                          restored_agents := h |}, w)
            | Raise _ => ({| restored_ctxids := restored_ctxids st;
                             restored_contexts := constructed;
                             restored_agents := h |}, w)
            end
        end
      else (st, w)
  end.

Fixpoint load_folders (folders : list string) (w : world) (st : restored)
    : restored * world :=
  match folders with
  | [] => (st, w)
  | folder_name :: folders' =>
      let '(st, w) := load_folder folder_name w st in
      load_folders folders' w st
  end.

(** [persist_chat.py], lines 59-84; the helper is constructed outside the
    [try]. *)
Definition load_tmp_chats (h : agents_store) (w : world)
    : result (restored * world) :=
  w ← MemGraphHelper.__init__ w;
  let folders := list_files CHATS_FOLDER (dirs w) in
  Ok (load_folders folders w {| restored_ctxids := []; restored_contexts := [];
                                restored_agents := h |}).


(* ===================================================================== *)
(** ** Vocabulary of the statements *)
(* ===================================================================== *)

(** A text between double quotes. *)
Definition quoted (s : string) : string :=
  String json.dquote (s +:+ String json.dquote EmptyString).

(** An agent record as [_deserialize_agents] reads it: [number], the data
    bag (a dictionary, or absent) and the stored history, which the history
    module accepts. *)
Abbreviation agent_fields := (pyval * dict * History)%type.

Definition record_of (ag : pyval) (r : agent_fields) : Prop :=
  exists f,
    ag = VDict f /\
    dict_get "number" f = Some r.1.1 /\
    default (VDict []) (dict_get "data" f) = VDict r.1.2 /\
    deserialize_history (default (VStr EmptyString) (dict_get "history" f))
    = Ok r.2.

(** The agent built from the fields of a record. *)
Definition node (config : AgentConfig) (num : pyval) (d : dict)
    (hist : History) : Agent :=
  {| agent_number := num; agent_config := config; agent_data := VDict d;
     agent_history := hist |}.

(** The effect of [set_data] on an agent whose bag is a dictionary. *)
Definition put (field : string) (v : pyval) (ag : Agent) : Agent :=
  with_data ag match agent_data ag with
               | VDict d => VDict (dict_set field v d)
               | o => o
               end.

(** The agents from address [p] on once the records [recs] that follow the
    agent [last] at [p] have been read and linked. *)
Fixpoint chain_from (config : AgentConfig) (p : nat) (last : Agent)
    (recs : list agent_fields) : list Agent :=
  match recs with
  | [] => [last]
  | r :: recs' =>
      put DATA_NAME_SUBORDINATE (VObj (S p)) last ::
      chain_from config (S p)
        (node config r.1.1 (dict_set DATA_NAME_SUPERIOR (VObj p) r.1.2) r.2)
        recs'
  end.

(** The first agent, counted from address [p], whose number equals
    [wanted]; [None] when there is none. *)
Fixpoint first_match (wanted : pyval) (p : nat) (numbers : list pyval) : pyval :=
  match numbers with
  | [] => VNone
  | n :: numbers' =>
      if py_eq n wanted then VObj p else first_match wanted (S p) numbers'
  end.

(** A stored data bag without an entry under the subordinate link. *)
Definition no_subordinate (r : agent_fields) : Prop :=
  dict_get DATA_NAME_SUBORDINATE r.1.2 = None.

(** The agents that [_deserialize_agents] adds at address [base], and their
    numbers. *)
Definition built (config : AgentConfig) (base : nat)
    (recs : list agent_fields) : list Agent :=
  match recs with
  | [] => [Agent_new (VInt 0) config]
  | r :: recs' => chain_from config base (node config r.1.1 r.1.2 r.2) recs'
  end.

Definition numbers (recs : list agent_fields) : list pyval :=
  match recs with
  | [] => [VInt 0]
  | _ => map (fun r => r.1.1) recs
  end.

(** A stored log: a dictionary whose [logs], when present, is a list of
    entries with a [type] and a [kvps] that is empty, null or a mapping. *)
Definition kvps_ok (k : pyval) : Prop :=
  py_truthy k = false \/ exists kd, k = VDict kd.

Definition log_entry_ok (e : pyval) : Prop :=
  exists f k,
    e = VDict f /\ is_Some (dict_get "type" f) /\
    dict_get "kvps" f = Some k /\ kvps_ok k.

Definition log_record_ok (lg : pyval) : Prop :=
  exists g entries,
    lg = VDict g /\
    default (VList []) (dict_get "logs" g) = VList entries /\
    Forall log_entry_ok entries.

(** What may follow an integer literal: not a digit, and nothing that would
    start a fraction or an exponent. *)
Definition ends_number (rest : string) : bool :=
  match rest with
  | EmptyString => true
  | String c _ => negb (json.is_digit c) && negb (json.starts_float rest)
  end.

(** The values that have a JSON text: no live object anywhere, and no key
    twice in a dictionary. *)
Fixpoint distinct (ks : list string) : bool :=
  match ks with
  | [] => true
  | k :: ks' => negb (existsb (String.eqb k) ks') && distinct ks'
  end.

Fixpoint json_representable (v : pyval) : bool :=
  match v with
  | VObj _ => false
  | VList l => forallb json_representable l
  | VDict d =>
      distinct (map fst d) &&
      forallb (fun kv : string * pyval => json_representable kv.2) d
  | _ => true
  end.

(** The nesting depth of a value. *)
Fixpoint depth (v : pyval) : nat :=
  match v with
  | VList l => S (foldr (fun x n => Nat.max (depth x) n) 0%nat l)
  | VDict d => S (foldr (fun kv n => Nat.max (depth kv.2) n) 0%nat d)
  | _ => 0%nat
  end.

(** The text of a representable value. *)
Fixpoint render (ea : bool) (v : pyval) : string :=
  match v with
  | VNone => "null"
  | VBool true => "true"
  | VBool false => "false"
  | VInt z => json.encode_int z
  | VStr s => json.encode_str ea s
  | VList l => "[" +:+ json.join ", " (map (render ea) l) +:+ "]"
  | VDict d =>
      "{" +:+ json.join ", "
                (map (fun kv : string * pyval =>
                        json.encode_str ea kv.1 +:+ ": " +:+ render ea kv.2) d)
          +:+ "}"
  | VObj _ => EmptyString
  end.

(** A text that starts a value: its first character is neither white space
    nor a closing bracket. *)
Definition plain_head (s : string) : bool :=
  match s with
  | String c _ => negb (json.is_ws c) && negb (N_of_ascii c =? 93)%N
  | EmptyString => false
  end.

(** A value whose text, followed by anything that ends a number, is read
    back, the length of the text being enough fuel. *)
Definition scans (ea : bool) (x : pyval) : Prop :=
  json_representable x = true ->
  forall (fuel : nat) (rest : string),
    (String.length (render ea x) <= fuel)%nat ->
    ends_number rest = true ->
    json.scan_value fuel (render ea x +:+ rest) = Some (x, rest).

(** The text of one member of an object. *)
Definition pair_text (ea : bool) (kv : string * pyval) : string :=
  json.encode_str ea kv.1 +:+ ": " +:+ render ea kv.2.

(** The value with every live object replaced by [None]. *)
Fixpoint nullify (v : pyval) : pyval :=
  match v with
  | VObj _ => VNone
  | VList l => VList (map nullify l)
  | VDict d => VDict (map (fun kv : string * pyval => (kv.1, nullify kv.2)) d)
  | _ => v
  end.

(** An entry after the round trip: renumbered, and an empty [kvps] mapping
    has become an absent one. *)
Definition reload_kvps (k : option dict) : option dict :=
  match k with
  | Some (kv :: d) => Some (kv :: d)
  | _ => None
  end.

Definition reload_item (i : nat) (item : LogItem) : LogItem :=
  {| item_no := i; item_type := item_type item;
     item_heading := item_heading item; item_content := item_content item;
     item_kvps := reload_kvps (item_kvps item); item_temp := item_temp item |}.

Fixpoint reload_items (i : nat) (items : list LogItem) : list LogItem :=
  match items with
  | [] => []
  | item :: items' => reload_item i item :: reload_items (S i) items'
  end.

(** The agents met from [v] on by following the subordinate links. *)
Inductive chain (h : agents_store) : pyval -> list Agent -> Prop :=
| chain_end (v : pyval) : py_truthy v = false -> chain h v []
| chain_step (a : nat) (ag : Agent) (d : dict) (rest : list Agent) :
    h !! a = Some ag ->
    agent_data ag = VDict d ->
    chain h (default VNone (dict_get DATA_NAME_SUBORDINATE d)) rest ->
    chain h (VObj a) (ag :: rest).

(** The data bag of an agent, its serialized record, and the fields that
    loading this record reads. *)
Definition bag (ag : Agent) : dict :=
  match agent_data ag with
  | VDict d => d
  | _ => []
  end.

Definition agent_record (ag : Agent) : pyval :=
  VDict [ ("number", agent_number ag);
          ("data", VDict (public_items (bag ag)));
          ("history", History_serialize (agent_history ag)) ].

Definition fields_of (ag : Agent) : agent_fields :=
  (agent_number ag, public_items (bag ag), agent_history ag).

(** The keys of a data bag that start with [_] are chain links. *)
Definition only_links (d : dict) : Prop :=
  forall k, String.prefix "_" k = true -> dict_get k d <> None ->
            k = DATA_NAME_SUBORDINATE \/ k = DATA_NAME_SUPERIOR.

(** Agreement of an agent [a] and its copy [b] on what the round trip keeps:
    the number, the history, and the data bag apart from the keys that start
    with [_], of which the copy has none but its own chain links. *)
Definition same_agent (a b : Agent) : Prop :=
  agent_number b = agent_number a /\
  agent_history b = agent_history a /\
  exists d d', agent_data a = VDict d /\ agent_data b = VDict d' /\
               public_items d' = public_items d /\ only_links d'.

(** Agreement of two log entries on everything but their index. *)
Definition same_entry (a b : LogItem) : Prop :=
  item_type b = item_type a /\
  item_heading b = item_heading a /\
  item_content b = item_content a /\
  item_kvps b = item_kvps a /\
  item_temp b = item_temp a.

(** What it means for the context loaded from the serialized form of [c] to
    reproduce [c]: both steps return, and the loaded context agrees with [c]
    on the identity, the name, the time stamps, the type, the agents along
    the chain, the log's identity and the entries of the log; the entries
    are numbered from 0, every one is pending, and the progress markers are
    in their initial state.  [h] holds the agents of [c], [h0] the agents
    that exist when the record is loaded. *)
Definition reproduces (fuel : nat) (c : AgentContext) (h h0 : agents_store)
    : Prop :=
  exists rec c' h',
    _serialize_context fuel c h = Ok rec /\
    _deserialize_context fuel rec h0 = Ok (c', h') /\
    ctx_id c' = ctx_id c /\
    ctx_name c' = ctx_name c /\
    ctx_created_at c' = ctx_created_at c /\
    ctx_last_message c' = ctx_last_message c /\
    ctx_type c' = ctx_type c /\
    (exists nodes nodes',
       chain h (ctx_agent0 c) nodes /\
       chain h' (ctx_agent0 c') nodes' /\
       Forall2 same_agent nodes nodes') /\
    log_guid (ctx_log c') = log_guid (ctx_log c) /\
    Forall2 same_entry (log_logs (ctx_log c)) (log_logs (ctx_log c')) /\
    map item_no (log_logs (ctx_log c'))
      = seq 0 (length (log_logs (ctx_log c'))) /\
    log_updates (ctx_log c') = seq 0 (length (log_logs (ctx_log c'))) /\
    log_progress (ctx_log c') = initial_progress /\
    log_progress_no (ctx_log c') = initial_progress_no.

(** What [load_history] answers, given whether the store is in reach and
    what it holds under the key. *)
Definition loaded (reachable : bool) (stored : option string) : pyval :=
  if reachable then
    match stored with
    | None => VList []
    | Some s =>
        if String.eqb s "(nil)" then VList []
        else match MemGraphHelper.decode_response (VStr s) with
             | Ok v => v
             | Raise _ => VList []
             end
    end
  else VList [].

(** The entry that a stored entry with the fields [f] becomes at index [i],
    when its [kvps] is empty, null or a mapping. *)
Definition loaded_entry (i : nat) (f : dict) : LogItem :=
  {| item_no := i;
     item_type := default VNone (dict_get "type" f);
     item_heading := default (VStr EmptyString) (dict_get "heading" f);
     item_content := default (VStr EmptyString) (dict_get "content" f);
     item_kvps := match dict_get "kvps" f with
                  | Some (VDict (kv :: d)) => Some (kv :: d)
                  | _ => None
                  end;
     item_temp := default (VBool false) (dict_get "temp" f) |}.

(** The agent built from the record [r] at position [i] of [n], the first
    agent of the chain being at address [base]: number, history and
    configuration are those of the record, and so is the data bag apart from
    the two links, which refer to the neighbours in the chain. *)
Definition wired (config : AgentConfig) (base n i : nat) (r : agent_fields)
    (ag : Agent) : Prop :=
  agent_number ag = r.1.1 /\
  agent_history ag = r.2 /\
  agent_config ag = config /\
  exists d,
    agent_data ag = VDict d /\
    (forall k, k <> DATA_NAME_SUBORDINATE -> k <> DATA_NAME_SUPERIOR ->
               dict_get k d = dict_get k r.1.2) /\
    dict_get DATA_NAME_SUBORDINATE d
    = (if (S i <? n)%nat then Some (VObj (base + S i))
       else dict_get DATA_NAME_SUBORDINATE r.1.2) /\
    dict_get DATA_NAME_SUPERIOR d
    = (if (0 <? i)%nat then Some (VObj (base + i - 1))
       else dict_get DATA_NAME_SUPERIOR r.1.2).

(** Agreement of a context [c], whose agents are in [h], and a copy [c'],
    whose agents are in [h'], on what a round trip keeps, the identifier
    apart. *)
Definition same_but_id (c : AgentContext) (h : agents_store)
    (c' : AgentContext) (h' : agents_store) : Prop :=
  ctx_name c' = ctx_name c /\
  ctx_created_at c' = ctx_created_at c /\
  ctx_last_message c' = ctx_last_message c /\
  ctx_type c' = ctx_type c /\
  (exists nodes nodes',
     chain h (ctx_agent0 c) nodes /\
     chain h' (ctx_agent0 c') nodes' /\
     Forall2 same_agent nodes nodes') /\
  log_guid (ctx_log c') = log_guid (ctx_log c) /\
  Forall2 same_entry (log_logs (ctx_log c)) (log_logs (ctx_log c')) /\
  map item_no (log_logs (ctx_log c')) = seq 0 (length (log_logs (ctx_log c'))) /\
  log_updates (ctx_log c') = seq 0 (length (log_logs (ctx_log c'))) /\
  log_progress (ctx_log c') = initial_progress /\
  log_progress_no (ctx_log c') = initial_progress_no.

(** A message as [History.output()] gives it: a dictionary with the entries
    [ai] and [content], here [p.1] and [p.2]. *)
Definition message_of (m : pyval) (p : pyval * pyval) : Prop :=
  exists f, m = VDict f /\ dict_get "ai" f = Some p.1 /\
            dict_get "content" f = Some p.2.

(** The record stored for such a message. *)
Definition stored_record (p : pyval * pyval) : pyval :=
  VDict [ ("role", VStr (if py_truthy p.1 then "ai" else "user"));
          ("content", p.2) ].

(** An agent whose history puts out the messages [ms]. *)
Definition outputs (ag : Agent) (ms : list (pyval * pyval)) : Prop :=
  exists msgs, History_output (agent_history ag) = VList msgs /\
               Forall2 message_of msgs ms.

(** A stored record that the replay of [load_tmp_chats] accepts: it has the
    entries [role] and [content]. *)
Definition replays (m : pyval) : bool :=
  match py_getitem m "role", py_getitem m "content" with
  | Ok _, Ok _ => true
  | _, _ => false
  end.

(** A loaded value from which [load_tmp_chats] restores a conversation: it
    is true, it can be iterated, and the replay accepts each element. *)
Definition restorable (history : pyval) : bool :=
  py_truthy history &&
  match py_iter history with
  | Ok messages => forallb replays messages
  | Raise _ => false
  end.

(** What [load_history] answers in the world [w] for the folder [n]. *)
Definition history_of (w : world) (n : string) : pyval :=
  loaded (online w) (store w !! MemGraphHelper.key_of (strip "/" n)).

(** A stored record with the role [p.1] and the content [p.2]. *)
Definition stored_as (m : pyval) (p : pyval * pyval) : Prop :=
  exists f, m = VDict f /\ dict_get "role" f = Some p.1 /\
            dict_get "content" f = Some p.2.

(** The history after the records [ps] have been replayed into [hist]. *)
Definition replayed (ps : list (pyval * pyval)) (hist : History) : History :=
  foldl (fun hist p => add_message (py_eq p.1 (VStr "ai")) p.2 hist) hist ps.

(** A text without a double quote. *)
Fixpoint quote_free (s : string) : bool :=
  match s with
  | EmptyString => true
  | String c s' => negb (N_of_ascii c =? 34)%N && quote_free s'
  end.

(** Two texts of dictionaries that differ at most in the entry [id]. *)
Definition same_apart_from_id (js js' : string) : Prop :=
  exists d d',
    json.loads js = Ok (VDict d) /\ json.loads js' = Ok (VDict d') /\
    dict_del "id" d = dict_del "id" d'.

(** A text of ASCII characters only. *)
Fixpoint all_ascii (s : string) : bool :=
  match s with
  | EmptyString => true
  | String c s' => (N_of_ascii c <? 128)%N && all_ascii s'
  end.

(* ===================================================================== *)
(** ** Properties *)
(* ===================================================================== *)

(** *** Slicing and the log serializer *)

Lemma slice_from_neg {A} (n : nat) (l : list A) :
  (0 < n)%nat -> slice_from (- Z.of_nat n) l = drop (length l - n) l.
Proof.
  intros Hn. unfold slice_from.
  destruct (Z.ltb_spec (- Z.of_nat n) 0) as [_|]; [|lia].
  f_equal. lia.
Qed.

Lemma serialize_log_logs (log : Log) :
  py_getitem (_serialize_log log) "logs"
  = Ok (VList (map LogItem_output
                 (drop (length (log_logs log) - 1000) (log_logs log)))).
Proof.
  unfold _serialize_log, LOG_SIZE.
  change (Z.opp 1000) with (Z.opp (Z.of_nat 1000)).
  rewrite slice_from_neg by lia. reflexivity.
Qed.

(** C4.  A log with more than 1000 entries serializes to exactly its last
    1000 entries, in their original order: the [i]-th emitted entry is the
    output of the entry at position [length - 1000 + i]. *)
Theorem serialize_log_truncates (log : Log) :
  (1000 < length (log_logs log))%nat ->
  exists out,
    py_getitem (_serialize_log log) "logs" = Ok (VList out) /\
    length out = 1000%nat /\
    out = map LogItem_output
            (drop (length (log_logs log) - 1000) (log_logs log)) /\
    forall i, (i < 1000)%nat ->
      out !! i = LogItem_output <$>
                   log_logs log !! (length (log_logs log) - 1000 + i)%nat.
Proof.
  intros Hlen. eexists. split; [apply serialize_log_logs|].
  split; [|split; [reflexivity|]].
  - rewrite length_map, length_drop. lia.
  - intros i Hi. rewrite list_lookup_fmap, lookup_drop. reflexivity.
Qed.

(** *** Log entries on load *)

(** An entry that carries [type] and [kvps] may lack the other fields: they
    take their defaults. *)
Lemma deserialize_log_item_defaults (i : nat) (d : dict) (t k : pyval) :
  dict_get "type" d = Some t ->
  dict_get "kvps" d = Some k ->
  py_truthy k = false ->
  dict_get "heading" d = None ->
  dict_get "content" d = None ->
  dict_get "temp" d = None ->
  deserialize_log_item i (VDict d)
  = Ok {| item_no := i; item_type := t; item_heading := VStr EmptyString;
          item_content := VStr EmptyString; item_kvps := None;
          item_temp := VBool false |}.
Proof.
  intros Ht Hk Hf Hh Hc Htemp. unfold deserialize_log_item. cbn.
  rewrite Ht, Hk, Hh, Hc, Htemp. cbn. rewrite Hf. reflexivity.
Qed.

Lemma deserialize_log_item_no_kvps (i : nat) (d : dict) (t : pyval) :
  dict_get "type" d = Some t ->
  dict_get "kvps" d = None ->
  deserialize_log_item i (VDict d) = Raise (KeyError "kvps").
Proof.
  intros Ht Hk. unfold deserialize_log_item. cbn. rewrite Ht, Hk. reflexivity.
Qed.

(** C3.  What the code does on an entry that has [type] but no [kvps]
    (whatever else it has or lacks): the subscript [item_data["kvps"]]
    raises [KeyError], and so does the whole load. *)
Theorem deserialize_log_missing_kvps_raises (g : dict) (d : dict) (t : pyval) :
  dict_get "logs" g = Some (VList [VDict d]) ->
  dict_get "type" d = Some t ->
  dict_get "kvps" d = None ->
  _deserialize_log (VDict g) = Raise (KeyError "kvps").
Proof.
  intros Hg Ht Hk. unfold _deserialize_log. cbn. rewrite Hg. cbn.
  rewrite Ht, Hk. reflexivity.
Qed.

(** C10.  A context record without a [log] field makes
    [_deserialize_context] raise: the field defaults to [None], and
    [_deserialize_log] calls [.get] on it. *)
Theorem deserialize_context_requires_log (fuel : nat) (d : dict)
    (h : agents_store) :
  dict_get "log" d = None ->
  _deserialize_context fuel (VDict d) h = Raise AttributeError.
Proof.
  intros Hlog. unfold _deserialize_context. cbn. rewrite Hlog. reflexivity.
Qed.

(** *** The export sanitizer *)

(** C2.  What the code does with a data bag that holds a live object: the
    encoder hands the object to [serializer], which answers [None], and the
    key stays in the output with the value [null]. *)
Theorem safe_json_serialize_keeps_key :
  _safe_json_serialize 10 (VDict [("a", VInt 1); ("h", VObj 7)]) false
  = Ok ("{" +:+ quoted "a" +:+ ": 1, " +:+ quoted "h" +:+ ": null}")
  /\ _safe_json_serialize 10 (VList [VInt 1; VObj 7; VInt 2]) false
     = Ok "[1, null, 2]"
  /\ _safe_json_serialize 10
       (VDict [("cfg", VDict [("h", VObj 7); ("n", VInt 1)])]) false
     = Ok ("{" +:+ quoted "cfg" +:+ ": {" +:+ quoted "h" +:+ ": null, "
               +:+ quoted "n" +:+ ": 1}}").
Proof. repeat split; vm_compute; reflexivity. Qed.

(** *** Removal *)

Lemma dumps_empty_list (fuel : nat) :
  json.dumps true None (S fuel) (VList []) = Ok "[]".
Proof. reflexivity. Qed.


(** *** Dictionaries *)

Lemma dict_get_set_eq (k : string) (v : pyval) (d : dict) :
  dict_get k (dict_set k v d) = Some v.
Proof.
  induction d as [|[k' v'] d IH]; cbn.
  - rewrite String.eqb_refl. reflexivity.
  - destruct (String.eqb k k') eqn:E; cbn; rewrite E; [reflexivity|exact IH].
Qed.

Lemma dict_get_set_ne (k k' : string) (v : pyval) (d : dict) :
  k <> k' -> dict_get k' (dict_set k v d) = dict_get k' d.
Proof.
  intros Hne. induction d as [|[k0 v0] d IH]; cbn.
  - apply String.eqb_neq in Hne. rewrite String.eqb_sym, Hne. reflexivity.
  - destruct (String.eqb k k0) eqn:E; cbn.
    + apply String.eqb_eq in E. subst k0.
      assert (String.eqb k' k = false) as ->
        by (rewrite String.eqb_sym; apply String.eqb_neq; exact Hne).
      reflexivity.
    + destruct (String.eqb k' k0); [reflexivity|exact IH].
Qed.

(** *** Rebuilding the agent chain *)

Lemma put_data (field : string) (v : pyval) (ag : Agent) (d : dict) :
  agent_data ag = VDict d ->
  agent_data (put field v ag) = VDict (dict_set field v d).
Proof. intros Hd. unfold put. rewrite Hd. reflexivity. Qed.

Lemma put_number (field : string) (v : pyval) (ag : Agent) :
  agent_number (put field v ag) = agent_number ag.
Proof. reflexivity. Qed.

Lemma put_history (field : string) (v : pyval) (ag : Agent) :
  agent_history (put field v ag) = agent_history ag.
Proof. reflexivity. Qed.

Lemma set_data_dict (a : nat) (field : string) (v : pyval) (h : agents_store)
    (ag : Agent) (d : dict) :
  h !! a = Some ag -> agent_data ag = VDict d ->
  set_data a field v h = Ok (<[a := put field v ag]> h).
Proof.
  intros Hl Hd. unfold set_data, deref, put. rewrite Hl. cbn.
  rewrite Hd. reflexivity.
Qed.

Lemma insert_last {A} (l : list A) (x y : A) :
  <[length l := y]> (l ++ [x]) = l ++ [y].
Proof.
  replace (length l) with (length l + 0)%nat by lia.
  rewrite insert_app_r. reflexivity.
Qed.

Lemma alter_last {A} (f : A -> A) (l : list A) (x : A) :
  alter f (length l) (l ++ [x]) = l ++ [f x].
Proof.
  replace (length l) with (length l + 0)%nat by lia.
  rewrite alter_app_r. reflexivity.
Qed.

Lemma lookup_last {A} (l : list A) (x : A) : (l ++ [x]) !! length l = Some x.
Proof.
  rewrite lookup_app_r by lia. rewrite Nat.sub_diag. reflexivity.
Qed.

Lemma deserialize_agents_loop_linked (config : AgentConfig)
    (ags : list pyval) (recs : list agent_fields) :
  Forall2 record_of ags recs ->
  forall (h : agents_store) (last : Agent) (dl : dict) (z : nat),
    agent_data last = VDict dl ->
    deserialize_agents_loop ags config (Some (length h)) (Some z) (h ++ [last])
    = Ok (Some z, h ++ chain_from config (length h) last recs).
Proof.
  induction 1 as [|ag r ags recs Hr _ IH]; intros h last dl z Hdl.
  - reflexivity.
  - destruct Hr as (f & -> & Hnum & Hdata & Hhist).
    destruct r as [[num d] hist]. cbn in Hnum, Hdata, Hhist.
    cbn [deserialize_agents_loop py_getitem py_get mbind result_bind alloc].
    rewrite Hnum. cbn [mbind result_bind]. rewrite Hdata.
    rewrite Hhist. cbn [mbind result_bind].
    rewrite !alter_last.
    change (with_history (with_data (Agent_new num config) (VDict d)) hist)
      with (node config num d hist).
    rewrite length_app. cbn [length].
    replace (length h + 1)%nat with (S (length h)) by lia.
    rewrite (set_data_dict (length h) _ _ _ last dl); [|
      rewrite lookup_app_l by (rewrite length_app; cbn; lia);
      apply lookup_last | exact Hdl].
    cbn [mbind result_bind].
    rewrite insert_app_l by (rewrite length_app; cbn; lia).
    rewrite insert_last.
    set (last' := put DATA_NAME_SUBORDINATE (VObj (S (length h))) last).
    assert (Hlen : length (h ++ [last']) = S (length h))
      by (rewrite length_app; cbn; lia).
    rewrite (set_data_dict (S (length h)) _ _ _ (node config num d hist) d);
      [|rewrite <- Hlen; apply lookup_last|reflexivity].
    cbn [mbind result_bind].
    rewrite <- Hlen. rewrite insert_last.
    erewrite IH; [|reflexivity].
    rewrite Hlen. cbn [chain_from]. rewrite <- app_assoc. reflexivity.
Qed.

Lemma deserialize_agents_empty (config : AgentConfig) (h : agents_store) :
  _deserialize_agents (VList []) config h
  = Ok (length h, h ++ [Agent_new (VInt 0) config]).
Proof. reflexivity. Qed.

Lemma deserialize_agents_records (config : AgentConfig) (ag : pyval)
    (ags : list pyval) (r : agent_fields) (recs : list agent_fields)
    (h : agents_store) :
  record_of ag r -> Forall2 record_of ags recs ->
  _deserialize_agents (VList (ag :: ags)) config h
  = Ok (length h,
        h ++ chain_from config (length h) (node config r.1.1 r.1.2 r.2) recs).
Proof.
  intros (f & -> & Hnum & Hdata & Hhist) Hrecs.
  unfold _deserialize_agents.
  cbn [py_iter mbind result_bind deserialize_agents_loop py_getitem py_get alloc].
  rewrite Hnum. cbn [mbind result_bind]. rewrite Hdata, Hhist.
  cbn [mbind result_bind]. rewrite !alter_last.
  change (with_history (with_data (Agent_new r.1.1 config) (VDict r.1.2)) r.2)
    with (node config r.1.1 r.1.2 r.2).
  erewrite deserialize_agents_loop_linked; [|exact Hrecs|reflexivity].
  reflexivity.
Qed.

(** Whatever the records are, a loop that returns leaves [zero] at an
    existing agent. *)
Lemma set_data_length (a : nat) (field : string) (v : pyval)
    (h h' : agents_store) :
  set_data a field v h = Ok h' -> length h' = length h.
Proof.
  unfold set_data. destruct (deref h (VObj a)) as [ag|]; [|discriminate].
  cbn. destruct (py_setitem (agent_data ag) field v); [|discriminate].
  cbn. intros [= <-]. apply length_insert.
Qed.

Lemma deserialize_agents_loop_zero (config : AgentConfig) (ags : list pyval) :
  forall (prev zero : option nat) (h : agents_store) (zero' : option nat)
         (h' : agents_store),
    deserialize_agents_loop ags config prev zero h = Ok (zero', h') ->
    (forall z, zero = Some z -> (z < length h)%nat) ->
    (length h <= length h')%nat /\
    (forall z, zero' = Some z -> (z < length h')%nat).
Proof.
  induction ags as [|ag ags IH]; intros prev zero h zero' h' Hrun Hz.
  - cbn in Hrun. injection Hrun as <- <-. split; [lia|exact Hz].
  - cbn [deserialize_agents_loop alloc] in Hrun.
    destruct (py_getitem ag "number") as [num|]; [|discriminate].
    cbn [mbind result_bind] in Hrun.
    destruct (py_get ag "data" (VDict [])) as [d|]; [|discriminate].
    cbn [mbind result_bind] in Hrun.
    destruct (py_get ag "history" (VStr EmptyString)) as [hd|]; [|discriminate].
    cbn [mbind result_bind] in Hrun.
    destruct (deserialize_history hd) as [hist|]; [|discriminate].
    cbn [mbind result_bind] in Hrun.
    rewrite !alter_last in Hrun.
    set (h1 := h ++ [_]) in Hrun.
    assert (Hh1 : length h1 = S (length h))
      by (unfold h1; rewrite length_app; cbn; lia).
    assert (Hlink : forall h2,
      match prev with
      | Some p =>
          set_data p DATA_NAME_SUBORDINATE (VObj (length h)) h1
          ≫= (fun h0 => set_data (length h) DATA_NAME_SUPERIOR (VObj p) h0)
      | None => Ok h1
      end = Ok h2 -> length h2 = S (length h)).
    { intros h2. destruct prev as [p|].
      - destruct (set_data p _ _ h1) as [h0|] eqn:E1; [|discriminate].
        cbn. intros E2. apply set_data_length in E1, E2. lia.
      - intros [= <-]. exact Hh1. }
    destruct (match prev with Some _ => _ | None => _ end) as [h2|] eqn:E;
      [|discriminate].
    cbn [mbind result_bind] in Hrun. specialize (Hlink h2 eq_refl).
    apply IH in Hrun.
    + destruct Hrun as (Hlen & Hz'). split; [lia|exact Hz'].
    + intros z Hzz. destruct zero as [z0|].
      * injection Hzz as <-. specialize (Hz z0 eq_refl). lia.
      * injection Hzz as <-. lia.
Qed.

(** C6.  The empty record sequence yields one new agent, a root with number
    0, an empty data bag and no subordinate; and whatever the records are,
    the agent that [_deserialize_agents] returns exists. *)
Theorem deserialize_agents_never_empty (config : AgentConfig)
    (h : agents_store) :
  (exists root,
     _deserialize_agents (VList []) config h = Ok (length h, h ++ [root]) /\
     agent_number root = VInt 0 /\
     agent_data root = VDict [] /\
     py_get (agent_data root) DATA_NAME_SUBORDINATE VNone = Ok VNone) /\
  (forall agents zero h',
     _deserialize_agents agents config h = Ok (zero, h') ->
     is_Some (h' !! zero)).
Proof.
  split.
  - exists (Agent_new (VInt 0) config). repeat split; reflexivity.
  - intros agents zero h' Hrun. unfold _deserialize_agents in Hrun.
    destruct (py_iter agents) as [ags|]; [|discriminate].
    cbn [mbind result_bind] in Hrun.
    destruct (deserialize_agents_loop ags config None None h)
      as [[zero' h1]|] eqn:E; [|discriminate].
    cbn [mbind result_bind fst snd] in Hrun.
    apply deserialize_agents_loop_zero in E; [|discriminate].
    destruct E as (_ & Hz). apply lookup_lt_is_Some.
    destruct zero' as [z|].
    + injection Hrun as <- <-. apply Hz. reflexivity.
    + injection Hrun as <- <-. rewrite length_app. cbn. lia.
Qed.

(** *** Resolving the streaming agent *)

Lemma find_streaming_chain (config : AgentConfig) (wanted : pyval)
    (recs : list agent_fields) :
  DATA_NAME_SUPERIOR <> DATA_NAME_SUBORDINATE ->
  Forall no_subordinate recs ->
  forall (fuel : nat) (h : agents_store) (last : Agent) (dl : dict),
    agent_data last = VDict dl ->
    dict_get DATA_NAME_SUBORDINATE dl = None ->
    (length recs < fuel)%nat ->
    find_streaming fuel (h ++ chain_from config (length h) last recs)
      (VObj (length h)) wanted
    = Ok (first_match wanted (length h)
            (agent_number last :: map (fun r => r.1.1) recs)).
Proof.
  intros Hne. induction 1 as [|r recs Hr _ IH];
    intros fuel h last dl Hdl Hsub Hfuel.
  - destruct fuel as [|fuel]; [cbn in Hfuel; lia|].
    cbn [find_streaming py_truthy chain_from deref map first_match].
    rewrite lookup_last. cbn [mbind result_bind].
    destruct (py_eq (agent_number last) wanted); cbn [negb]; [reflexivity|].
    rewrite Hdl. cbn [py_get]. rewrite Hsub. cbn [default from_option id mbind result_bind].
    destruct fuel; reflexivity.
  - destruct fuel as [|fuel]; [cbn in Hfuel; lia|].
    cbn [find_streaming py_truthy chain_from deref map first_match].
    rewrite lookup_app_r by lia. rewrite Nat.sub_diag.
    cbn [lookup list_lookup mbind result_bind].
    rewrite put_number.
    destruct (py_eq (agent_number last) wanted); cbn [negb]; [reflexivity|].
    rewrite (put_data _ _ _ dl Hdl).
    cbn [py_get]. rewrite dict_get_set_eq.
    cbn [default from_option id mbind result_bind].
    rewrite (app_assoc h [_] _) || rewrite cons_middle, app_assoc.
    set (h1 := h ++ [_]).
    assert (Hh1 : S (length h) = length h1)
      by (unfold h1; rewrite length_app; cbn; lia).
    rewrite Hh1.
    erewrite IH; [reflexivity|reflexivity| |cbn in Hfuel; lia].
    rewrite dict_get_set_ne by exact Hne. exact Hr.
Qed.

(** *** Loading a context whose agent records are well formed *)

Lemma numbers_fuel (recs : list agent_fields) (fuel : nat) :
  (length recs < fuel)%nat -> (length (numbers recs) <= fuel)%nat.
Proof.
  destruct recs as [|r recs]; cbn [numbers]; intros H.
  - cbn [length] in *. lia.
  - rewrite length_map. lia.
Qed.

Lemma deserialize_context_records (fuel : nat) (d : dict) (h : agents_store)
    (lg : pyval) (log : Log) (ags : list pyval) (recs : list agent_fields)
    (t1 t2 : datetime) (ty : AgentContextType) :
  dict_get "log" d = Some lg ->
  _deserialize_log lg = Ok log ->
  datetime_fromisoformat
    (default (VStr (isoformat epoch0)) (dict_get "created_at" d)) = Ok t1 ->
  AgentContextType_of
    (default (VStr (type_value USER)) (dict_get "type" d)) = Ok ty ->
  datetime_fromisoformat
    (default (VStr (isoformat epoch0)) (dict_get "last_message" d)) = Ok t2 ->
  default (VList []) (dict_get "agents" d) = VList ags ->
  Forall2 record_of ags recs ->
  DATA_NAME_SUPERIOR <> DATA_NAME_SUBORDINATE ->
  Forall no_subordinate recs ->
  (length (numbers recs) <= fuel)%nat ->
  _deserialize_context fuel (VDict d) h
  = Ok ({| ctx_config := initialize_agent;
           ctx_id := issued_id (default VNone (dict_get "id" d));
           ctx_name := default VNone (dict_get "name" d);
           ctx_created_at := Some t1;
           ctx_type := ty;
           ctx_last_message := Some t2;
           ctx_log := log;
           ctx_paused := false;
           ctx_agent0 := VObj (length h);
           ctx_streaming_agent :=
             first_match (default (VInt 0) (dict_get "streaming_agent" d))
               (length h) (numbers recs) |},
        h ++ built initialize_agent (length h) recs).
Proof.
  intros Hlog Hlg Ht1 Hty Ht2 Hags Hrecs Hne Hsub Hfuel.
  unfold _deserialize_context. cbn [py_get mbind result_bind].
  rewrite Hlog. cbn [default from_option id]. rewrite Hlg.
  cbn [mbind result_bind]. rewrite Ht1. cbn [mbind result_bind].
  rewrite Hty. cbn [mbind result_bind]. rewrite Ht2. cbn [mbind result_bind].
  rewrite Hags.
  destruct Hrecs as [|ag r ags recs Hr Hrecs].
  - rewrite deserialize_agents_empty. cbn [mbind result_bind].
    destruct fuel as [|fuel]; [cbn in Hfuel; lia|].
    cbn [find_streaming py_truthy deref]. rewrite lookup_last.
    cbn [mbind result_bind Agent_new agent_number agent_data py_get dict_get
         numbers first_match default from_option id].
    destruct (py_eq (VInt 0) _); cbn [negb mbind result_bind].
    + reflexivity.
    + destruct fuel; reflexivity.
  - rewrite (deserialize_agents_records _ _ _ r recs _ Hr Hrecs).
    cbn [mbind result_bind].
    apply Forall_cons in Hsub as [Hs1 Hsub].
    cbn [numbers] in Hfuel. rewrite length_map in Hfuel. cbn [length] in Hfuel.
    erewrite find_streaming_chain;
      [reflexivity|exact Hne|exact Hsub|reflexivity|exact Hs1|lia].
Qed.

(** *** Well-formed stored records *)

Lemma deserialize_log_item_ok (i : nat) (e : pyval) :
  log_entry_ok e -> returns (deserialize_log_item i e).
Proof.
  intros (f & k & -> & [t Ht] & Hk & Hok).
  unfold deserialize_log_item. cbn [py_getitem py_get mbind result_bind].
  rewrite Ht, Hk. cbn [mbind result_bind].
  destruct Hok as [Hfalse|[kd ->]].
  - rewrite Hfalse. cbn [mbind result_bind]. eexists. reflexivity.
  - destruct (py_truthy (VDict kd)); cbn [mbind result_bind OrderedDict];
      eexists; reflexivity.
Qed.

Lemma deserialize_log_loop_ok (items : list pyval) :
  Forall log_entry_ok items ->
  forall (i : nat) (log : Log), returns (deserialize_log_loop items i log).
Proof.
  induction 1 as [|e items He _ IH]; intros i log.
  - eexists. reflexivity.
  - cbn [deserialize_log_loop].
    destruct (deserialize_log_item_ok i e He) as [item ->].
    cbn [mbind result_bind]. apply IH.
Qed.

Lemma deserialize_log_ok (lg : pyval) :
  log_record_ok lg -> returns (_deserialize_log lg).
Proof.
  intros (g & entries & -> & Hlogs & Hentries).
  unfold _deserialize_log. cbn [py_get mbind result_bind].
  rewrite Hlogs. cbn [py_iter mbind result_bind].
  apply deserialize_log_loop_ok. exact Hentries.
Qed.

Lemma AgentContextType_of_USER :
  AgentContextType_of (VStr (type_value USER)) = Ok USER.
Proof.
  unfold AgentContextType_of. cbn [filter list_filter].
  destruct (decide _) as [_|Hn]; [reflexivity|].
  exfalso. apply Hn. cbn. apply String.eqb_refl.
Qed.

(** C5.  A stored record without [created_at], [last_message] and [type],
    with a well-formed log and well-formed agent records, loads: the time
    stamps of the context are the epoch-zero time stamp and its type is
    [USER]. *)
Theorem deserialize_context_legacy_defaults (fuel : nat) (d : dict)
    (h : agents_store) (lg : pyval) (ags : list pyval)
    (recs : list agent_fields) :
  dict_get "created_at" d = None ->
  dict_get "last_message" d = None ->
  dict_get "type" d = None ->
  dict_get "log" d = Some lg ->
  log_record_ok lg ->
  default (VList []) (dict_get "agents" d) = VList ags ->
  Forall2 record_of ags recs ->
  Forall no_subordinate recs ->
  DATA_NAME_SUPERIOR <> DATA_NAME_SUBORDINATE ->
  fromisoformat (isoformat epoch0) = Some epoch0 ->
  (length recs < fuel)%nat ->
  exists c h',
    _deserialize_context fuel (VDict d) h = Ok (c, h') /\
    ctx_created_at c = Some epoch0 /\
    ctx_last_message c = Some epoch0 /\
    ctx_type c = USER.
Proof.
  intros Hc Hl Ht Hlog Hlg Hags Hrecs Hsub Hne Hiso Hfuel.
  destruct (deserialize_log_ok lg Hlg) as [log Hload].
  eexists _, _. split.
  - eapply (deserialize_context_records fuel d h lg log ags recs epoch0 epoch0 USER);
      try eassumption; try (apply numbers_fuel; assumption).
    + rewrite Hc. cbn. rewrite Hiso. reflexivity.
    + rewrite Ht. apply AgentContextType_of_USER.
    + rewrite Hl. cbn. rewrite Hiso. reflexivity.
  - repeat split; reflexivity.
Qed.


(** *** JSON texts decode to the values they encode *)

Lemma append_cons (x : ascii) (a b : string) :
  String x a +:+ b = String x (a +:+ b).
Proof. reflexivity. Qed.

Lemma append_nil_l (a : string) : EmptyString +:+ a = a.
Proof. reflexivity. Qed.

Lemma append_assoc (a b c : string) : (a +:+ b) +:+ c = a +:+ (b +:+ c).
Proof.
  induction a as [|x a IH]; [reflexivity|].
  rewrite !append_cons, IH. reflexivity.
Qed.

Lemma append_nil_r (a : string) : a +:+ EmptyString = a.
Proof.
  induction a as [|x a IH]; [reflexivity|].
  rewrite append_cons, IH. reflexivity.
Qed.

Lemma length_append (a b : string) :
  String.length (a +:+ b) = (String.length a + String.length b)%nat.
Proof.
  induction a as [|x a IH]; [reflexivity|].
  rewrite append_cons. cbn [String.length]. rewrite IH. reflexivity.
Qed.

(** One character of a string literal, escaped and read back. *)
Lemma scanstring_escape_char (ea : bool) (c : ascii) (rest : string) :
  json.scanstring (json.escape_char ea c +:+ rest)
  = tl ← json.scanstring rest; Some (String c tl.1, tl.2).
Proof.
  destruct ea;
    destruct c as [[] [] [] [] [] [] [] []]; reflexivity.
Qed.

Lemma scanstring_escape (ea : bool) (s rest : string) :
  json.scanstring (json.escape ea s +:+ String json.dquote rest)
  = Some (s, rest).
Proof.
  induction s as [|c s IH].
  - reflexivity.
  - cbn [json.escape]. rewrite append_assoc, scanstring_escape_char, IH.
    reflexivity.
Qed.

Lemma scan_value_str (ea : bool) (fuel : nat) (s rest : string) :
  json.scan_value (S fuel) (json.encode_str ea s +:+ rest)
  = Some (VStr s, rest).
Proof.
  unfold json.encode_str. rewrite append_cons, append_assoc, append_cons.
  rewrite append_nil_l. cbn [json.scan_value].
  change (N_of_ascii json.dquote =? 34)%N with true. cbn match.
  rewrite scanstring_escape. reflexivity.
Qed.

Lemma to_uint_head (p : positive) :
  match Pos.to_uint p with
  | Decimal.Nil | Decimal.D0 _ => False
  | _ => True
  end.
Proof.
  assert (Hnorm : Decimal.unorm (Pos.to_uint p) = Pos.to_uint p).
  { rewrite <- DecimalPos.Unsigned.to_of, DecimalPos.Unsigned.of_to.
    reflexivity. }
  pose proof (DecimalPos.Unsigned.to_uint_nonzero p) as Hnz.
  pose proof (DecimalPos.Unsigned.to_uint_nonnil p) as Hnn.
  destruct (Pos.to_uint p) as [|d| | | | | | | | |] eqn:E; try exact I.
  - apply Hnn. reflexivity.
  - destruct (Decimal.nzhead (Decimal.D0 d)) eqn:Hh.
    + apply DecimalFacts.unorm_0 in Hh. rewrite Hnorm in Hh. apply Hnz, Hh.
    + rewrite DecimalFacts.unorm_nzhead in Hnorm by (rewrite Hh; discriminate).
      eapply DecimalFacts.nzhead_nonzero, Hnorm.
    + rewrite DecimalFacts.unorm_nzhead in Hnorm by (rewrite Hh; discriminate).
      eapply DecimalFacts.nzhead_nonzero, Hnorm.
    + rewrite DecimalFacts.unorm_nzhead in Hnorm by (rewrite Hh; discriminate).
      eapply DecimalFacts.nzhead_nonzero, Hnorm.
    + rewrite DecimalFacts.unorm_nzhead in Hnorm by (rewrite Hh; discriminate).
      eapply DecimalFacts.nzhead_nonzero, Hnorm.
    + rewrite DecimalFacts.unorm_nzhead in Hnorm by (rewrite Hh; discriminate).
      eapply DecimalFacts.nzhead_nonzero, Hnorm.
    + rewrite DecimalFacts.unorm_nzhead in Hnorm by (rewrite Hh; discriminate).
      eapply DecimalFacts.nzhead_nonzero, Hnorm.
    + rewrite DecimalFacts.unorm_nzhead in Hnorm by (rewrite Hh; discriminate).
      eapply DecimalFacts.nzhead_nonzero, Hnorm.
    + rewrite DecimalFacts.unorm_nzhead in Hnorm by (rewrite Hh; discriminate).
      eapply DecimalFacts.nzhead_nonzero, Hnorm.
    + rewrite DecimalFacts.unorm_nzhead in Hnorm by (rewrite Hh; discriminate).
      eapply DecimalFacts.nzhead_nonzero, Hnorm.
    + rewrite DecimalFacts.unorm_nzhead in Hnorm by (rewrite Hh; discriminate).
      eapply DecimalFacts.nzhead_nonzero, Hnorm.
Qed.

Lemma span_digits_uint (d : Decimal.uint) (rest : string) :
  ends_number rest = true ->
  json.span_digits (DecimalString.NilEmpty.string_of_uint d +:+ rest)
  = (DecimalString.NilEmpty.string_of_uint d, rest).
Proof.
  intros Hrest.
  induction d; cbn [DecimalString.NilEmpty.string_of_uint];
    rewrite ?append_cons; cbn [json.span_digits];
    try (change (json.is_digit _) with true; cbn match; rewrite IHd;
         reflexivity).
  rewrite append_nil_l. destruct rest as [|c r]; [reflexivity|].
  cbn [json.span_digits]. cbn [ends_number] in Hrest.
  destruct (json.is_digit c); [discriminate|reflexivity].
Qed.

Lemma scan_uint_pos (p : positive) (rest : string) :
  ends_number rest = true ->
  json.scan_uint (DecimalString.NilEmpty.string_of_uint (Pos.to_uint p) +:+ rest)
  = Some (Pos.to_uint p, rest).
Proof.
  intros Hrest. pose proof (to_uint_head p) as Hhead.
  pose proof (span_digits_uint (Pos.to_uint p) rest Hrest) as Hspan.
  pose proof (DecimalString.NilEmpty.usu (Pos.to_uint p)) as Husu.
  destruct (Pos.to_uint p) as [|d|d|d|d|d|d|d|d|d|d]; try contradiction;
    cbn [DecimalString.NilEmpty.string_of_uint] in *;
    rewrite append_cons in *; unfold json.scan_uint;
    (change (N_of_ascii _ =? 48)%N with false);
    (change (json.is_digit _) with true); cbn match;
    rewrite Hspan, Husu; reflexivity.
Qed.

Lemma starts_float_ends_number (rest : string) :
  ends_number rest = true -> json.starts_float rest = false.
Proof.
  destruct rest as [|c r]; [reflexivity|]. cbn [ends_number].
  destruct (json.starts_float (String c r)); [|reflexivity].
  rewrite andb_false_r. discriminate.
Qed.

Lemma scan_int_encode (z : Z) (rest : string) :
  ends_number rest = true ->
  json.scan_int (json.encode_int z +:+ rest) = Some (z, rest).
Proof.
  intros Hrest. pose proof (starts_float_ends_number rest Hrest) as Hfl.
  unfold json.encode_int, json.scan_int.
  destruct z as [|p|p]; cbn [Z.to_int DecimalString.NilZero.string_of_int].
  - cbn [DecimalString.NilZero.string_of_uint
         DecimalString.NilEmpty.string_of_uint].
    rewrite append_cons, append_nil_l. unfold json.scan_uint.
    (change (N_of_ascii "0" =? 45)%N with false).
    (change (N_of_ascii "0" =? 48)%N with true). cbn match.
    cbn [mbind option_bind fst snd]. rewrite Hfl. reflexivity.
  - pose proof (scan_uint_pos p rest Hrest) as Hscan.
    pose proof (to_uint_head p) as Hhead.
    unfold DecimalString.NilZero.string_of_uint.
    destruct (Pos.to_uint p) as [|d|d|d|d|d|d|d|d|d|d] eqn:E; try contradiction;
      cbn [DecimalString.NilEmpty.string_of_uint] in *;
      rewrite append_cons in *;
      (change (N_of_ascii _ =? 45)%N with false); cbn match;
      rewrite Hscan; cbn [mbind option_bind fst snd]; rewrite Hfl;
      rewrite <- E;
      change (Decimal.Pos (Pos.to_uint p)) with (Z.to_int (Z.pos p));
      rewrite DecimalZ.of_to; reflexivity.
  - pose proof (scan_uint_pos p rest Hrest) as Hscan.
    pose proof (to_uint_head p) as Hhead.
    rewrite append_cons.
    (change (N_of_ascii "-" =? 45)%N with true); cbn match.
    unfold DecimalString.NilZero.string_of_uint.
    destruct (Pos.to_uint p) as [|d|d|d|d|d|d|d|d|d|d] eqn:E; try contradiction;
      rewrite Hscan; cbn [mbind option_bind fst snd]; rewrite Hfl;
      rewrite <- E;
      change (Decimal.Neg (Pos.to_uint p)) with (Z.to_int (Z.neg p));
      rewrite DecimalZ.of_to; reflexivity.
Qed.

(** Induction on values, with the hypothesis for every element of a list and
    every value of a dictionary. *)
Lemma pyval_induction (P : pyval -> Prop) :
  P VNone ->
  (forall b, P (VBool b)) ->
  (forall z, P (VInt z)) ->
  (forall s, P (VStr s)) ->
  (forall l, Forall P l -> P (VList l)) ->
  (forall d, Forall (fun kv => P kv.2) d -> P (VDict d)) ->
  (forall a, P (VObj a)) ->
  forall v, P v.
Proof.
  intros Hnone Hbool Hint Hstr Hlist Hdict Hobj.
  fix IH 1. intros [| b | z | s | l | d | a].
  - exact Hnone.
  - apply Hbool.
  - apply Hint.
  - apply Hstr.
  - apply Hlist. induction l as [|x l IHl]; constructor; [apply IH|exact IHl].
  - apply Hdict. induction d as [|[k x] d IHd]; constructor;
      [apply IH|exact IHd].
  - apply Hobj.
Qed.

Lemma mapM_Ok {A B} (f : A -> result B) (g : A -> B) (l : list A) :
  Forall (fun x => f x = Ok (g x)) l -> mapM f l = Ok (map g l).
Proof.
  induction 1 as [|x l Hx _ IH]; [reflexivity|].
  cbn [mapM map]. rewrite Hx. cbn [mbind result_bind]. rewrite IH. reflexivity.
Qed.

Lemma encode_render (ea : bool) (dflt : pyval -> result pyval) (v : pyval) :
  json_representable v = true ->
  forall (fuel : nat) (markers : list nat),
    (depth v < fuel)%nat ->
    json.encode ea dflt fuel markers v = Ok (render ea v).
Proof.
  induction v as [| b | z | s | l IH | d IH | a] using pyval_induction;
    intros Hok fuel markers Hfuel;
    (destruct fuel as [|fuel]; [lia|]); cbn [json.encode render].
  - reflexivity.
  - destruct b; reflexivity.
  - reflexivity.
  - reflexivity.
  - rewrite (mapM_Ok _ (render ea)); [reflexivity|].
    cbn [json_representable] in Hok. cbn [depth] in Hfuel.
    apply Nat.succ_lt_mono in Hfuel.
    induction IH as [|x l Hx _ IHl]; constructor.
    + cbn in Hok, Hfuel. apply andb_true_iff in Hok as [Hx1 _].
      apply Hx; [exact Hx1|lia].
    + cbn in Hok, Hfuel. apply andb_true_iff in Hok as [_ Hl].
      apply IHl; [exact Hl|lia].
  - rewrite (mapM_Ok _ (fun kv : string * pyval =>
               json.encode_str ea kv.1 +:+ ": " +:+ render ea kv.2));
      [reflexivity|].
    cbn [json_representable] in Hok. cbn [depth] in Hfuel.
    apply andb_true_iff in Hok as [_ Hok].
    apply Nat.succ_lt_mono in Hfuel.
    induction IH as [|x l Hx _ IHl]; constructor.
    + cbn in Hok, Hfuel. apply andb_true_iff in Hok as [Hx1 _].
      rewrite Hx; [reflexivity|exact Hx1|lia].
    + cbn in Hok, Hfuel. apply andb_true_iff in Hok as [_ Hl].
      apply IHl; [exact Hl|lia].
  - discriminate Hok.
Qed.

Lemma skip_ws_plain (s : string) : plain_head s = true -> json.skip_ws s = s.
Proof.
  destruct s as [|c r]; [reflexivity|]. cbn [plain_head json.skip_ws].
  destruct (json.is_ws c); [discriminate|reflexivity].
Qed.

Lemma starts_with_plain (s : string) :
  plain_head s = true -> json.starts_with 93 s = None.
Proof.
  destruct s as [|c r]; [reflexivity|]. cbn [plain_head json.starts_with].
  destruct (N_of_ascii c =? 93)%N; [|reflexivity].
  rewrite andb_false_r. discriminate.
Qed.

Lemma encode_int_head (z : Z) (rest : string) :
  exists c r,
    json.encode_int z +:+ rest = String c r /\
    ((N_of_ascii c =? 45)%N || json.is_digit c) = true.
Proof.
  unfold json.encode_int.
  destruct z as [|p|p]; cbn [Z.to_int DecimalString.NilZero.string_of_int].
  - eexists _, _. split; reflexivity.
  - pose proof (to_uint_head p) as Hhead.
    unfold DecimalString.NilZero.string_of_uint.
    destruct (Pos.to_uint p); try contradiction;
      eexists _, _; split; reflexivity.
  - eexists _, _. split; reflexivity.
Qed.

Lemma scan_value_number (fuel : nat) (c : ascii) (r : string) :
  ((N_of_ascii c =? 45)%N || json.is_digit c) = true ->
  json.scan_value (S fuel) (String c r)
  = res ← json.scan_int (String c r); Some (VInt res.1, res.2).
Proof.
  destruct c as [[] [] [] [] [] [] [] []]; intros H;
    try discriminate H; reflexivity.
Qed.

Lemma number_head_plain (c : ascii) (r : string) :
  ((N_of_ascii c =? 45)%N || json.is_digit c) = true ->
  plain_head (String c r) = true.
Proof.
  destruct c as [[] [] [] [] [] [] [] []]; intros H;
    try discriminate H; reflexivity.
Qed.

Lemma scan_value_int (fuel : nat) (z : Z) (rest : string) :
  ends_number rest = true ->
  json.scan_value (S fuel) (json.encode_int z +:+ rest) = Some (VInt z, rest).
Proof.
  intros Hrest. pose proof (scan_int_encode z rest Hrest) as Hscan.
  destruct (encode_int_head z rest) as (c & r & E & Hc).
  rewrite E in *. rewrite (scan_value_number _ _ _ Hc), Hscan. reflexivity.
Qed.

Lemma render_plain (ea : bool) (v : pyval) (rest : string) :
  json_representable v = true -> plain_head (render ea v +:+ rest) = true.
Proof.
  destruct v as [| [] | z | s | l | d | a]; intros Hok;
    try discriminate Hok; try reflexivity.
  destruct (encode_int_head z rest) as (c & r & E & Hc).
  cbn [render]. rewrite E. exact (number_head_plain c r Hc).
Qed.

Lemma render_length (ea : bool) (v : pyval) :
  json_representable v = true -> (1 <= String.length (render ea v))%nat.
Proof.
  intros Hok. pose proof (render_plain ea v EmptyString Hok) as H.
  rewrite append_nil_r in H. destruct (render ea v); [discriminate|cbn; lia].
Qed.

Lemma join_cons2 (sep x y : string) (l : list string) :
  json.join sep (x :: y :: l) = x +:+ sep +:+ json.join sep (y :: l).
Proof. reflexivity. Qed.

Lemma join_plain (ea : bool) (x : pyval) (l : list pyval) (rest : string) :
  json_representable x = true ->
  plain_head (json.join ", " (map (render ea) (x :: l)) +:+ rest) = true.
Proof.
  intros Hx. destruct l as [|y l]; cbn [map].
  - apply render_plain, Hx.
  - rewrite join_cons2, append_assoc. apply render_plain, Hx.
Qed.

Lemma scan_items_render (ea : bool) (l : list pyval) :
  forall (x : pyval),
    Forall (scans ea) (x :: l) ->
    forallb json_representable (x :: l) = true ->
    forall (fuel : nat) (rest : string),
      (String.length (json.join ", " (map (render ea) (x :: l))) + 1 <= fuel)%nat ->
      json.scan_items fuel
        (json.join ", " (map (render ea) (x :: l)) +:+ String "]" rest)
      = Some (x :: l, rest).
Proof.
  induction l as [|y l IH]; intros x Hall Hok fuel rest Hfuel;
    apply Forall_cons in Hall as [Hx Hall];
    cbn [forallb] in Hok; apply andb_true_iff in Hok as [Hokx Hok];
    (destruct fuel as [|fuel]; [lia|]); cbn [json.scan_items map].
  - cbn [json.join map] in *.
    rewrite (Hx Hokx fuel (String "]" rest)); [|lia|reflexivity].
    reflexivity.
  - cbn [map] in Hfuel. rewrite join_cons2 in *. rewrite !append_assoc.
    rewrite !length_append in Hfuel. cbn [String.length] in Hfuel.
    pose proof (render_length ea x Hokx) as Hlen.
    rewrite (Hx Hokx fuel); [|lia|reflexivity].
    cbn [mbind option_bind fst snd].
    change (render ea y :: map (render ea) l)
      with (map (render ea) (y :: l)) in *.
    set (X := json.join ", " (map (render ea) (y :: l)) +:+ String "]" rest).
    change (json.starts_with 93 (json.skip_ws (", " +:+ X))) with (@None string).
    change (json.starts_with 44 (json.skip_ws (", " +:+ X)))
      with (Some (String " " X)).
    cbn [mbind option_bind].
    change (json.skip_ws (String " " X)) with (json.skip_ws X).
    rewrite skip_ws_plain
      by (apply join_plain; cbn [forallb] in Hok;
          apply andb_true_iff in Hok as [Hy _]; exact Hy).
    unfold X. rewrite (IH y Hall Hok fuel rest); [reflexivity|lia].
Qed.

Lemma encode_str_append (ea : bool) (s rest : string) :
  json.encode_str ea s +:+ rest
  = String json.dquote (json.escape ea s +:+ String json.dquote rest).
Proof.
  unfold json.encode_str. rewrite append_cons, append_assoc, append_cons.
  reflexivity.
Qed.

Lemma pairs_plain (ea : bool) (kv : string * pyval) (d : dict) (rest : string) :
  plain_head (json.join ", " (map (pair_text ea) (kv :: d)) +:+ rest) = true.
Proof.
  destruct d as [|kv' d]; cbn [map].
  - unfold pair_text. cbn [json.join]. rewrite append_assoc, encode_str_append.
    reflexivity.
  - rewrite join_cons2, append_assoc. unfold pair_text at 1.
    rewrite append_assoc, encode_str_append. reflexivity.
Qed.

Lemma scan_pairs_render (ea : bool) (d : dict) :
  forall (kv : string * pyval),
    Forall (fun kv => scans ea kv.2) (kv :: d) ->
    forallb (fun kv : string * pyval => json_representable kv.2) (kv :: d) = true ->
    forall (fuel : nat) (rest : string),
      (String.length (json.join ", " (map (pair_text ea) (kv :: d))) + 1
       <= fuel)%nat ->
      json.scan_pairs fuel
        (json.join ", " (map (pair_text ea) (kv :: d)) +:+ String "}" rest)
      = Some (kv :: d, rest).
Proof.
  induction d as [|kv' d IH]; intros [k x] Hall Hok fuel rest Hfuel;
    apply Forall_cons in Hall as [Hx Hall];
    cbn [forallb] in Hok; apply andb_true_iff in Hok as [Hokx Hok];
    cbn [fst snd] in Hx, Hokx;
    (destruct fuel as [|fuel]; [lia|]); cbn [json.scan_pairs].
  - cbn [json.join map] in *. unfold pair_text in *. cbn [fst snd] in *.
    rewrite !length_append in Hfuel. cbn [String.length] in Hfuel.
    rewrite !append_assoc, encode_str_append.
    cbn [json.starts_with].
    change (N_of_ascii json.dquote =? 34)%N with true.
    cbn [mbind option_bind]. rewrite scanstring_escape.
    cbn [mbind option_bind fst snd].
    set (Y := render ea x +:+ String "}" rest).
    change (json.starts_with 58 (json.skip_ws (": " +:+ Y)))
      with (Some (String " " Y)).
    cbn [mbind option_bind].
    change (json.skip_ws (String " " Y)) with (json.skip_ws Y).
    rewrite skip_ws_plain by (apply render_plain, Hokx).
    unfold Y. rewrite (Hx Hokx fuel (String "}" rest)); [|lia|reflexivity].
    reflexivity.
  - cbn [map] in Hfuel |- *. rewrite join_cons2 in Hfuel |- *.
    unfold pair_text at 1. unfold pair_text at 1 in Hfuel.
    cbn [fst snd] in *.
    rewrite !length_append in Hfuel. cbn [String.length] in Hfuel.
    pose proof (render_length ea x Hokx) as Hlen.
    rewrite !append_assoc, encode_str_append.
    cbn [json.starts_with].
    change (N_of_ascii json.dquote =? 34)%N with true.
    cbn [mbind option_bind]. rewrite scanstring_escape.
    cbn [mbind option_bind fst snd].
    change (pair_text ea kv' :: map (pair_text ea) d)
      with (map (pair_text ea) (kv' :: d)) in Hfuel |- *.
    set (X := json.join ", " (map (pair_text ea) (kv' :: d)) +:+ String "}" rest).
    set (Y := render ea x +:+ ", " +:+ X).
    change (json.starts_with 58 (json.skip_ws (": " +:+ Y)))
      with (Some (String " " Y)).
    cbn [mbind option_bind].
    change (json.skip_ws (String " " Y)) with (json.skip_ws Y).
    rewrite skip_ws_plain by (apply render_plain, Hokx).
    unfold Y. rewrite (Hx Hokx fuel (", " +:+ X)); [|lia|reflexivity].
    cbn [mbind option_bind fst snd].
    change (json.starts_with 125 (json.skip_ws (", " +:+ X)))
      with (@None string).
    change (json.starts_with 44 (json.skip_ws (", " +:+ X)))
      with (Some (String " " X)).
    cbn [mbind option_bind].
    change (json.skip_ws (String " " X)) with (json.skip_ws X).
    rewrite skip_ws_plain by apply pairs_plain.
    unfold X. rewrite (IH kv' Hall Hok fuel rest); [reflexivity|lia].
Qed.

(** With distinct keys, the object built from the pairs is the list of the
    pairs. *)
Lemma dict_set_fresh (k : string) (v : pyval) (d : dict) :
  existsb (String.eqb k) (map fst d) = false ->
  dict_set k v d = d ++ [(k, v)].
Proof.
  induction d as [|[k' v'] d IH]; cbn; [reflexivity|].
  intros H. apply orb_false_iff in H as [H1 H2].
  rewrite H1, IH by exact H2. reflexivity.
Qed.

Lemma distinct_middle (a b : list string) (k : string) :
  distinct (a ++ k :: b) = true -> existsb (String.eqb k) a = false.
Proof.
  induction a as [|x a IH]; cbn; [reflexivity|].
  intros H. apply andb_true_iff in H as [H1 H2].
  rewrite IH by exact H2. rewrite orb_false_r.
  apply negb_true_iff in H1. rewrite existsb_app in H1.
  apply orb_false_iff in H1 as [_ H1]. cbn in H1.
  apply orb_false_iff in H1 as [H1 _]. rewrite String.eqb_sym. exact H1.
Qed.

Lemma dict_of_pairs_distinct (d : dict) :
  distinct (map fst d) = true -> json.dict_of_pairs d = d.
Proof.
  unfold json.dict_of_pairs.
  enough (forall acc : dict,
    distinct (map fst (acc ++ d)) = true ->
    foldl (fun (a : dict) (kv : string * pyval) => dict_set kv.1 kv.2 a) acc d
    = acc ++ d) as H by (intros Hd; apply (H [] Hd)).
  induction d as [|[k v] d IH]; intros acc Hd; cbn [foldl fst snd].
  - rewrite app_nil_r. reflexivity.
  - rewrite dict_set_fresh.
    + rewrite IH; rewrite <- app_assoc; [reflexivity|exact Hd].
    + rewrite map_app in Hd. cbn [map fst] in Hd.
      eapply distinct_middle, Hd.
Qed.

Lemma scan_value_bracket (fuel : nat) (r : string) :
  json.scan_value (S fuel) (String "[" r)
  = match json.starts_with 93 (json.skip_ws r) with
    | Some r' => Some (VList [], r')
    | None => res ← json.scan_items fuel (json.skip_ws r);
              Some (VList res.1, res.2)
    end.
Proof. reflexivity. Qed.

Lemma scan_value_brace (fuel : nat) (r : string) :
  json.scan_value (S fuel) (String "{" r)
  = match json.starts_with 125 (json.skip_ws r) with
    | Some r' => Some (VDict [], r')
    | None => res ← json.scan_pairs fuel (json.skip_ws r);
              Some (VDict (json.dict_of_pairs res.1), res.2)
    end.
Proof. reflexivity. Qed.

Lemma pairs_not_brace (ea : bool) (kv : string * pyval) (d : dict)
    (rest : string) :
  json.starts_with 125 (json.join ", " (map (pair_text ea) (kv :: d)) +:+ rest)
  = None.
Proof.
  destruct d as [|kv' d]; cbn [map].
  - unfold pair_text. cbn [json.join]. rewrite append_assoc, encode_str_append.
    reflexivity.
  - rewrite join_cons2, append_assoc. unfold pair_text at 1.
    rewrite append_assoc, encode_str_append. reflexivity.
Qed.

Lemma wrap_text (o c : ascii) (body rest : string) :
  (String o EmptyString +:+ body +:+ String c EmptyString) +:+ rest
  = String o (body +:+ String c rest).
Proof.
  change (String o ((body +:+ String c EmptyString) +:+ rest)
          = String o (body +:+ String c rest)).
  rewrite append_assoc. reflexivity.
Qed.

Lemma scan_value_render (ea : bool) (v : pyval) : scans ea v.
Proof.
  induction v as [| b | z | s | l IH | d IH | a] using pyval_induction;
    intros Hok fuel rest Hfuel Hrest.
  - destruct fuel as [|fuel]; [cbn in Hfuel; lia|reflexivity].
  - destruct b; (destruct fuel as [|fuel]; [cbn in Hfuel; lia|reflexivity]).
  - pose proof (render_length ea (VInt z) Hok).
    destruct fuel as [|fuel]; [lia|]. apply scan_value_int, Hrest.
  - pose proof (render_length ea (VStr s) Hok).
    destruct fuel as [|fuel]; [lia|]. apply scan_value_str.
  - destruct l as [|x l].
    + destruct fuel as [|fuel]; [vm_compute in Hfuel; lia|reflexivity].
    + cbn [render] in *. rewrite wrap_text.
      rewrite !length_append in Hfuel. cbn [String.length] in Hfuel.
      destruct fuel as [|fuel]; [lia|].
      cbn [json_representable] in Hok.
      assert (Hokx : json_representable x = true)
        by (cbn [forallb] in Hok; apply andb_true_iff in Hok as [H _]; exact H).
      rewrite scan_value_bracket.
      rewrite skip_ws_plain by (apply join_plain, Hokx).
      rewrite starts_with_plain by (apply join_plain, Hokx).
      rewrite (scan_items_render ea l x IH Hok fuel rest); [reflexivity|lia].
  - cbn [json_representable] in Hok. apply andb_true_iff in Hok as [Hkeys Hok].
    destruct d as [|kv d].
    + destruct fuel as [|fuel]; [vm_compute in Hfuel; lia|reflexivity].
    + cbn [render] in *.
      change (fun kv0 : string * pyval =>
                json.encode_str ea kv0.1 +:+ ": " +:+ render ea kv0.2)
        with (pair_text ea) in *.
      rewrite wrap_text.
      rewrite !length_append in Hfuel. cbn [String.length] in Hfuel.
      destruct fuel as [|fuel]; [lia|].
      rewrite scan_value_brace.
      rewrite skip_ws_plain by apply pairs_plain.
      rewrite pairs_not_brace.
      rewrite (scan_pairs_render ea d kv IH Hok fuel rest); [|lia].
      cbn [mbind option_bind fst snd].
      rewrite dict_of_pairs_distinct by exact Hkeys. reflexivity.
  - discriminate Hok.
Qed.

(** Decoding the text of a representable value gives the value back. *)
Lemma loads_render (ea : bool) (v : pyval) :
  json_representable v = true -> json.loads (render ea v) = Ok v.
Proof.
  intros Hok. unfold json.loads.
  pose proof (render_plain ea v EmptyString Hok) as Hplain.
  rewrite append_nil_r in Hplain. rewrite skip_ws_plain by exact Hplain.
  pose proof (scan_value_render ea v Hok (S (String.length (render ea v)))
                EmptyString) as Hscan.
  rewrite append_nil_r in Hscan. rewrite Hscan; [reflexivity|lia|reflexivity].
Qed.

Lemma loads_dumps (ea : bool) (fuel : nat) (v : pyval) :
  json_representable v = true ->
  (depth v < fuel)%nat ->
  exists s, json.dumps ea None fuel v = Ok s /\ json.loads s = Ok v.
Proof.
  intros Hok Hfuel. exists (render ea v). split.
  - unfold json.dumps. apply encode_render; assumption.
  - apply loads_render, Hok.
Qed.

(** *** What the sanitizer writes for a live object *)

Lemma serializer_object (fuel : nat) (a : nat) :
  serializer (S fuel) (VObj a) = Ok VNone.
Proof. reflexivity. Qed.

Lemma encode_serializer (ea : bool) (fuel' : nat) (v : pyval) :
  forall fuel : nat,
    (depth v + 1 < fuel)%nat ->
    json.encode ea (serializer (S fuel')) fuel [] v
    = Ok (render ea (nullify v)).
Proof.
  induction v as [| b | z | s | l IH | d IH | a] using pyval_induction;
    intros fuel Hfuel;
    (destruct fuel as [|fuel]; [lia|]); cbn [json.encode render nullify].
  - reflexivity.
  - destruct b; reflexivity.
  - reflexivity.
  - reflexivity.
  - rewrite (mapM_Ok _ (fun x => render ea (nullify x))).
    + rewrite <- map_map. reflexivity.
    + cbn [depth] in Hfuel.
      induction IH as [|x l Hx _ IHl]; constructor.
      * apply Hx. cbn in Hfuel. lia.
      * apply IHl. cbn in Hfuel. lia.
  - rewrite (mapM_Ok _ (fun kv : string * pyval =>
               json.encode_str ea kv.1 +:+ ": " +:+ render ea (nullify kv.2))).
    + rewrite map_map. reflexivity.
    + cbn [depth] in Hfuel.
      induction IH as [|x l Hx _ IHl]; constructor.
      * rewrite Hx by (cbn in Hfuel; lia). reflexivity.
      * apply IHl. cbn in Hfuel. lia.
  - rewrite bool_decide_eq_false_2 by apply not_elem_of_nil.
    rewrite serializer_object. cbn [mbind result_bind].
    destruct fuel as [|fuel]; [cbn in Hfuel; lia|reflexivity].
Qed.

(** Every live object, at any depth, is written as [null]: the export is the
    text of the value with [None] in the place of each such object, so that
    its key or position stays. *)
Lemma safe_json_serialize_nullify (fuel : nat) (obj : pyval) (ea : bool) :
  (depth obj + 1 < fuel)%nat ->
  _safe_json_serialize fuel obj ea = Ok (render ea (nullify obj)).
Proof.
  intros Hfuel. unfold _safe_json_serialize, json.dumps.
  destruct fuel as [|fuel]; [lia|].
  cbn [default from_option id]. apply encode_serializer. exact Hfuel.
Qed.

(** *** The quoting at the store boundary *)

Lemma prefix_nil (s : string) : String.prefix EmptyString s = true.
Proof. destruct s; reflexivity. Qed.

Lemma endswith_append (suffix a : string) :
  MemGraphHelper.endswith suffix (a +:+ suffix) = true.
Proof.
  induction a as [|x a IH].
  - rewrite append_nil_l. destruct suffix; cbn [MemGraphHelper.endswith];
      rewrite String.eqb_refl; reflexivity.
  - rewrite append_cons. cbn [MemGraphHelper.endswith]. rewrite IH.
    apply orb_true_r.
Qed.

Lemma substring_prefix (a b : string) :
  String.substring 0 (String.length a) (a +:+ b) = a.
Proof.
  induction a as [|x a IH].
  - destruct b; reflexivity.
  - rewrite append_cons. cbn [String.length String.substring].
    rewrite IH. reflexivity.
Qed.

Lemma strip_ends_wrap (s : string) :
  MemGraphHelper.strip_ends ("'" +:+ s +:+ "'") = s.
Proof.
  rewrite append_cons, append_nil_l. cbn [MemGraphHelper.strip_ends].
  rewrite length_append. cbn [String.length].
  replace (String.length s + 1 - 1)%nat with (String.length s) by lia.
  apply substring_prefix.
Qed.

Lemma decode_response_wrap (js : string) (v : pyval) :
  json.loads js = Ok v ->
  MemGraphHelper.decode_response (VStr ("'" +:+ js +:+ "'")) = Ok v.
Proof.
  intros Hloads. unfold MemGraphHelper.decode_response.
  rewrite strip_ends_wrap.
  assert (String.prefix "'" ("'" +:+ js +:+ "'") = true) as ->.
  { rewrite append_cons, append_nil_l. cbn [String.prefix].
    destruct (Ascii.ascii_dec "'" "'") as [_|Hn]; [apply prefix_nil|].
    contradiction. }
  assert (MemGraphHelper.endswith "'" ("'" +:+ js +:+ "'") = true) as ->.
  { rewrite <- append_assoc. apply endswith_append. }
  cbn [andb]. rewrite Hloads. reflexivity.
Qed.

(** What [load_history] reads of a quoted JSON text that the store holds
    under the key of a conversation. *)
Lemma load_history_quoted (conversation_id js : string) (v : pyval)
    (w : world) :
  online w = true ->
  store w !! MemGraphHelper.key_of conversation_id
  = Some ("'" +:+ js +:+ "'") ->
  json.loads js = Ok v ->
  MemGraphHelper.load_history conversation_id w = Ok (v, w).
Proof.
  destruct w as [st on ds inst]. cbn [online store]. intros -> Hst Hloads.
  unfold MemGraphHelper.load_history, MemGraphHelper._send_command,
    session_post.
  cbn [online store dirs _instance remote]. rewrite Hst.
  cbn [default from_option id dict_get String.eqb Ascii.eqb Bool.eqb].
  change (py_eq (VStr ("'" +:+ js +:+ "'")) (VStr "(nil)")) with false.
  cbn [negb]. rewrite (decode_response_wrap js v Hloads). reflexivity.
Qed.

(** C9.  For a list of records that has a JSON text (and fuel above its
    nesting depth) and a store in reach, [save_history] stores under the key
    of the conversation the JSON text of the list between two single quotes;
    and [load_history], for any conversation under whose key a store in
    reach holds that value, returns exactly the list and leaves the store as
    it is. *)
Theorem history_encode_decode (fuel : nat) (conversation_id : string)
    (h : list pyval) (w : world) :
  online w = true ->
  json_representable (VList h) = true ->
  (depth (VList h) < fuel)%nat ->
  exists js w',
    json.dumps true None fuel (VList h) = Ok js /\
    MemGraphHelper.save_history fuel conversation_id (VList h) w = Ok w' /\
    store w' !! MemGraphHelper.key_of conversation_id
    = Some ("'" +:+ js +:+ "'") /\
    forall (other : string) (w2 : world),
      online w2 = true ->
      store w2 !! MemGraphHelper.key_of other = Some ("'" +:+ js +:+ "'") ->
      MemGraphHelper.load_history other w2 = Ok (VList h, w2).
Proof.
  intros Hon Hok Hfuel.
  destruct (loads_dumps true fuel (VList h) Hok Hfuel) as (js & Hdumps & Hloads).
  exists js. eexists. split; [exact Hdumps|]. split; [|split].
  - unfold MemGraphHelper.save_history, MemGraphHelper.encode_history,
      MemGraphHelper._send_command, session_post.
    rewrite Hdumps. cbn [mbind result_bind remote]. rewrite Hon. reflexivity.
  - cbn [store]. apply lookup_insert_eq.
  - intros other w2 Hon2 Hst. exact (load_history_quoted other js _ w2 Hon2 Hst Hloads).
Qed.

(** What [save_history] has written, [load_history] reads back. *)
Lemma save_then_load (fuel : nat) (conversation_id : string)
    (h : list pyval) (w : world) :
  online w = true ->
  json_representable (VList h) = true ->
  (depth (VList h) < fuel)%nat ->
  exists w',
    MemGraphHelper.save_history fuel conversation_id (VList h) w = Ok w' /\
    MemGraphHelper.load_history conversation_id w' = Ok (VList h, w').
Proof.
  intros Hon Hok Hfuel.
  destruct (loads_dumps true fuel (VList h) Hok Hfuel) as (js & Hdumps & Hloads).
  unfold MemGraphHelper.save_history, MemGraphHelper.encode_history,
    MemGraphHelper._send_command, session_post.
  rewrite Hdumps. cbn [mbind result_bind remote]. rewrite Hon.
  eexists. split; [reflexivity|].
  unfold MemGraphHelper.load_history, MemGraphHelper._send_command,
    session_post.
  cbn [online store remote]. rewrite lookup_insert_eq.
  cbn [default from_option id dict_get String.eqb Ascii.eqb Bool.eqb].
  change (py_eq (VStr ("'" +:+ js +:+ "'")) (VStr "(nil)")) with false.
  cbn [negb]. rewrite (decode_response_wrap js (VList h) Hloads).
  reflexivity.
Qed.

(** *** Serializing a log and loading it again *)

Lemma deserialize_log_item_output (i : nat) (item : LogItem) :
  deserialize_log_item i (LogItem_output item) = Ok (reload_item i item).
Proof.
  destruct item as [n t hd ct [[|kv d]|] tp]; reflexivity.
Qed.

Lemma deserialize_log_loop_output (items : list LogItem) :
  forall (i : nat) (log : Log),
    deserialize_log_loop (map LogItem_output items) i log
    = Ok {| log_guid := log_guid log;
            log_logs := log_logs log ++ reload_items i items;
            log_updates := log_updates log ++ seq i (length items);
            log_progress := log_progress log;
            log_progress_no := log_progress_no log |}.
Proof.
  induction items as [|item items IH]; intros i log.
  - cbn. rewrite !app_nil_r. destruct log; reflexivity.
  - cbn [map deserialize_log_loop]. rewrite deserialize_log_item_output.
    cbn [mbind result_bind]. rewrite IH.
    cbn [log_guid log_logs log_updates log_progress log_progress_no
         reload_items length seq].
    rewrite <- !app_assoc. reflexivity.
Qed.

Lemma deserialize_serialize_log (log : Log) :
  _deserialize_log (_serialize_log log)
  = Ok {| log_guid := log_guid log;
          log_logs := reload_items 0 (slice_from (- LOG_SIZE) (log_logs log));
          log_updates :=
            seq 0 (length (slice_from (- LOG_SIZE) (log_logs log)));
          log_progress := initial_progress;
          log_progress_no := initial_progress_no |}.
Proof.
  unfold _deserialize_log, _serialize_log.
  cbn [py_get dict_get String.eqb Ascii.eqb Bool.eqb default from_option id
       mbind result_bind py_iter].
  rewrite deserialize_log_loop_output. reflexivity.
Qed.

Lemma reload_items_length (items : list LogItem) (i : nat) :
  length (reload_items i items) = length items.
Proof.
  revert i. induction items as [|x items IH]; intros i; cbn;
    [reflexivity|rewrite IH; reflexivity].
Qed.

Lemma slice_from_length_le {A} (n : nat) (l : list A) :
  (0 < n)%nat -> (length (slice_from (- Z.of_nat n) l) <= n)%nat.
Proof.
  intros Hn. rewrite slice_from_neg by exact Hn. rewrite length_drop. lia.
Qed.

Lemma slice_from_short {A} (n : nat) (l : list A) :
  (0 < n)%nat -> (length l <= n)%nat -> slice_from (- Z.of_nat n) l = l.
Proof.
  intros Hn Hl. rewrite slice_from_neg by exact Hn.
  replace (length l - n)%nat with 0%nat by lia. reflexivity.
Qed.

(** *** Serializing a context and loading it again *)

Lemma serialize_agents_chain (h : agents_store) (v : pyval)
    (nodes : list Agent) :
  chain h v nodes ->
  forall fuel, (length nodes <= fuel)%nat ->
    serialize_agents fuel h v = Ok (map agent_record nodes).
Proof.
  induction 1 as [v Hv|a ag d rest Ha Hd _ IH]; intros fuel Hfuel.
  - destruct fuel; cbn [serialize_agents]; rewrite Hv; reflexivity.
  - destruct fuel as [|fuel]; [cbn in Hfuel; lia|].
    cbn [serialize_agents py_truthy deref]. rewrite Ha.
    cbn [mbind result_bind]. unfold _serialize_agent. rewrite Hd.
    cbn [mbind result_bind py_get]. rewrite IH by (cbn in Hfuel; lia).
    cbn [mbind result_bind map]. unfold agent_record, bag. rewrite Hd.
    reflexivity.
Qed.

Lemma chain_chain_from (config : AgentConfig) (recs : list agent_fields) :
  DATA_NAME_SUPERIOR <> DATA_NAME_SUBORDINATE ->
  Forall no_subordinate recs ->
  forall (h : agents_store) (last : Agent) (dl : dict),
    agent_data last = VDict dl ->
    dict_get DATA_NAME_SUBORDINATE dl = None ->
    chain (h ++ chain_from config (length h) last recs) (VObj (length h))
      (chain_from config (length h) last recs).
Proof.
  intros Hne. induction 1 as [|r recs Hr _ IH]; intros h last dl Hdl Hsub.
  - cbn [chain_from]. eapply chain_step; [apply lookup_last|exact Hdl|].
    rewrite Hsub. apply chain_end. reflexivity.
  - cbn [chain_from].
    set (last' := put DATA_NAME_SUBORDINATE (VObj (S (length h))) last).
    eapply chain_step.
    + rewrite lookup_app_r by lia. rewrite Nat.sub_diag. reflexivity.
    + apply (put_data _ _ _ dl Hdl).
    + rewrite dict_get_set_eq. cbn [default from_option id].
      rewrite cons_middle, app_assoc.
      assert (Hlen : S (length h) = length (h ++ [last']))
        by (rewrite length_app; cbn; lia).
      rewrite Hlen. eapply IH; [reflexivity|].
      rewrite dict_get_set_ne by exact Hne. exact Hr.
Qed.

(** The comprehension of [_serialize_agent] and the link entries. *)
Lemma public_items_set (k : string) (v : pyval) (d : dict) :
  String.prefix "_" k = true ->
  public_items (dict_set k v d) = public_items d.
Proof.
  intros Hk. unfold public_items.
  induction d as [|[k' v'] d IH]; cbn [dict_set].
  - cbn [filter list_filter fst]. rewrite decide_False by (rewrite Hk; discriminate).
    reflexivity.
  - destruct (String.eqb k k') eqn:E.
    + apply String.eqb_eq in E. subst k'. rewrite !filter_cons. cbn [fst].
      rewrite !decide_False by (rewrite Hk; discriminate). reflexivity.
    + rewrite !filter_cons, IH. reflexivity.
Qed.

Lemma public_items_idem (d : dict) : public_items (public_items d) = public_items d.
Proof.
  unfold public_items. induction d as [|[k v] d IH]; [reflexivity|].
  rewrite filter_cons. destruct (decide _) as [Hk|Hk].
  - rewrite filter_cons, decide_True by exact Hk. rewrite IH. reflexivity.
  - exact IH.
Qed.

Lemma public_items_get (k : string) (d : dict) :
  String.prefix "_" k = true -> dict_get k (public_items d) = None.
Proof.
  intros Hk. unfold public_items. induction d as [|[k' v] d IH]; [reflexivity|].
  rewrite filter_cons. destruct (decide _) as [Hk'|Hk']; [|exact IH].
  cbn [dict_get fst] in *. destruct (String.eqb k k') eqn:E; [|exact IH].
  apply String.eqb_eq in E. subst k'. rewrite Hk in Hk'. discriminate.
Qed.

Lemma only_links_public (d : dict) : only_links (public_items d).
Proof.
  intros k Hk Hget. exfalso. apply Hget. apply public_items_get, Hk.
Qed.

Lemma only_links_set (field : string) (v : pyval) (d : dict) :
  field = DATA_NAME_SUBORDINATE \/ field = DATA_NAME_SUPERIOR ->
  only_links d -> only_links (dict_set field v d).
Proof.
  intros Hf Hd k Hk Hget.
  destruct (String.eqb_spec field k) as [<-|Hne]; [exact Hf|].
  rewrite dict_get_set_ne in Hget by exact Hne. apply Hd; assumption.
Qed.

Lemma same_agent_put (field : string) (v : pyval) (a b : Agent) :
  String.prefix "_" field = true ->
  field = DATA_NAME_SUBORDINATE \/ field = DATA_NAME_SUPERIOR ->
  same_agent a b -> same_agent a (put field v b).
Proof.
  intros Hf Hlink (Hn & Hh & d & d' & Ha & Hb & Hp & Hl).
  split; [exact Hn|]. split; [exact Hh|].
  exists d, (dict_set field v d'). split; [exact Ha|]. split; [|split].
  - apply put_data, Hb.
  - rewrite public_items_set by exact Hf. exact Hp.
  - apply only_links_set; assumption.
Qed.

Lemma same_agent_chain_from (config : AgentConfig) (rest : list Agent) :
  String.prefix "_" DATA_NAME_SUBORDINATE = true ->
  String.prefix "_" DATA_NAME_SUPERIOR = true ->
  Forall (fun ag => exists d, agent_data ag = VDict d) rest ->
  forall (p : nat) (orig last : Agent),
    same_agent orig last ->
    Forall2 same_agent (orig :: rest)
      (chain_from config p last (map fields_of rest)).
Proof.
  intros Hsub Hsup. induction 1 as [|r rest [d Hd] _ IH];
    intros p orig last Hsame; cbn [map chain_from].
  - constructor; [exact Hsame|constructor].
  - constructor; [apply same_agent_put; [exact Hsub|left; reflexivity|exact Hsame]|].
    apply IH. unfold fields_of, bag. rewrite Hd. cbn [fst snd].
    split; [reflexivity|]. split; [reflexivity|].
    eexists _, _. split; [exact Hd|]. split; [reflexivity|]. split.
    + rewrite public_items_set by exact Hsup. apply public_items_idem.
    + apply only_links_set; [right; reflexivity|apply only_links_public].
Qed.

Lemma chain_data (h : agents_store) (v : pyval) (nodes : list Agent) :
  chain h v nodes -> Forall (fun ag => exists d, agent_data ag = VDict d) nodes.
Proof.
  induction 1 as [|a ag d rest _ Hd _ IH]; constructor; eauto.
Qed.

Lemma AgentContextType_of_value (ty : AgentContextType) :
  (forall a b, type_value a = type_value b -> a = b) ->
  AgentContextType_of (VStr (type_value ty)) = Ok ty.
Proof.
  intros Hinj. unfold AgentContextType_of.
  assert (Hdec : forall m,
    py_eq (VStr (type_value m)) (VStr (type_value ty)) = true <-> m = ty).
  { intros m. cbn [py_eq]. rewrite String.eqb_eq. split; [apply Hinj|].
    intros ->. reflexivity. }
  rewrite !filter_cons, filter_nil.
  destruct ty;
    repeat (let He := fresh "He" in
            destruct (decide _) as [He|He];
            [apply Hdec in He; try discriminate He|
             try (exfalso; apply He, Hdec; reflexivity)]);
    reflexivity.
Qed.

Lemma reload_items_no (items : list LogItem) (i : nat) :
  map item_no (reload_items i items) = seq i (length items).
Proof.
  revert i. induction items as [|x items IH]; intros i; cbn;
    [reflexivity|rewrite IH; reflexivity].
Qed.

Lemma reload_items_same (items : list LogItem) (i : nat) :
  Forall (fun it => item_kvps it <> Some []) items ->
  Forall2 same_entry items (reload_items i items).
Proof.
  intros Hall. revert i.
  induction Hall as [|x items Hx _ IH]; intros i; cbn [reload_items];
    constructor; [|apply IH].
  unfold same_entry, reload_item. cbn. repeat split.
  destruct (item_kvps x) as [[|kv d]|]; [contradiction|reflexivity|reflexivity].
Qed.

Lemma record_of_agent_record (ag : Agent) :
  deserialize_history (History_serialize (agent_history ag))
  = Ok (agent_history ag) ->
  record_of (agent_record ag) (fields_of ag).
Proof.
  intros Hh. eexists. split; [reflexivity|]. repeat split. exact Hh.
Qed.

Lemma serialize_context_chain (fuel : nat) (c : AgentContext)
    (h : agents_store) (nodes : list Agent) :
  chain h (ctx_agent0 c) nodes ->
  (length nodes <= fuel)%nat ->
  (py_truthy (ctx_streaming_agent c) = false \/
   exists ag, deref h (ctx_streaming_agent c) = Ok ag) ->
  exists streaming,
    _serialize_context fuel c h
    = Ok (VDict [ ("id", ctx_id c);
                  ("name", ctx_name c);
                  ("created_at",
                   VStr (isoformat (default epoch0 (ctx_created_at c))));
                  ("type", VStr (type_value (ctx_type c)));
                  ("last_message",
                   VStr (isoformat (default epoch0 (ctx_last_message c))));
                  ("agents", VList (map agent_record nodes));
                  ("streaming_agent", streaming);
                  ("log", _serialize_log (ctx_log c)) ]).
Proof.
  intros Hchain Hfuel Hstream. unfold _serialize_context.
  rewrite (serialize_agents_chain _ _ _ Hchain fuel Hfuel).
  cbn [mbind result_bind].
  destruct (py_truthy (ctx_streaming_agent c)) eqn:E.
  - destruct Hstream as [Hf|[ag Hag]]; [discriminate|].
    rewrite Hag. cbn [mbind result_bind]. eexists. reflexivity.
  - eexists. reflexivity.
Qed.

(** C1, as amended.  A context with an identifier and both time stamps,
    whose log has at most 1000 entries, none of them with an empty [kvps]
    mapping, is reproduced by loading its serialized form: identity, name,
    time stamps and type are the same, the chain has the same agents (same
    number and history, same data bag apart from the keys that start with
    [_]), and the log has the same entries, renumbered from 0 and all
    pending, with the progress markers in their initial state. *)
Theorem serialize_deserialize_roundtrip (fuel : nat) (c : AgentContext)
    (h h0 : agents_store) (nodes : list Agent) (t1 t2 : datetime) :
  String.prefix "_" DATA_NAME_SUBORDINATE = true ->
  String.prefix "_" DATA_NAME_SUPERIOR = true ->
  DATA_NAME_SUPERIOR <> DATA_NAME_SUBORDINATE ->
  fromisoformat (isoformat t1) = Some t1 ->
  fromisoformat (isoformat t2) = Some t2 ->
  (forall a b, type_value a = type_value b -> a = b) ->
  Forall (fun ag => deserialize_history (History_serialize (agent_history ag))
                    = Ok (agent_history ag)) nodes ->
  ctx_id c <> VNone ->
  ctx_created_at c = Some t1 ->
  ctx_last_message c = Some t2 ->
  chain h (ctx_agent0 c) nodes ->
  nodes <> [] ->
  (py_truthy (ctx_streaming_agent c) = false \/
   exists ag, deref h (ctx_streaming_agent c) = Ok ag) ->
  (length (log_logs (ctx_log c)) <= 1000)%nat ->
  Forall (fun it => item_kvps it <> Some []) (log_logs (ctx_log c)) ->
  (length nodes <= fuel)%nat ->
  reproduces fuel c h h0.
Proof.
  intros Hsub Hsup Hne Hiso1 Hiso2 Hinj Hhist Hid Hcreated Hlast Hchain Hnodes
    Hstream Hlen Hkvps Hfuel.
  destruct (serialize_context_chain fuel c h nodes Hchain Hfuel Hstream)
    as [streaming Hser].
  destruct nodes as [|ag0 rest]; [contradiction|].
  pose proof (chain_data _ _ _ Hchain) as Hdata.
  apply Forall_cons in Hdata as [[d0 Hd0] Hdata].
  assert (Hslice : slice_from (- LOG_SIZE) (log_logs (ctx_log c))
                   = log_logs (ctx_log c)).
  { unfold LOG_SIZE. change (Z.opp 1000) with (Z.opp (Z.of_nat 1000)).
    apply slice_from_short; lia. }
  eexists _, _, _. split; [exact Hser|]. split.
  - eapply (deserialize_context_records fuel _ h0 _ _
              (map agent_record (ag0 :: rest)) (map fields_of (ag0 :: rest))
              t1 t2 (ctx_type c)).
    + reflexivity.
    + apply deserialize_serialize_log.
    + cbn [dict_get String.eqb Ascii.eqb Bool.eqb default from_option id].
      rewrite Hcreated. cbn [default from_option id datetime_fromisoformat].
      rewrite Hiso1. reflexivity.
    + cbn [dict_get String.eqb Ascii.eqb Bool.eqb default from_option id].
      apply AgentContextType_of_value, Hinj.
    + cbn [dict_get String.eqb Ascii.eqb Bool.eqb default from_option id].
      rewrite Hlast. cbn [default from_option id datetime_fromisoformat].
      rewrite Hiso2. reflexivity.
    + reflexivity.
    + apply Forall2_fmap, Forall_Forall2_diag.
      eapply Forall_impl; [exact Hhist|]. intros ag Hag.
      apply record_of_agent_record, Hag.
    + exact Hne.
    + apply Forall_fmap. apply Forall_forall. intros ag _.
      unfold no_subordinate, fields_of. cbn [fst snd].
      apply public_items_get, Hsub.
    + cbn [map numbers length] in Hfuel |- *. rewrite !length_map. exact Hfuel.
  - cbn [ctx_id ctx_name ctx_created_at ctx_last_message ctx_type ctx_agent0
         ctx_log log_guid log_logs log_updates log_progress log_progress_no
         dict_get String.eqb Ascii.eqb Bool.eqb default from_option id].
    rewrite Hslice.
    split; [destruct (ctx_id c); try reflexivity; contradiction|].
    split; [reflexivity|]. split; [symmetry; exact Hcreated|].
    split; [symmetry; exact Hlast|]. split; [reflexivity|]. split.
    { exists (ag0 :: rest), (chain_from initialize_agent (length h0)
               (node initialize_agent (agent_number ag0)
                  (public_items (bag ag0)) (agent_history ag0))
               (map fields_of rest)).
      split; [exact Hchain|]. cbn [map built fields_of fst snd]. split.
      - eapply chain_chain_from; [exact Hne| |reflexivity|].
        + apply Forall_fmap. apply Forall_forall. intros ag _.
          unfold no_subordinate, fields_of. cbn [fst snd].
          apply public_items_get, Hsub.
        + apply public_items_get, Hsub.
      - apply same_agent_chain_from; [exact Hsub|exact Hsup|exact Hdata|].
        split; [reflexivity|]. split; [reflexivity|].
        eexists _, _. split; [exact Hd0|]. split; [reflexivity|].
        unfold bag. rewrite Hd0.
        split; [apply public_items_idem|apply only_links_public]. }
    split; [reflexivity|].
    split; [apply reload_items_same, Hkvps|].
    rewrite reload_items_length.
    split; [apply reload_items_no|]. repeat split; reflexivity.
Qed.

(** Whatever the context, the log of the loaded copy has at most 1000
    entries. *)
Lemma roundtrip_log_bound (fuel : nat) (c c' : AgentContext)
    (h h0 h' : agents_store) (rec : pyval) :
  _serialize_context fuel c h = Ok rec ->
  _deserialize_context fuel rec h0 = Ok (c', h') ->
  (length (log_logs (ctx_log c')) <= 1000)%nat.
Proof.
  unfold _serialize_context. intros Hser Hdes.
  destruct (serialize_agents fuel h (ctx_agent0 c)) as [ags|]; [|discriminate].
  cbn [mbind result_bind] in Hser.
  destruct (if py_truthy (ctx_streaming_agent c) then _ else _) as [st|];
    [|discriminate].
  cbn [mbind result_bind] in Hser. injection Hser as <-.
  unfold _deserialize_context in Hdes.
  cbn [py_get dict_get String.eqb Ascii.eqb Bool.eqb default from_option id
       mbind result_bind] in Hdes.
  rewrite deserialize_serialize_log in Hdes. cbn [mbind result_bind] in Hdes.
  destruct (datetime_fromisoformat
              (VStr (isoformat (default epoch0 (ctx_created_at c)))))
    as [t1|]; [|discriminate].
  cbn [mbind result_bind] in Hdes.
  destruct (AgentContextType_of _) as [ty|]; [|discriminate].
  cbn [mbind result_bind] in Hdes.
  destruct (datetime_fromisoformat
              (VStr (isoformat (default epoch0 (ctx_last_message c)))))
    as [t2|]; [|discriminate].
  cbn [mbind result_bind] in Hdes.
  destruct (_deserialize_agents _ _ _) as [[zero h1]|]; [|discriminate].
  cbn [mbind result_bind] in Hdes.
  destruct (find_streaming _ _ _ _) as [sa|]; [|discriminate].
  cbn [mbind result_bind] in Hdes.
  injection Hdes as <- _. cbn [ctx_log log_logs].
  rewrite reload_items_length. unfold LOG_SIZE.
  change (Z.opp 1000) with (Z.opp (Z.of_nat 1000)).
  apply slice_from_length_le. lia.
Qed.

(* ===================================================================== *)
(** ** Further properties of the store client *)
(* ===================================================================== *)

Lemma loads_raises (s : string) (e : exn) :
  json.loads s = Raise e -> e = JSONDecodeError.
Proof.
  unfold json.loads. destruct (json.scan_value _ _) as [[v rest]|]; [|congruence].
  destruct (json.skip_ws rest); congruence.
Qed.

Lemma decode_response_returns (s : string) :
  exists v, MemGraphHelper.decode_response (VStr s) = Ok v.
Proof.
  unfold MemGraphHelper.decode_response.
  destruct (json.loads _) as [v|e] eqn:E; [eexists; reflexivity|].
  apply loads_raises in E. subst e. eexists; reflexivity.
Qed.

Lemma world_eta (w : world) :
  {| store := store w; online := online w; dirs := dirs w;
     _instance := _instance w |} = w.
Proof. destruct w; reflexivity. Qed.

Lemma send_get (key : string) (w : world) :
  MemGraphHelper._send_command (GET key) w
  = (if online w
     then VDict [("response", VStr (default "(nil)" (store w !! key)))]
     else VDict [("error", VStr "RequestException")], w).
Proof.
  unfold MemGraphHelper._send_command, session_post.
  destruct w as [st [] ds inst]; reflexivity.
Qed.

Lemma load_history_loaded (conversation_id : string) (w : world) :
  MemGraphHelper.load_history conversation_id w
  = Ok (loaded (online w) (store w !! MemGraphHelper.key_of conversation_id), w).
Proof.
  unfold MemGraphHelper.load_history, loaded. rewrite send_get.
  destruct (online w); [|reflexivity].
  cbn [dict_get String.eqb Ascii.eqb Bool.eqb].
  destruct (store w !! MemGraphHelper.key_of conversation_id) as [s|];
    cbn [default from_option id py_eq]; [|reflexivity].
  destruct (String.eqb s "(nil)"); cbn [negb]; [reflexivity|].
  destruct (decode_response_returns s) as [v ->]. reflexivity.
Qed.

(** X1.  [load_history] only reads.  Whenever it returns, the world is the
    one it was given; and it answers the empty list, without decoding
    anything, when the request does not reach the store, when the store has
    nothing under the key of the conversation, and when the store holds the
    text [(nil)] there. *)
Theorem load_history_reads_only (conversation_id : string) (w : world) :
  (forall (v : pyval) (w' : world),
     MemGraphHelper.load_history conversation_id w = Ok (v, w') -> w' = w) /\
  (online w = false \/
   store w !! MemGraphHelper.key_of conversation_id = None \/
   store w !! MemGraphHelper.key_of conversation_id = Some "(nil)" ->
   MemGraphHelper.load_history conversation_id w = Ok (VList [], w)).
Proof.
  unfold MemGraphHelper.load_history. rewrite send_get. split.
  - intros v w'. destruct (online w); [|intros [= _ <-]; reflexivity].
    cbn [dict_get String.eqb Ascii.eqb Bool.eqb].
    destruct (negb _); [|intros [= _ <-]; reflexivity].
    destruct (MemGraphHelper.decode_response _); [|discriminate].
    cbn [mbind result_bind]. intros [= _ <-]. reflexivity.
  - intros [Hoff|[Hnone|Hnil]].
    + rewrite Hoff. reflexivity.
    + rewrite Hnone. destruct (online w); reflexivity.
    + rewrite Hnil. destruct (online w); reflexivity.
Qed.

Lemma save_history_store (fuel : nat) (conversation_id : string)
    (history : pyval) (w : world) :
  json_representable history = true ->
  (depth history < fuel)%nat ->
  MemGraphHelper.save_history fuel conversation_id history w
  = Ok (if online w
        then {| store := <[MemGraphHelper.key_of conversation_id :=
                             "'" +:+ render true history +:+ "'"]> (store w);
                online := online w; dirs := dirs w; _instance := _instance w |}
        else w).
Proof.
  intros Hok Hfuel.
  unfold MemGraphHelper.save_history, MemGraphHelper.encode_history, json.dumps.
  cbn [default from_option id].
  rewrite (encode_render true _ history Hok fuel [] Hfuel).
  cbn [mbind result_bind].
  unfold MemGraphHelper._send_command, session_post.
  destruct (online w); reflexivity.
Qed.

(** X2.  A request that does not reach the store is not reported: with the
    store out of reach, [save_history] returns normally and nothing is
    stored, and [load_history] answers the empty list. *)
Theorem save_history_offline (fuel : nat) (conversation_id : string)
    (history : pyval) (w : world) :
  online w = false ->
  json_representable history = true ->
  (depth history < fuel)%nat ->
  MemGraphHelper.save_history fuel conversation_id history w = Ok w /\
  MemGraphHelper.load_history conversation_id w = Ok (VList [], w).
Proof.
  intros Hoff Hok Hfuel. split.
  - rewrite save_history_store by assumption. rewrite Hoff. reflexivity.
  - rewrite load_history_loaded, Hoff. reflexivity.
Qed.

Lemma append_inj_l (s a b : string) : s +:+ a = s +:+ b -> a = b.
Proof.
  induction s as [|c s IH]; [rewrite !append_nil_l; intros H; exact H|].
  rewrite !append_cons. intros [= H]. apply IH, H.
Qed.

Lemma loaded_wrap (history : pyval) :
  json_representable history = true ->
  loaded true (Some ("'" +:+ render true history +:+ "'")) = history.
Proof.
  intros Hok. unfold loaded.
  change (String.eqb ("'" +:+ render true history +:+ "'") "(nil)") with false.
  cbn match.
  rewrite (decode_response_wrap _ history (loads_render true history Hok)).
  reflexivity.
Qed.

(** X3.  With the store in reach, what [save_history] writes for a
    conversation is what [load_history] reads for it afterwards, and the
    histories of all other conversations read as before. *)
Theorem save_history_load_history (fuel : nat) (conversation_id : string)
    (history : pyval) (w : world) :
  online w = true ->
  json_representable history = true ->
  (depth history < fuel)%nat ->
  exists w',
    MemGraphHelper.save_history fuel conversation_id history w = Ok w' /\
    MemGraphHelper.load_history conversation_id w' = Ok (history, w') /\
    forall other v,
      other <> conversation_id ->
      MemGraphHelper.load_history other w = Ok (v, w) ->
      MemGraphHelper.load_history other w' = Ok (v, w').
Proof.
  intros Hon Hok Hfuel. eexists. split.
  - rewrite save_history_store by assumption. rewrite Hon. reflexivity.
  - split.
    + rewrite load_history_loaded. cbn [online store].
      rewrite lookup_insert_eq. rewrite loaded_wrap by exact Hok. reflexivity.
    + intros other v Hne. rewrite !load_history_loaded. cbn [online store].
      rewrite Hon. rewrite lookup_insert_ne; [intros [= <-]; reflexivity|].
      intros Hk. apply Hne. symmetry. eapply append_inj_l, Hk.
Qed.

(** X4.  Once [get_instance] has registered the shared helper, every
    function that constructs a helper of its own raises at the constructor's
    guard: [remove_chat], [load_tmp_chats], and [save_tmp_chat] for a
    context that is not a background context; [get_instance] itself keeps
    returning, and after [disconnect] a helper can be constructed again. *)
Theorem get_instance_blocks_persistence (fuel : nat) (ctxid : string)
    (c : AgentContext) (h : agents_store) (w : world) :
  exists w1,
    MemGraphHelper.get_instance w = Ok w1 /\
    MemGraphHelper.get_instance w1 = Ok w1 /\
    remove_chat fuel ctxid w1 = Raise (Exception "This class is a singleton!") /\
    load_tmp_chats h w1 = Raise (Exception "This class is a singleton!") /\
    (is_background (ctx_type c) = false -> ctx_id c = VStr ctxid ->
     save_tmp_chat fuel c h w1 = Raise (Exception "This class is a singleton!")) /\
    MemGraphHelper.__init__ (MemGraphHelper.disconnect w1)
    = Ok (MemGraphHelper.disconnect w1).
Proof.
  assert (Hblock : forall w1, _instance w1 = true ->
    remove_chat fuel ctxid w1 = Raise (Exception "This class is a singleton!") /\
    load_tmp_chats h w1 = Raise (Exception "This class is a singleton!") /\
    (is_background (ctx_type c) = false -> ctx_id c = VStr ctxid ->
     save_tmp_chat fuel c h w1 = Raise (Exception "This class is a singleton!")) /\
    MemGraphHelper.__init__ (MemGraphHelper.disconnect w1)
    = Ok (MemGraphHelper.disconnect w1)).
  { intros w1 H1.
    unfold remove_chat, load_tmp_chats, save_tmp_chat, MemGraphHelper.__init__,
      MemGraphHelper.disconnect, delete_dir, make_dirs.
    cbn [_instance]. rewrite H1.
    split; [reflexivity|]. split; [reflexivity|]. split; [|reflexivity].
    intros -> ->. reflexivity. }
  unfold MemGraphHelper.get_instance at 1. unfold MemGraphHelper.__init__ at 1.
  destruct (_instance w) eqn:Hinst.
  - exists w. split; [reflexivity|]. split; [|apply Hblock, Hinst].
    unfold MemGraphHelper.get_instance. rewrite Hinst. reflexivity.
  - cbn [mbind result_bind]. eexists. split; [reflexivity|].
    split; [reflexivity|]. apply Hblock. reflexivity.
Qed.

(* ===================================================================== *)
(** ** Further properties of the export *)
(* ===================================================================== *)

(** X5.  The sanitizer removes nothing.  For a value whose dictionaries have
    distinct keys, [_safe_json_serialize] returns a text, and decoding the
    text gives the value with [None] in the place of every live object: all
    keys and all list positions are kept. *)
Theorem safe_json_serialize_never_drops (fuel : nat) (obj : pyval) (ea : bool) :
  (depth obj + 1 < fuel)%nat ->
  json_representable (nullify obj) = true ->
  exists js,
    _safe_json_serialize fuel obj ea = Ok js /\
    json.loads js = Ok (nullify obj).
Proof.
  intros Hfuel Hok. eexists. split.
  - apply safe_json_serialize_nullify, Hfuel.
  - apply loads_render, Hok.
Qed.

(* ===================================================================== *)
(** ** Further properties of the log *)
(* ===================================================================== *)

Lemma deserialize_log_item_loaded (i : nat) (f : dict) :
  log_entry_ok (VDict f) ->
  deserialize_log_item i (VDict f) = Ok (loaded_entry i f).
Proof.
  intros (f' & k & [= <-] & [t Ht] & Hk & Hok).
  unfold deserialize_log_item, loaded_entry.
  cbn [py_getitem py_get mbind result_bind].
  rewrite Ht, Hk. cbn [mbind result_bind default from_option id].
  destruct Hok as [Hfalse|[kd ->]].
  - rewrite Hfalse. cbn [mbind result_bind].
    destruct k as [| | | | |[|kv d]|]; try discriminate Hfalse; reflexivity.
  - destruct kd as [|kv d]; reflexivity.
Qed.

Lemma deserialize_log_loop_loaded (fs : list dict) :
  Forall (fun f => log_entry_ok (VDict f)) fs ->
  forall (i : nat) (log : Log),
    deserialize_log_loop (map VDict fs) i log
    = Ok {| log_guid := log_guid log;
            log_logs := log_logs log ++ imap (fun j => loaded_entry (i + j)) fs;
            log_updates := log_updates log ++ seq i (length fs);
            log_progress := log_progress log;
            log_progress_no := log_progress_no log |}.
Proof.
  induction 1 as [|f fs Hf _ IH]; intros i log.
  - cbn. rewrite !app_nil_r. destruct log; reflexivity.
  - cbn [map deserialize_log_loop].
    rewrite (deserialize_log_item_loaded i f Hf). cbn [mbind result_bind].
    rewrite IH.
    cbn [log_guid log_logs log_updates log_progress log_progress_no
         length seq imap].
    rewrite <- !app_assoc. cbn [app]. rewrite Nat.add_0_r.
    rewrite (imap_ext (fun j => loaded_entry (S i + j))
               ((fun j => loaded_entry (i + j)) ∘ S) fs); [reflexivity|].
    intros j x _. cbn. rewrite Nat.add_succ_r. reflexivity.
Qed.

(** X6.  Loading a stored log whose entries have a [type] and a [kvps] that
    is empty, null or a mapping: the entries are taken in order and numbered
    from 0 whatever [no] they were stored with, every index is pending in
    [updates], missing [heading], [content] and [temp] take their defaults,
    the progress markers are the initial ones whatever was stored, and the
    identity is the stored one or a new one. *)
Theorem deserialize_log_renumbers (g : dict) (fs : list dict) :
  default (VList []) (dict_get "logs" g) = VList (map VDict fs) ->
  Forall (fun f => log_entry_ok (VDict f)) fs ->
  _deserialize_log (VDict g)
  = Ok {| log_guid := default (VStr uuid4) (dict_get "guid" g);
          log_logs := imap loaded_entry fs;
          log_updates := seq 0 (length fs);
          log_progress := initial_progress;
          log_progress_no := initial_progress_no |}.
Proof.
  intros Hlogs Hfs. unfold _deserialize_log.
  cbn [py_get mbind result_bind]. rewrite Hlogs.
  cbn [py_iter mbind result_bind].
  rewrite (deserialize_log_loop_loaded fs Hfs). reflexivity.
Qed.

Lemma deserialize_log_loop_app (pre rest : list pyval) :
  forall (i : nat) (log : Log),
    deserialize_log_loop (pre ++ rest) i log
    = log' ← deserialize_log_loop pre i log;
      deserialize_log_loop rest (i + length pre) log'.
Proof.
  induction pre as [|e pre IH]; intros i log.
  - cbn. rewrite Nat.add_0_r. reflexivity.
  - cbn [app deserialize_log_loop length].
    destruct (deserialize_log_item i e) as [item|]; [|reflexivity].
    cbn [mbind result_bind]. rewrite IH, Nat.add_succ_r. reflexivity.
Qed.

(** X7.  One stored entry without [type] fails the whole load with
    [KeyError], wherever it stands and however many well-formed entries
    come before it. *)
Theorem deserialize_log_missing_type_raises (g : dict) (pre : list dict)
    (f : dict) (post : list pyval) :
  default (VList []) (dict_get "logs" g)
  = VList (map VDict pre ++ VDict f :: post) ->
  Forall (fun f => log_entry_ok (VDict f)) pre ->
  dict_get "type" f = None ->
  _deserialize_log (VDict g) = Raise (KeyError "type").
Proof.
  intros Hlogs Hpre Hf. unfold _deserialize_log.
  cbn [py_get mbind result_bind]. rewrite Hlogs.
  cbn [py_iter mbind result_bind].
  rewrite deserialize_log_loop_app.
  rewrite (deserialize_log_loop_loaded pre Hpre). cbn [mbind result_bind].
  cbn [deserialize_log_loop]. unfold deserialize_log_item.
  cbn [py_getitem]. rewrite Hf. reflexivity.
Qed.

Lemma reload_items_lookup (items : list LogItem) :
  forall (i j : nat) (e : LogItem),
    items !! j = Some e ->
    reload_items i items !! j = Some (reload_item (i + j) e).
Proof.
  induction items as [|x items IH]; intros i j e Hj; [discriminate|].
  destruct j as [|j]; cbn [reload_items].
  - injection Hj as <-. rewrite Nat.add_0_r. reflexivity.
  - change ((reload_item i x :: reload_items (S i) items) !! S j)
      with (reload_items (S i) items !! j).
    rewrite (IH (S i) j e Hj). rewrite Nat.add_succ_r. reflexivity.
Qed.

(** X8.  Serializing a log of any length and loading the result succeeds.
    The loaded log has the identity of the original and its last
    [min(n, 1000)] entries: the entry at index [i] is the original entry at
    [n - min(n, 1000) + i], renumbered [i], with an empty [kvps] mapping
    turned into an absent one; every index is pending and the progress
    markers are the initial ones. *)
Theorem serialize_log_deserialize_log (log : Log) :
  exists log',
    _deserialize_log (_serialize_log log) = Ok log' /\
    log_guid log' = log_guid log /\
    length (log_logs log') = Nat.min (length (log_logs log)) 1000 /\
    (forall i e,
       log_logs log !! (length (log_logs log) - length (log_logs log') + i)%nat
       = Some e ->
       log_logs log' !! i = Some (reload_item i e)) /\
    log_updates log' = seq 0 (length (log_logs log')) /\
    log_progress log' = initial_progress /\
    log_progress_no log' = initial_progress_no.
Proof.
  eexists. split; [apply deserialize_serialize_log|].
  cbn [log_guid log_logs log_updates log_progress log_progress_no].
  unfold LOG_SIZE. change (Z.opp 1000) with (Z.opp (Z.of_nat 1000)).
  rewrite slice_from_neg by lia. rewrite reload_items_length, length_drop.
  split; [reflexivity|]. split; [lia|]. split; [|repeat split].
  intros i e He.
  replace (length (log_logs log) - (length (log_logs log) - (length (log_logs log) - 1000)))%nat
    with (length (log_logs log) - 1000)%nat in He by lia.
  apply (reload_items_lookup _ 0 i e). rewrite lookup_drop. exact He.
Qed.

(* ===================================================================== *)
(** ** Further properties of the agent chain *)
(* ===================================================================== *)

Lemma public_items_get_other (k : string) (d : dict) :
  String.prefix "_" k = false -> dict_get k (public_items d) = dict_get k d.
Proof.
  intros Hk. unfold public_items. induction d as [|[k' v] d IH]; [reflexivity|].
  rewrite filter_cons. cbn [fst].
  destruct (decide _) as [Hk'|Hk']; cbn [dict_get].
  - destruct (String.eqb k k'); [reflexivity|exact IH].
  - destruct (String.eqb k k') eqn:E; [|exact IH].
    apply String.eqb_eq in E. subst k'. contradiction.
Qed.

(** X9.  The record of an agent keeps the number and the serialized
    history, and of the data bag exactly the entries whose key does not
    start with [_], in their order and with their values. *)
Theorem serialize_agent_drops_private (agent : Agent) (d : dict) :
  agent_data agent = VDict d ->
  exists data,
    _serialize_agent agent
    = Ok (VDict [ ("number", agent_number agent);
                  ("data", VDict data);
                  ("history", History_serialize (agent_history agent)) ]) /\
    sublist data d /\
    forall k, dict_get k data
              = if String.prefix "_" k then None else dict_get k d.
Proof.
  intros Hd. exists (public_items d). split; [|split].
  - unfold _serialize_agent. rewrite Hd. reflexivity.
  - apply sublist_filter.
  - intros k. destruct (String.prefix "_" k) eqn:Hk.
    + apply public_items_get, Hk.
    + apply public_items_get_other, Hk.
Qed.

Lemma chain_from_length (config : AgentConfig) (recs : list agent_fields) :
  forall (p : nat) (last : Agent),
    length (chain_from config p last recs) = S (length recs).
Proof.
  induction recs as [|r recs IH]; intros p last; cbn [chain_from length];
    [reflexivity|].
  rewrite IH. reflexivity.
Qed.

Lemma chain_from_wired (config : AgentConfig) (recs : list agent_fields) :
  DATA_NAME_SUPERIOR <> DATA_NAME_SUBORDINATE ->
  forall (base i0 : nat) (last : Agent) (dl : dict),
    agent_data last = VDict dl ->
    forall (i : nat) (ag : Agent),
      chain_from config (base + i0) last recs !! i = Some ag ->
      match i with
      | O =>
          agent_number ag = agent_number last /\
          agent_history ag = agent_history last /\
          agent_config ag = agent_config last /\
          exists d,
            agent_data ag = VDict d /\
            (forall k, k <> DATA_NAME_SUBORDINATE ->
                       dict_get k d = dict_get k dl) /\
            dict_get DATA_NAME_SUBORDINATE d
            = (if (0 <? length recs)%nat then Some (VObj (base + S i0))
               else dict_get DATA_NAME_SUBORDINATE dl)
      | S j =>
          exists r, recs !! j = Some r /\
                    wired config base (i0 + S (length recs)) (i0 + S j) r ag
      end.
Proof.
  intros Hne. induction recs as [|r recs IH]; intros base i0 last dl Hdl i ag Hi.
  - destruct i as [|j]; [|discriminate Hi].
    injection Hi as <-. repeat split. exists dl. repeat split. exact Hdl.
  - destruct i as [|j].
    + injection Hi as <-. repeat split.
      exists (dict_set DATA_NAME_SUBORDINATE (VObj (S (base + i0))) dl).
      split; [apply put_data, Hdl|]. split.
      * intros k Hk. apply dict_get_set_ne. congruence.
      * cbn [length Nat.ltb Nat.leb]. rewrite dict_get_set_eq.
        rewrite Nat.add_succ_r. reflexivity.
    + cbn [chain_from] in Hi.
      change (chain_from config (S (base + i0))
                (node config r.1.1
                   (dict_set DATA_NAME_SUPERIOR (VObj (base + i0)) r.1.2) r.2)
                recs !! j = Some ag) in Hi.
      rewrite <- Nat.add_succ_r in Hi.
      specialize (IH base (S i0)
                    (node config r.1.1
                       (dict_set DATA_NAME_SUPERIOR (VObj (base + i0)) r.1.2) r.2)
                    (dict_set DATA_NAME_SUPERIOR (VObj (base + i0)) r.1.2)
                    eq_refl j ag Hi).
      destruct j as [|j'].
      * destruct IH as (Hnum & Hhist & Hcfg & d & Hd & Hother & Hsub).
        exists r. split; [reflexivity|].
        split; [exact Hnum|]. split; [exact Hhist|]. split; [exact Hcfg|].
        exists d. split; [exact Hd|]. split; [|split].
        -- intros k Hk1 Hk2. rewrite Hother by exact Hk1.
           apply dict_get_set_ne. congruence.
        -- rewrite Hsub. cbn [length].
           assert ((S (i0 + 1) <? i0 + S (S (length recs)))%nat
                   = (0 <? length recs)%nat) as ->
             by (destruct (Nat.ltb_spec 0 (length recs));
                 [apply Nat.ltb_lt; lia|apply Nat.ltb_ge; lia]).
           destruct (0 <? length recs)%nat.
           ++ do 2 f_equal. lia.
           ++ apply dict_get_set_ne, Hne.
        -- replace (0 <? i0 + 1)%nat with true
             by (symmetry; apply Nat.ltb_lt; lia).
           rewrite Hother by exact Hne. rewrite dict_get_set_eq.
           do 2 f_equal. lia.
      * destruct IH as (r' & Hr' & Hw). exists r'. split; [exact Hr'|].
        cbn [length].
        replace (i0 + S (S (length recs)))%nat
          with (S i0 + S (length recs))%nat by lia.
        replace (i0 + S (S j'))%nat with (S i0 + S j')%nat by lia.
        exact Hw.
Qed.

(** X10.  From a non-empty sequence of well-formed agent records,
    [_deserialize_agents] builds one new agent per record, in order, at the
    addresses after those in use, and returns the first.  Each agent has
    the number, the history and the data of its record; its subordinate
    link refers to the next agent and its superior link to the previous
    one; the first agent gets no superior link and the last no subordinate
    link. *)
Theorem deserialize_agents_wires_chain (config : AgentConfig)
    (ags : list pyval) (recs : list agent_fields) (h : agents_store) :
  DATA_NAME_SUPERIOR <> DATA_NAME_SUBORDINATE ->
  Forall2 record_of ags recs ->
  ags <> [] ->
  exists nodes,
    _deserialize_agents (VList ags) config h = Ok (length h, h ++ nodes) /\
    length nodes = length recs /\
    forall i r ag,
      recs !! i = Some r -> nodes !! i = Some ag ->
      wired config (length h) (length recs) i r ag.
Proof.
  intros Hne Hrecs Hags.
  destruct Hrecs as [|a r0 ags recs Hr0 Hrecs]; [contradiction|].
  eexists. split; [apply (deserialize_agents_records _ _ _ r0 recs h Hr0 Hrecs)|].
  split; [apply chain_from_length|].
  intros i r ag Hr Hag.
  replace (length h) with (length h + 0)%nat in Hag by lia.
  pose proof (chain_from_wired config recs Hne (length h) 0
                (node config r0.1.1 r0.1.2 r0.2) r0.1.2 eq_refl i ag Hag)
    as Hspec.
  destruct i as [|j].
  - injection Hr as <-.
    destruct Hspec as (Hnum & Hhist & Hcfg & d & Hd & Hother & Hsub).
    split; [exact Hnum|]. split; [exact Hhist|]. split; [exact Hcfg|].
    exists d. split; [exact Hd|]. split; [|split].
    + intros k Hk _. apply Hother, Hk.
    + rewrite Hsub. cbn [length node agent_data].
      change (1 <? S (length recs))%nat with (0 <? length recs)%nat.
      reflexivity.
    + cbn [Nat.ltb Nat.leb]. apply Hother, Hne.
  - destruct Hspec as (r' & Hr' & Hw).
    change ((r0 :: recs) !! S j) with (recs !! j) in Hr.
    rewrite Hr in Hr'. injection Hr' as <-. exact Hw.
Qed.

(* ===================================================================== *)
(** ** Further properties of loading a context *)
(* ===================================================================== *)

Lemma set_data_frame (a : nat) (field : string) (v : pyval)
    (h h' : agents_store) (base : nat) :
  set_data a field v h = Ok h' -> (base <= a)%nat ->
  take base h' = take base h.
Proof.
  unfold set_data. destruct (deref h (VObj a)) as [ag|]; [|discriminate].
  cbn. destruct (py_setitem (agent_data ag) field v); [|discriminate].
  cbn. intros [= <-] Hle. apply take_insert_ge, Hle.
Qed.

Lemma deserialize_agents_loop_frame (config : AgentConfig) (ags : list pyval)
    (base : nat) :
  forall (prev zero : option nat) (h : agents_store) (zero' : option nat)
         (h' : agents_store),
    deserialize_agents_loop ags config prev zero h = Ok (zero', h') ->
    (base <= length h)%nat ->
    (forall p, prev = Some p -> (base <= p)%nat) ->
    (forall z, zero = Some z -> (base <= z)%nat) ->
    take base h' = take base h /\
    (forall z, zero' = Some z -> (base <= z)%nat).
Proof.
  induction ags as [|ag ags IH]; intros prev zero h zero' h' Hrun Hbase Hp Hz.
  - cbn in Hrun. injection Hrun as <- <-. split; [reflexivity|exact Hz].
  - cbn [deserialize_agents_loop alloc] in Hrun.
    destruct (py_getitem ag "number") as [num|]; [|discriminate].
    cbn [mbind result_bind] in Hrun.
    destruct (py_get ag "data" (VDict [])) as [d|]; [|discriminate].
    cbn [mbind result_bind] in Hrun.
    destruct (py_get ag "history" (VStr EmptyString)) as [hd|]; [|discriminate].
    cbn [mbind result_bind] in Hrun.
    destruct (deserialize_history hd) as [hist|]; [|discriminate].
    cbn [mbind result_bind] in Hrun.
    rewrite !alter_last in Hrun.
    set (h1 := h ++ [_]) in Hrun.
    assert (Hh1 : length h1 = S (length h))
      by (unfold h1; rewrite length_app; cbn; lia).
    assert (Ht1 : take base h1 = take base h)
      by (unfold h1; apply take_app_le, Hbase).
    assert (Hlink : forall h2,
      match prev with
      | Some p =>
          set_data p DATA_NAME_SUBORDINATE (VObj (length h)) h1
          ≫= (fun h0 => set_data (length h) DATA_NAME_SUPERIOR (VObj p) h0)
      | None => Ok h1
      end = Ok h2 -> length h2 = S (length h) /\ take base h2 = take base h).
    { intros h2. destruct prev as [p|].
      - destruct (set_data p _ _ h1) as [h0|] eqn:E1; [|discriminate].
        cbn. intros E2.
        pose proof (set_data_length _ _ _ _ _ E1).
        pose proof (set_data_length _ _ _ _ _ E2).
        apply (set_data_frame _ _ _ _ _ base) in E1; [|apply Hp; reflexivity].
        apply (set_data_frame _ _ _ _ _ base) in E2; [|exact Hbase].
        split; [lia|congruence].
      - intros [= <-]. split; [exact Hh1|exact Ht1]. }
    destruct (match prev with Some _ => _ | None => _ end) as [h2|] eqn:E;
      [|discriminate].
    cbn [mbind result_bind] in Hrun. destruct (Hlink h2 eq_refl) as [Hlen Htake].
    apply IH in Hrun.
    + destruct Hrun as (Hframe & Hz'). split; [congruence|exact Hz'].
    + lia.
    + intros p [= <-]. exact Hbase.
    + intros z Hzz. destruct zero as [z0|].
      * injection Hzz as <-. apply Hz. reflexivity.
      * injection Hzz as <-. exact Hbase.
Qed.

Lemma deserialize_agents_frame (agents : pyval) (config : AgentConfig)
    (h h' : agents_store) (zero : nat) :
  _deserialize_agents agents config h = Ok (zero, h') ->
  take (length h) h' = h /\ (length h <= zero < length h')%nat.
Proof.
  unfold _deserialize_agents. intros Hrun.
  destruct (py_iter agents) as [ags|]; [|discriminate].
  cbn [mbind result_bind] in Hrun.
  destruct (deserialize_agents_loop ags config None None h)
    as [[zero' h1]|] eqn:E; [|discriminate].
  cbn [mbind result_bind fst snd] in Hrun.
  pose proof (deserialize_agents_loop_zero _ _ _ _ _ _ _ E) as [Hlen Hz];
    [discriminate|].
  pose proof (deserialize_agents_loop_frame _ _ (length h) _ _ _ _ _ E)
    as [Hframe Hlow]; [lia|discriminate|discriminate|].
  rewrite firstn_all in Hframe.
  destruct zero' as [z|].
  - injection Hrun as <- <-. split; [exact Hframe|].
    split; [apply Hlow|apply Hz]; reflexivity.
  - injection Hrun as <- <-. split.
    + rewrite take_app_le by exact Hlen. exact Hframe.
    + rewrite length_app. cbn. lia.
Qed.

Lemma find_streaming_result (h : agents_store) (wanted : pyval) (fuel : nat) :
  forall (sa r : pyval),
    find_streaming fuel h sa wanted = Ok r ->
    py_truthy r = false \/
    exists ag, deref h r = Ok ag /\ py_eq (agent_number ag) wanted = true.
Proof.
  induction fuel as [|fuel IH]; intros sa r Hrun; cbn [find_streaming] in Hrun;
    destruct (py_truthy sa) eqn:Esa; try discriminate;
    try (injection Hrun as <-; left; exact Esa).
  destruct (deref h sa) as [ag|] eqn:Eag; [|discriminate].
  cbn [mbind result_bind] in Hrun.
  destruct (py_eq (agent_number ag) wanted) eqn:Eeq; cbn [negb] in Hrun.
  - injection Hrun as <-. right. exists ag. split; [exact Eag|exact Eeq].
  - destruct (py_get (agent_data ag) DATA_NAME_SUBORDINATE VNone) as [next|];
      [|discriminate].
    cbn [mbind result_bind] in Hrun. eapply IH, Hrun.
Qed.

Lemma deserialize_context_inv (fuel : nat) (data : pyval)
    (h h' : agents_store) (c : AgentContext) :
  _deserialize_context fuel data h = Ok (c, h') ->
  exists agents zero wanted,
    _deserialize_agents agents initialize_agent h = Ok (zero, h') /\
    py_get data "streaming_agent" (VInt 0) = Ok wanted /\
    find_streaming fuel h' (VObj zero) wanted = Ok (ctx_streaming_agent c) /\
    ctx_agent0 c = VObj zero /\
    ctx_paused c = false.
Proof.
  unfold _deserialize_context. intros Hrun.
  destruct (py_get data "log" VNone) as [lg|]; [|discriminate].
  cbn [mbind result_bind] in Hrun.
  destruct (_deserialize_log lg) as [log|]; [|discriminate].
  cbn [mbind result_bind] in Hrun.
  destruct (py_get data "id" VNone) as [id|]; [|discriminate].
  cbn [mbind result_bind] in Hrun.
  destruct (py_get data "name" VNone) as [name|]; [|discriminate].
  cbn [mbind result_bind] in Hrun.
  destruct (py_get data "created_at" _) as [cr|]; [|discriminate].
  cbn [mbind result_bind] in Hrun.
  destruct (datetime_fromisoformat cr) as [t1|]; [|discriminate].
  cbn [mbind result_bind] in Hrun.
  destruct (py_get data "type" _) as [tr|]; [|discriminate].
  cbn [mbind result_bind] in Hrun.
  destruct (AgentContextType_of tr) as [ty|]; [|discriminate].
  cbn [mbind result_bind] in Hrun.
  destruct (py_get data "last_message" _) as [lr|]; [|discriminate].
  cbn [mbind result_bind] in Hrun.
  destruct (datetime_fromisoformat lr) as [t2|]; [|discriminate].
  cbn [mbind result_bind] in Hrun.
  destruct (py_get data "agents" _) as [agents|]; [|discriminate].
  cbn [mbind result_bind] in Hrun.
  destruct (_deserialize_agents agents initialize_agent h) as [[zero h1]|] eqn:Eag;
    [|discriminate].
  cbn [mbind result_bind] in Hrun.
  destruct (py_get data "streaming_agent" (VInt 0)) as [wanted|]; [|discriminate].
  cbn [mbind result_bind] in Hrun.
  destruct (find_streaming fuel h1 (VObj zero) wanted) as [sa|] eqn:Esa;
    [|discriminate].
  cbn [mbind result_bind] in Hrun. injection Hrun as <- <-.
  exists agents, zero, wanted. repeat split; assumption.
Qed.

(** X11.  Whatever the record, a load that returns has left every agent
    that existed before as it was; the root of the loaded context is a new
    agent; the context is not paused; and its streaming agent, when there is
    one, is an agent whose number equals the stored ordinal. *)
Theorem deserialize_context_frame (fuel : nat) (data : pyval)
    (h h' : agents_store) (c : AgentContext) :
  _deserialize_context fuel data h = Ok (c, h') ->
  take (length h) h' = h /\
  (exists z, ctx_agent0 c = VObj z /\ (length h <= z < length h')%nat) /\
  ctx_paused c = false /\
  (py_truthy (ctx_streaming_agent c) = false \/
   exists ag wanted,
     deref h' (ctx_streaming_agent c) = Ok ag /\
     py_get data "streaming_agent" (VInt 0) = Ok wanted /\
     py_eq (agent_number ag) wanted = true).
Proof.
  intros Hrun.
  apply deserialize_context_inv in Hrun
    as (agents & zero & wanted & Eag & Hwanted & Esa & Hroot & Hpaused).
  apply deserialize_agents_frame in Eag as [Hframe Hzero].
  apply find_streaming_result in Esa.
  split; [exact Hframe|]. split; [exists zero; split; [exact Hroot|exact Hzero]|].
  split; [exact Hpaused|].
  destruct Esa as [Hf|(ag & Hag & Heq)]; [left; exact Hf|].
  right. exists ag, wanted. repeat split; assumption.
Qed.

(** X12.  A stored record with a well-formed log is refused with
    [ValueError] when its [created_at] is a text that is not a time stamp,
    and when its [type] is not the value of a member of
    [AgentContextType]. *)
Theorem deserialize_context_rejects_bad_fields (fuel : nat) (d : dict)
    (h : agents_store) (lg : pyval) (log : Log) :
  dict_get "log" d = Some lg ->
  _deserialize_log lg = Ok log ->
  (forall s,
     dict_get "created_at" d = Some (VStr s) -> fromisoformat s = None ->
     _deserialize_context fuel (VDict d) h = Raise ValueError) /\
  (forall t1 tag,
     datetime_fromisoformat
       (default (VStr (isoformat epoch0)) (dict_get "created_at" d)) = Ok t1 ->
     dict_get "type" d = Some tag ->
     (forall m, py_eq (VStr (type_value m)) tag = false) ->
     _deserialize_context fuel (VDict d) h = Raise ValueError).
Proof.
  intros Hlog Hlg. split.
  - intros s Hs Hbad. unfold _deserialize_context.
    cbn [py_get mbind result_bind]. rewrite Hlog.
    cbn [default from_option id]. rewrite Hlg. cbn [mbind result_bind].
    rewrite Hs. cbn [default from_option id datetime_fromisoformat].
    rewrite Hbad. reflexivity.
  - intros t1 tag Ht1 Htag Hbad. unfold _deserialize_context.
    cbn [py_get mbind result_bind]. rewrite Hlog.
    cbn [default from_option id]. rewrite Hlg. cbn [mbind result_bind].
    rewrite Ht1. cbn [mbind result_bind]. rewrite Htag.
    cbn [default from_option id]. unfold AgentContextType_of.
    rewrite !filter_cons, filter_nil.
    rewrite !decide_False by (rewrite Hbad; discriminate). reflexivity.
Qed.

(* ===================================================================== *)
(** ** Import *)
(* ===================================================================== *)

Lemma load_json_chats_loop_frame (fuel : nat) (jsons : list string) :
  forall (acc : list pyval) (h : agents_store) (ids : list pyval)
         (h' : agents_store),
    load_json_chats_loop fuel jsons acc h = Ok (ids, h') ->
    length ids = (length acc + length jsons)%nat /\
    take (length h) h' = h.
Proof.
  induction jsons as [|js jsons IH]; intros acc h ids h' Hrun.
  - injection Hrun as <- <-. rewrite firstn_all. cbn [length]. split; [lia|].
    reflexivity.
  - cbn [load_json_chats_loop] in Hrun.
    destruct (load_json_chat fuel js h) as [[c h1]|] eqn:E; [|discriminate].
    cbn [mbind result_bind fst snd] in Hrun.
    apply IH in Hrun as [Hids Hframe].
    split; [rewrite Hids, length_app; cbn [length]; lia|].
    assert (Hh1 : take (length h) h1 = h /\ (length h <= length h1)%nat).
    { unfold load_json_chat in E.
      destruct (json.loads js) as [data|]; [|discriminate].
      cbn [mbind result_bind] in E.
      destruct (py_contains "id" data) as [b|]; [|discriminate].
      cbn [mbind result_bind] in E.
      destruct (if b then _ else _) as [data'|]; [|discriminate].
      cbn [mbind result_bind] in E.
      apply deserialize_context_inv in E as (ags & z & _ & E & _).
      apply deserialize_agents_frame in E as [Hf Hz].
      split; [exact Hf|lia]. }
    destruct Hh1 as [Hf1 Hlen].
    rewrite <- Hf1 at 2. rewrite <- Hframe.
    rewrite take_take. f_equal. lia.
Qed.

Lemma dict_del_absent (k : string) (d : dict) :
  dict_get k d = None -> dict_del k d = d.
Proof.
  induction d as [|[k' v] d IH]; [reflexivity|]. cbn [dict_get dict_del].
  destruct (String.eqb k k'); [discriminate|].
  intros Hd. rewrite IH by exact Hd. reflexivity.
Qed.

(** The record that [_deserialize_context] is given never has an [id]. *)
Lemma load_json_chat_dict (fuel : nat) (js : string) (d : dict)
    (h : agents_store) :
  json.loads js = Ok (VDict d) ->
  load_json_chat fuel js h
  = _deserialize_context fuel (VDict (dict_del "id" d)) h.
Proof.
  intros Hloads. unfold load_json_chat. rewrite Hloads.
  cbn [mbind result_bind py_contains].
  destruct (dict_get "id" d) eqn:Eid; cbn [py_delitem mbind result_bind].
  - rewrite Eid. reflexivity.
  - rewrite dict_del_absent by exact Eid. reflexivity.
Qed.

Lemma load_json_chats_loop_same (fuel : nat) (jsons jsons' : list string) :
  Forall2 same_apart_from_id jsons jsons' ->
  forall (acc : list pyval) (h : agents_store),
    load_json_chats_loop fuel jsons acc h
    = load_json_chats_loop fuel jsons' acc h.
Proof.
  induction 1 as [|js js' jsons jsons' (d & d' & Hd & Hd' & Hsame) _ IH];
    intros acc h; [reflexivity|].
  cbn [load_json_chats_loop].
  rewrite (load_json_chat_dict fuel js d h Hd).
  rewrite (load_json_chat_dict fuel js' d' h Hd'). rewrite Hsame.
  destruct (_deserialize_context fuel (VDict (dict_del "id" d')) h)
    as [[c h1]|]; [|reflexivity].
  cbn [mbind result_bind]. apply IH.
Qed.

(** X13.  An import does not read the identifier that a text carries: the
    entry [id] is deleted before the record is rebuilt.  Two lists of texts
    whose dictionaries agree apart from their [id] entries are imported with
    the same outcome; and when [load_json_chats] returns, it returns one
    identifier per text and the agents that existed before are as they
    were. *)
Theorem load_json_chats_ignores_ids (fuel : nat) (jsons jsons' : list string)
    (h : agents_store) :
  Forall2 same_apart_from_id jsons jsons' ->
  load_json_chats fuel jsons h = load_json_chats fuel jsons' h /\
  forall (ids : list pyval) (h' : agents_store),
    load_json_chats fuel jsons h = Ok (ids, h') ->
    length ids = length jsons /\ take (length h) h' = h.
Proof.
  intros Hsame. split.
  - apply load_json_chats_loop_same, Hsame.
  - intros ids h' Hrun.
    apply load_json_chats_loop_frame in Hrun. exact Hrun.
Qed.

Lemma load_json_chats_loop_app (fuel : nat) (pre rest : list string) :
  forall (acc : list pyval) (h : agents_store),
    load_json_chats_loop fuel (pre ++ rest) acc h
    = r ← load_json_chats_loop fuel pre acc h;
      load_json_chats_loop fuel rest r.1 r.2.
Proof.
  induction pre as [|js pre IH]; intros acc h; [reflexivity|].
  cbn [app load_json_chats_loop].
  destruct (load_json_chat fuel js h) as [[c h1]|]; [|reflexivity].
  cbn [mbind result_bind]. apply IH.
Qed.

(** X14.  An import has no isolation between its texts: when one of them
    fails, because it does not decode or because its record does not load,
    [load_json_chats] raises that exception, whatever was loaded before it
    and whatever follows. *)
Theorem load_json_chats_aborts (fuel : nat) (pre post : list string)
    (js : string) (h h1 : agents_store) (ids : list pyval) (e : exn) :
  load_json_chats fuel pre h = Ok (ids, h1) ->
  load_json_chat fuel js h1 = Raise e ->
  load_json_chats fuel (pre ++ js :: post) h = Raise e.
Proof.
  unfold load_json_chats. intros Hpre Hjs.
  rewrite load_json_chats_loop_app, Hpre. cbn [mbind result_bind fst snd].
  cbn [load_json_chats_loop]. rewrite Hjs. reflexivity.
Qed.

Lemma nullify_representable (v : pyval) :
  json_representable v = true -> nullify v = v.
Proof.
  induction v as [| b | z | s | l IH | d IH | a] using pyval_induction;
    intros Hok; try reflexivity; try discriminate Hok; cbn [nullify]; f_equal.
  - cbn [json_representable] in Hok.
    induction IH as [|x l Hx _ IHl]; [reflexivity|].
    cbn [forallb] in Hok. apply andb_true_iff in Hok as [Hx1 Hl].
    cbn [map]. rewrite Hx by exact Hx1. rewrite IHl by exact Hl. reflexivity.
  - cbn [json_representable] in Hok. apply andb_true_iff in Hok as [_ Hok].
    induction IH as [|[k x] d Hx _ IHd]; [reflexivity|].
    cbn [forallb] in Hok. apply andb_true_iff in Hok as [Hx1 Hd].
    cbn [map fst snd] in *. rewrite Hx by exact Hx1. rewrite IHd by exact Hd.
    reflexivity.
Qed.

(** X15.  Exporting a context and importing the text gives a copy under a
    new identifier.  For a context with both time stamps, a well-formed
    chain, at most 1000 log entries, none with an empty [kvps] mapping, and
    a serialized record that has a JSON text, [export_json_chat] returns a
    text, and [load_json_chats] on that text returns the identifier issued
    for the copy, which agrees with the original on the name, the time
    stamps, the type, the agents of the chain and the entries of the log. *)
Theorem export_import_roundtrip (fuel : nat) (c : AgentContext)
    (h h0 : agents_store) (nodes : list Agent) (t1 t2 : datetime)
    (rec : pyval) :
  String.prefix "_" DATA_NAME_SUBORDINATE = true ->
  String.prefix "_" DATA_NAME_SUPERIOR = true ->
  DATA_NAME_SUPERIOR <> DATA_NAME_SUBORDINATE ->
  fromisoformat (isoformat t1) = Some t1 ->
  fromisoformat (isoformat t2) = Some t2 ->
  (forall a b, type_value a = type_value b -> a = b) ->
  Forall (fun ag => deserialize_history (History_serialize (agent_history ag))
                    = Ok (agent_history ag)) nodes ->
  ctx_created_at c = Some t1 ->
  ctx_last_message c = Some t2 ->
  chain h (ctx_agent0 c) nodes ->
  nodes <> [] ->
  (length (log_logs (ctx_log c)) <= 1000)%nat ->
  Forall (fun it => item_kvps it <> Some []) (log_logs (ctx_log c)) ->
  (length nodes <= fuel)%nat ->
  _serialize_context fuel c h = Ok rec ->
  json_representable rec = true ->
  (depth rec + 1 < fuel)%nat ->
  exists js c' h',
    export_json_chat fuel c h = Ok js /\
    load_json_chat fuel js h0 = Ok (c', h') /\
    load_json_chats fuel [js] h0 = Ok ([VStr new_context_id], h') /\
    ctx_id c' = VStr new_context_id /\
    same_but_id c h c' h'.
Proof.
  intros Hsub Hsup Hne Hiso1 Hiso2 Hinj Hhist Hcreated Hlast Hchain Hnodes
    Hlen Hkvps Hfuel Hser Hok Hdepth.
  assert (Hexport : export_json_chat fuel c h = Ok (render false rec)).
  { unfold export_json_chat. rewrite Hser. cbn [mbind result_bind].
    rewrite safe_json_serialize_nullify by exact Hdepth.
    rewrite nullify_representable by exact Hok. reflexivity. }
  assert (Hstream : py_truthy (ctx_streaming_agent c) = false \/
                    exists ag, deref h (ctx_streaming_agent c) = Ok ag).
  { unfold _serialize_context in Hser.
    destruct (serialize_agents fuel h (ctx_agent0 c)); [|discriminate].
    cbn [mbind result_bind] in Hser.
    destruct (py_truthy (ctx_streaming_agent c)); [|left; reflexivity].
    destruct (deref h (ctx_streaming_agent c)) as [ag|]; [|discriminate].
    right. exists ag. reflexivity. }
  destruct (serialize_context_chain fuel c h nodes Hchain Hfuel Hstream)
    as [streaming Hser'].
  rewrite Hser' in Hser. injection Hser as <-.
  destruct nodes as [|ag0 rest]; [contradiction|].
  pose proof (chain_data _ _ _ Hchain) as Hdata.
  apply Forall_cons in Hdata as [[d0 Hd0] Hdata].
  assert (Hslice : slice_from (- LOG_SIZE) (log_logs (ctx_log c))
                   = log_logs (ctx_log c)).
  { unfold LOG_SIZE. change (Z.opp 1000) with (Z.opp (Z.of_nat 1000)).
    apply slice_from_short; lia. }
  assert (Hload : exists c' h',
    load_json_chat fuel (render false
      (VDict [ ("id", ctx_id c); ("name", ctx_name c);
               ("created_at",
                VStr (isoformat (default epoch0 (ctx_created_at c))));
               ("type", VStr (type_value (ctx_type c)));
               ("last_message",
                VStr (isoformat (default epoch0 (ctx_last_message c))));
               ("agents", VList (map agent_record (ag0 :: rest)));
               ("streaming_agent", streaming);
               ("log", _serialize_log (ctx_log c)) ])) h0 = Ok (c', h') /\
    ctx_id c' = VStr new_context_id /\ same_but_id c h c' h').
  { unfold load_json_chat. rewrite (loads_render false _ Hok).
    cbn [mbind result_bind py_contains py_delitem dict_get dict_del
         String.eqb Ascii.eqb Bool.eqb].
    eexists _, _. split.
    - eapply (deserialize_context_records fuel _ h0 _ _
                (map agent_record (ag0 :: rest)) (map fields_of (ag0 :: rest))
                t1 t2 (ctx_type c)).
      + reflexivity.
      + apply deserialize_serialize_log.
      + cbn [dict_get String.eqb Ascii.eqb Bool.eqb default from_option id].
        rewrite Hcreated. cbn [default from_option id datetime_fromisoformat].
        rewrite Hiso1. reflexivity.
      + cbn [dict_get String.eqb Ascii.eqb Bool.eqb default from_option id].
        apply AgentContextType_of_value, Hinj.
      + cbn [dict_get String.eqb Ascii.eqb Bool.eqb default from_option id].
        rewrite Hlast. cbn [default from_option id datetime_fromisoformat].
        rewrite Hiso2. reflexivity.
      + reflexivity.
      + apply Forall2_fmap, Forall_Forall2_diag.
        eapply Forall_impl; [exact Hhist|]. intros ag Hag.
        apply record_of_agent_record, Hag.
      + exact Hne.
      + apply Forall_fmap. apply Forall_forall. intros ag _.
        unfold no_subordinate, fields_of. cbn [fst snd].
        apply public_items_get, Hsub.
      + cbn [map numbers length] in Hfuel |- *. rewrite !length_map. exact Hfuel.
    - unfold same_but_id.
      cbn [ctx_id ctx_name ctx_created_at ctx_last_message ctx_type ctx_agent0
           ctx_log log_guid log_logs log_updates log_progress log_progress_no
           dict_get String.eqb Ascii.eqb Bool.eqb default from_option id
           issued_id].
      rewrite Hslice.
      split; [reflexivity|].
      split; [reflexivity|]. split; [symmetry; exact Hcreated|].
      split; [symmetry; exact Hlast|]. split; [reflexivity|]. split.
      { exists (ag0 :: rest), (chain_from initialize_agent (length h0)
                 (node initialize_agent (agent_number ag0)
                    (public_items (bag ag0)) (agent_history ag0))
                 (map fields_of rest)).
        split; [exact Hchain|]. cbn [map built fields_of fst snd]. split.
        - eapply chain_chain_from; [exact Hne| |reflexivity|].
          + apply Forall_fmap. apply Forall_forall. intros ag _.
            unfold no_subordinate, fields_of. cbn [fst snd].
            apply public_items_get, Hsub.
          + apply public_items_get, Hsub.
        - apply same_agent_chain_from; [exact Hsub|exact Hsup|exact Hdata|].
          split; [reflexivity|]. split; [reflexivity|].
          eexists _, _. split; [exact Hd0|]. split; [reflexivity|].
          unfold bag. rewrite Hd0.
          split; [apply public_items_idem|apply only_links_public]. }
      split; [reflexivity|].
      split; [apply reload_items_same, Hkvps|].
      rewrite reload_items_length.
      split; [apply reload_items_no|]. repeat split; reflexivity. }
  destruct Hload as (c' & h' & Hload & Hid & Hsame).
  exists (render false
    (VDict [ ("id", ctx_id c); ("name", ctx_name c);
             ("created_at",
              VStr (isoformat (default epoch0 (ctx_created_at c))));
             ("type", VStr (type_value (ctx_type c)));
             ("last_message",
              VStr (isoformat (default epoch0 (ctx_last_message c))));
             ("agents", VList (map agent_record (ag0 :: rest)));
             ("streaming_agent", streaming);
             ("log", _serialize_log (ctx_log c)) ])), c', h'.
  split; [exact Hexport|]. split; [exact Hload|]. split; [|split; assumption].
  unfold load_json_chats. cbn [load_json_chats_loop]. rewrite Hload.
  cbn [mbind result_bind fst snd app]. rewrite Hid. reflexivity.
Qed.

(* ===================================================================== *)
(** ** Saving the conversations *)
(* ===================================================================== *)

Lemma history_records (msgs : list pyval) (ms : list (pyval * pyval)) :
  Forall2 message_of msgs ms ->
  mapM history_record msgs = Ok (map stored_record ms).
Proof.
  induction 1 as [|m p msgs ms (f & -> & Hai & Hct) _ IH]; [reflexivity|].
  assert (Hm : history_record (VDict f) = Ok (stored_record p)).
  { unfold history_record. cbn [py_getitem]. rewrite Hai, Hct. reflexivity. }
  cbn [mapM map]. rewrite Hm. cbn [mbind result_bind]. rewrite IH. reflexivity.
Qed.

Lemma flatten_histories_chain (h : agents_store) (v : pyval)
    (nodes : list Agent) :
  chain h v nodes ->
  forall (mss : list (list (pyval * pyval))) (fuel : nat) (acc : list pyval),
    Forall2 outputs nodes mss ->
    (length nodes <= fuel)%nat ->
    flatten_histories fuel h v acc
    = Ok (acc ++ map stored_record (concat mss)).
Proof.
  induction 1 as [v Hv|a ag d rest Ha Hd _ IH]; intros mss fuel acc Hout Hfuel.
  - apply Forall2_nil_inv_l in Hout. subst mss.
    destruct fuel; cbn [flatten_histories]; rewrite Hv, app_nil_r; reflexivity.
  - apply Forall2_cons_inv_l in Hout as (ms & mss' & (msgs & Hmsgs & Hall) & Hrest & ->).
    destruct fuel as [|fuel]; [cbn in Hfuel; lia|].
    cbn [flatten_histories py_truthy deref]. rewrite Ha.
    cbn [mbind result_bind]. rewrite Hmsgs. cbn [py_iter mbind result_bind].
    rewrite (history_records _ _ Hall). cbn [mbind result_bind].
    rewrite Hd. cbn [py_get mbind result_bind].
    rewrite (IH mss' fuel _ Hrest) by (cbn in Hfuel; lia).
    cbn [concat]. rewrite map_app, app_assoc. reflexivity.
Qed.

(** X16.  For a context that is not a background context, with the store
    in reach and no registered helper, [save_tmp_chat] creates the marker
    folder of the context and stores, under the key of its identifier, the
    messages of all agents of the chain in chain order, each as a record
    with the role [ai] or [user], by the truth value of the message's [ai]
    entry, and the content; [load_history] reads that list back. *)
Theorem save_tmp_chat_stores_history (fuel : nat) (c : AgentContext)
    (h : agents_store) (w : world) (ctxid : string) (nodes : list Agent)
    (mss : list (list (pyval * pyval))) :
  is_background (ctx_type c) = false ->
  ctx_id c = VStr ctxid ->
  _instance w = false ->
  online w = true ->
  chain h (ctx_agent0 c) nodes ->
  Forall2 outputs nodes mss ->
  (length nodes <= fuel)%nat ->
  json_representable (VList (map stored_record (concat mss))) = true ->
  (depth (VList (map stored_record (concat mss))) < fuel)%nat ->
  exists w',
    save_tmp_chat fuel c h w = Ok w' /\
    get_chat_folder_path ctxid ∈ dirs w' /\
    MemGraphHelper.load_history ctxid w'
    = Ok (VList (map stored_record (concat mss)), w').
Proof.
  intros Hbg Hid Hinst Hon Hchain Hout Hfuel Hok Hdepth.
  unfold save_tmp_chat. rewrite Hbg, Hid.
  cbn [id_string mbind result_bind]. unfold MemGraphHelper.__init__, make_dirs.
  cbn [_instance]. rewrite Hinst. cbn [mbind result_bind].
  rewrite (flatten_histories_chain _ _ _ Hchain mss fuel [] Hout Hfuel).
  cbn [app mbind result_bind].
  rewrite save_history_store by assumption. cbn [online store dirs _instance].
  rewrite Hon. eexists. split; [reflexivity|]. cbn [dirs]. split.
  - apply elem_of_union_l, elem_of_singleton. reflexivity.
  - rewrite load_history_loaded. cbn [online store].
    rewrite lookup_insert_eq, loaded_wrap by exact Hok. reflexivity.
Qed.

Lemma save_history_frame (fuel : nat) (conversation_id : string)
    (history : pyval) (w w' : world) :
  MemGraphHelper.save_history fuel conversation_id history w = Ok w' ->
  dirs w' = dirs w /\ online w' = online w /\ _instance w' = _instance w /\
  forall key, key <> MemGraphHelper.key_of conversation_id ->
              store w' !! key = store w !! key.
Proof.
  unfold MemGraphHelper.save_history.
  destruct (MemGraphHelper.encode_history fuel history) as [value|];
    [|discriminate].
  cbn [mbind result_bind].
  unfold MemGraphHelper._send_command, session_post.
  destruct (online w) eqn:Hon; cbn [remote]; intros [= <-]; cbn.
  - repeat split; try reflexivity. intros key Hkey.
    apply lookup_insert_ne. congruence.
  - repeat split; try reflexivity. exact Hon.
Qed.

Lemma save_tmp_chat_frame (fuel : nat) (c : AgentContext) (h : agents_store)
    (w w' : world) :
  save_tmp_chat fuel c h w = Ok w' ->
  dirs w ⊆ dirs w' /\ online w' = online w /\ _instance w' = _instance w /\
  forall key,
    (is_background (ctx_type c) = false ->
     forall id, ctx_id c = VStr id -> key <> MemGraphHelper.key_of id) ->
    store w' !! key = store w !! key.
Proof.
  unfold save_tmp_chat. destruct (is_background (ctx_type c)) eqn:Hbg.
  - intros [= <-]. repeat split; reflexivity.
  - destruct (ctx_id c) as [| | |ctxid| | |]; try discriminate.
    cbn [id_string mbind result_bind].
    unfold MemGraphHelper.__init__, make_dirs. cbn [_instance].
    destruct (_instance w) eqn:Hinst; [discriminate|].
    cbn [mbind result_bind].
    destruct (flatten_histories fuel h (ctx_agent0 c) []) as [hist|];
      [|discriminate].
    cbn [mbind result_bind]. intros Hsave.
    apply save_history_frame in Hsave as (Hd & Ho & Hi & Hs).
    cbn [dirs online _instance store] in *.
    split; [rewrite Hd; apply union_subseteq_r|]. split; [exact Ho|].
    split; [congruence|]. intros key Hkey. apply Hs, Hkey; reflexivity.
Qed.

(** X17.  What [save_tmp_chats] leaves alone.  When it returns, no
    directory has been removed, and every key of the store other than those
    of the contexts given that are not background contexts holds what it
    held before; in particular nothing is written for a background
    context. *)
Theorem save_tmp_chats_frame (fuel : nat) (cs : list AgentContext)
    (h : agents_store) (w w' : world) :
  save_tmp_chats fuel cs h w = Ok w' ->
  dirs w ⊆ dirs w' /\
  forall key,
    (forall c id, c ∈ cs -> is_background (ctx_type c) = false ->
                  ctx_id c = VStr id -> key <> MemGraphHelper.key_of id) ->
    store w' !! key = store w !! key.
Proof.
  revert w. induction cs as [|c cs IH]; intros w Hrun.
  - injection Hrun as <-. split; reflexivity.
  - cbn [save_tmp_chats] in Hrun.
    destruct (is_background (ctx_type c)) eqn:Hbg.
    + apply IH in Hrun as [Hd Hs]. split; [exact Hd|].
      intros key Hkey. apply Hs. intros c' id Hc'. apply Hkey.
      apply elem_of_cons. right. exact Hc'.
    + destruct (save_tmp_chat fuel c h w) as [w1|] eqn:E; [|discriminate].
      cbn [mbind result_bind] in Hrun.
      apply save_tmp_chat_frame in E as (Hd1 & _ & _ & Hs1).
      apply IH in Hrun as [Hd Hs]. split; [etrans; eassumption|].
      intros key Hkey. rewrite Hs.
      * apply Hs1. intros _ id Hid. eapply Hkey; [|exact Hbg|exact Hid].
        apply elem_of_cons. left. reflexivity.
      * intros c' id Hc'. apply Hkey. apply elem_of_cons. right. exact Hc'.
Qed.

(* ===================================================================== *)
(** ** Restoring the conversations *)
(* ===================================================================== *)

Lemma replay_message_accepts (m : pyval) (a : nat) (h : agents_store)
    (ag : Agent) :
  replays m = true -> h !! a = Some ag ->
  exists role content,
    py_getitem m "role" = Ok role /\ py_getitem m "content" = Ok content /\
    replay_message m (VObj a) h
    = Ok (<[a := with_history ag
                    (add_message (py_eq role (VStr "ai")) content
                       (agent_history ag))]> h).
Proof.
  unfold replays, replay_message. intros Hm Ha.
  destruct (py_getitem m "role") as [role|]; [|discriminate].
  destruct (py_getitem m "content") as [content|]; [|discriminate].
  exists role, content. split; [reflexivity|]. split; [reflexivity|].
  cbn [mbind result_bind deref]. rewrite Ha. reflexivity.
Qed.

Lemma replay_message_refuses (m : pyval) (agent : pyval) (h : agents_store) :
  replays m = false -> exists e, replay_message m agent h = Raise e.
Proof.
  unfold replays, replay_message. intros Hm.
  destruct (py_getitem m "role") as [role|e]; [|exists e; reflexivity].
  destruct (py_getitem m "content") as [content|e]; [discriminate|].
  exists e. reflexivity.
Qed.

Lemma replay_frame (a : nat) (messages : list pyval) :
  forall (h : agents_store),
    is_Some (h !! a) ->
    exists h' r,
      replay messages (VObj a) h = (h', r) /\
      length h' = length h /\
      take a h' = take a h /\
      (if forallb replays messages then r = Ok tt else exists e, r = Raise e).
Proof.
  induction messages as [|m messages IH]; intros h [ag Ha].
  - exists h, (Ok tt). repeat split.
  - cbn [replay forallb]. destruct (replays m) eqn:Hm.
    + destruct (replay_message_accepts m a h ag Hm Ha)
        as (role & content & _ & _ & ->).
      destruct (IH (<[a := with_history ag
                            (add_message (py_eq role (VStr "ai")) content
                               (agent_history ag))]> h))
        as (h' & r & Hrun & Hlen & Htake & Hr).
      { apply lookup_lt_is_Some. rewrite length_insert.
        apply lookup_lt_is_Some. eexists; exact Ha. }
      exists h', r. split; [exact Hrun|].
      rewrite length_insert in Hlen. split; [exact Hlen|].
      split; [|exact Hr]. rewrite Htake. apply take_insert_ge. lia.
    + destruct (replay_message_refuses m (VObj a) h Hm) as [e ->].
      exists h, (Raise e). repeat split. exists e. reflexivity.
Qed.

Lemma replay_replayed (a : nat) (messages : list pyval)
    (ps : list (pyval * pyval)) :
  Forall2 stored_as messages ps ->
  forall (h : agents_store) (ag : Agent),
    h !! a = Some ag ->
    exists h' ag',
      replay messages (VObj a) h = (h', Ok tt) /\
      h' !! a = Some ag' /\
      agent_number ag' = agent_number ag /\
      agent_history ag' = replayed ps (agent_history ag).
Proof.
  induction 1 as [|m p messages ps (f & -> & Hrole & Hcontent) _ IH];
    intros h ag Ha.
  - exists h, ag. repeat split. exact Ha.
  - cbn [replay]. unfold replay_message. cbn [py_getitem].
    rewrite Hrole, Hcontent. cbn [mbind result_bind deref]. rewrite Ha.
    cbn [mbind result_bind].
    edestruct IH as (h' & ag' & Hrun & Ha' & Hnum & Hhist).
    { apply list_lookup_insert_eq. apply lookup_lt_is_Some.
      eexists; exact Ha. }
    exists h', ag'. split; [exact Hrun|]. split; [exact Ha'|].
    split; [exact Hnum|]. exact Hhist.
Qed.

Lemma forallb_stored_as (messages : list pyval) (ps : list (pyval * pyval)) :
  Forall2 stored_as messages ps -> forallb replays messages = true.
Proof.
  induction 1 as [|m p messages ps (f & -> & Hrole & Hcontent) _ IH];
    [reflexivity|].
  cbn [forallb]. rewrite IH. unfold replays. cbn [py_getitem].
  rewrite Hrole, Hcontent. reflexivity.
Qed.

Lemma load_folder_frame (n : string) (w : world) (st : restored) :
  exists st',
    load_folder n w st = (st', w) /\
    take (length (restored_agents st)) (restored_agents st')
    = restored_agents st /\
    (length (restored_agents st) <= length (restored_agents st'))%nat /\
    (exists cs, restored_contexts st' = restored_contexts st ++ cs) /\
    restored_ctxids st'
    = restored_ctxids st
      ++ (if restorable (history_of w n) then [VStr (strip "/" n)] else []).
Proof.
  unfold load_folder, history_of, restorable. rewrite load_history_loaded.
  set (v := loaded _ _).
  destruct (py_truthy v); cbn [andb].
  2:{ exists st. rewrite firstn_all, !app_nil_r. repeat split; try lia.
      exists []. rewrite app_nil_r. reflexivity. }
  unfold AgentContext_fresh, alloc. cbn [ctx_agent0 ctx_id issued_id].
  set (h1 := restored_agents st ++ [_]).
  assert (Hh1 : length h1 = S (length (restored_agents st)))
    by (unfold h1; rewrite length_app; cbn; lia).
  destruct (py_iter v) as [messages|].
  2:{ eexists. split; [reflexivity|]. cbn [restored_agents restored_contexts
                                           restored_ctxids].
      rewrite app_nil_r. split; [apply take_app_length|].
      split; [lia|]. split; [eexists; reflexivity|reflexivity]. }
  destruct (replay_frame (length (restored_agents st)) messages h1)
    as (h' & r & Hrun & Hlen & Htake & Hr).
  { unfold h1. rewrite lookup_last. eexists; reflexivity. }
  rewrite Hrun.
  assert (Hframe : take (length (restored_agents st)) h' = restored_agents st)
    by (rewrite Htake; apply take_app_length).
  destruct (forallb replays messages).
  - subst r. eexists. split; [reflexivity|].
    cbn [restored_agents restored_contexts restored_ctxids].
    split; [exact Hframe|]. split; [lia|].
    split; [eexists; reflexivity|reflexivity].
  - destruct Hr as [e ->]. eexists. split; [reflexivity|].
    cbn [restored_agents restored_contexts restored_ctxids].
    rewrite app_nil_r. split; [exact Hframe|]. split; [lia|].
    split; [eexists; reflexivity|reflexivity].
Qed.

Lemma load_folders_frame (folders : list string) (w : world) :
  forall st : restored,
    exists st',
      load_folders folders w st = (st', w) /\
      take (length (restored_agents st)) (restored_agents st')
      = restored_agents st /\
      (length (restored_agents st) <= length (restored_agents st'))%nat /\
      (exists cs, restored_contexts st' = restored_contexts st ++ cs) /\
      restored_ctxids st'
      = restored_ctxids st
        ++ map (fun n => VStr (strip "/" n))
             (filter (fun n => restorable (history_of w n) = true) folders).
Proof.
  induction folders as [|n folders IH]; intros st.
  - exists st. cbn [load_folders]. rewrite firstn_all, app_nil_r.
    repeat split; try lia. exists []. rewrite app_nil_r. reflexivity.
  - cbn [load_folders].
    destruct (load_folder_frame n w st)
      as (st1 & -> & Hf1 & Hl1 & [cs1 Hc1] & Hi1).
    destruct (IH st1) as (st' & Hrun & Hf & Hl & [cs Hc] & Hi).
    exists st'. split; [exact Hrun|]. split; [|split; [lia|split]].
    + rewrite <- Hf1 at 2. rewrite <- Hf. rewrite take_take. f_equal. lia.
    + exists (cs1 ++ cs). rewrite Hc, Hc1, app_assoc. reflexivity.
    + rewrite Hi, Hi1, <- app_assoc. f_equal. rewrite filter_cons.
      destruct (restorable (history_of w n)) eqn:E.
      * rewrite decide_True by reflexivity. reflexivity.
      * rewrite decide_False by discriminate. reflexivity.
Qed.

(** X18.  With no registered helper, [load_tmp_chats] never raises and
    leaves the world as it is.  The identifiers it returns are, in the order
    of the listing, the names of the marker folders, stripped of slashes,
    whose stored history is true, can be iterated and has [role] and
    [content] in every element; a folder that fails has no effect on the
    others.  The agents that existed before are as they were. *)
Theorem load_tmp_chats_ids (h : agents_store) (w : world) :
  _instance w = false ->
  exists st,
    load_tmp_chats h w = Ok (st, w) /\
    restored_ctxids st
    = map (fun n => VStr (strip "/" n))
        (filter (fun n => restorable (history_of w n) = true)
           (list_files CHATS_FOLDER (dirs w))) /\
    take (length h) (restored_agents st) = h.
Proof.
  intros Hinst. unfold load_tmp_chats, MemGraphHelper.__init__.
  rewrite Hinst. cbn [mbind result_bind].
  destruct (load_folders_frame (list_files CHATS_FOLDER (dirs w)) w
              {| restored_ctxids := []; restored_contexts := [];
                 restored_agents := h |})
    as (st & -> & Hf & _ & _ & Hi).
  exists st. split; [reflexivity|]. split; [exact Hi|exact Hf].
Qed.

Lemma load_folder_replays (n : string) (w : world) (st : restored)
    (messages : list pyval) (ps : list (pyval * pyval)) :
  history_of w n = VList messages ->
  messages <> [] ->
  Forall2 stored_as messages ps ->
  exists st' c' ag,
    load_folder n w st = (st', w) /\
    restored_contexts st' = restored_contexts st ++ [c'] /\
    ctx_id c' = VStr (strip "/" n) /\
    ctx_agent0 c' = VObj (length (restored_agents st)) /\
    restored_agents st' !! length (restored_agents st) = Some ag /\
    agent_number ag = VInt 0 /\
    agent_history ag = replayed ps History_new.
Proof.
  intros Hv Hne Hps. unfold load_folder. rewrite load_history_loaded.
  fold (history_of w n). rewrite Hv.
  destruct messages as [|m messages]; [contradiction|].
  cbn [py_truthy py_iter]. unfold AgentContext_fresh, alloc.
  cbn [ctx_agent0 ctx_id issued_id].
  edestruct (replay_replayed (length (restored_agents st)) (m :: messages) ps Hps)
    as (h' & ag' & Hrun & Ha' & Hnum & Hhist); [apply lookup_last|].
  rewrite Hrun. eexists _, _, ag'. split; [reflexivity|].
  cbn [restored_contexts restored_agents ctx_id ctx_agent0 issued_id].
  repeat split; assumption.
Qed.

Lemma load_folders_replays (folders : list string) (w : world) (n : string)
    (messages : list pyval) (ps : list (pyval * pyval)) :
  n ∈ folders ->
  history_of w n = VList messages ->
  messages <> [] ->
  Forall2 stored_as messages ps ->
  forall st : restored,
    exists st' c' a ag,
      load_folders folders w st = (st', w) /\
      c' ∈ restored_contexts st' /\
      ctx_id c' = VStr (strip "/" n) /\
      ctx_agent0 c' = VObj a /\
      restored_agents st' !! a = Some ag /\
      agent_number ag = VInt 0 /\
      agent_history ag = replayed ps History_new.
Proof.
  intros Hn Hv Hne Hps.
  induction folders as [|n0 folders IH]; intros st;
    [apply elem_of_nil in Hn; contradiction|].
  cbn [load_folders].
  destruct (decide (n0 = n)) as [->|Hother].
  - destruct (load_folder_replays n w st messages ps Hv Hne Hps)
      as (st1 & c' & ag & -> & Hc & Hid & Hroot & Hag & Hnum & Hhist).
    destruct (load_folders_frame folders w st1)
      as (st' & Hrun & Hf & Hl & [cs Hcs] & _).
    exists st', c', (length (restored_agents st)), ag.
    split; [exact Hrun|]. split; [|split; [exact Hid|split; [exact Hroot|]]].
    + rewrite Hcs, Hc. apply elem_of_app. left. apply elem_of_app. right.
      apply list_elem_of_singleton. reflexivity.
    + split; [|split; assumption].
      pose proof (lookup_lt_Some _ _ _ Hag) as Hlt.
      rewrite <- Hf in Hag. rewrite lookup_take_lt in Hag by exact Hlt.
      exact Hag.
  - apply elem_of_cons in Hn as [->|Hn]; [contradiction|].
    destruct (load_folder_frame n0 w st) as (st1 & -> & _).
    apply IH, Hn.
Qed.

(** X19.  A stored list of records is replayed in its order into the
    history of a new root agent.  When the marker folder of a conversation
    is listed and the store holds for it a non-empty list of records with
    [role] and [content], [load_tmp_chats] constructs a context with the
    identifier of the folder whose root agent has number 0 and the history
    obtained by adding the records one by one, as a message of the
    assistant when the role equals [ai] and of the user otherwise. *)
Theorem load_tmp_chats_replays (h : agents_store) (w : world) (n : string)
    (messages : list pyval) (ps : list (pyval * pyval)) :
  _instance w = false ->
  n ∈ list_files CHATS_FOLDER (dirs w) ->
  MemGraphHelper.load_history (strip "/" n) w = Ok (VList messages, w) ->
  messages <> [] ->
  Forall2 stored_as messages ps ->
  exists st c' a ag,
    load_tmp_chats h w = Ok (st, w) /\
    VStr (strip "/" n) ∈ restored_ctxids st /\
    c' ∈ restored_contexts st /\
    ctx_id c' = VStr (strip "/" n) /\
    ctx_agent0 c' = VObj a /\
    restored_agents st !! a = Some ag /\
    agent_number ag = VInt 0 /\
    agent_history ag = replayed ps History_new.
Proof.
  intros Hinst Hn Hload Hne Hps.
  rewrite load_history_loaded in Hload. injection Hload as Hv.
  fold (history_of w n) in Hv.
  unfold load_tmp_chats, MemGraphHelper.__init__.
  rewrite Hinst. cbn [mbind result_bind].
  set (st0 := {| restored_ctxids := []; restored_contexts := [];
                 restored_agents := h |}).
  destruct (load_folders_replays _ w n messages ps Hn Hv Hne Hps st0)
    as (st & c' & a & ag & Hrun & Hc & Hid & Hroot & Hag & Hnum & Hhist).
  destruct (load_folders_frame (list_files CHATS_FOLDER (dirs w)) w st0)
    as (st2 & Hrun2 & _ & _ & _ & Hi).
  rewrite Hrun in Hrun2. injection Hrun2 as <-.
  exists st, c', a, ag. rewrite Hrun. split; [reflexivity|].
  split; [|repeat split; assumption].
  rewrite Hi. cbn [restored_ctxids st0 app].
  apply (list_elem_of_fmap_2 (fun n => VStr (strip "/" n))).
  apply list_elem_of_filter. split; [|exact Hn].
  rewrite Hv. unfold restorable. destruct messages; [contradiction|].
  cbn [py_truthy py_iter andb]. apply (forallb_stored_as _ ps Hps).
Qed.

(** X20.  A conversation whose stored history is empty is not restored,
    whether or not its marker folder is listed: after [remove_chat], the
    identifier of the removed conversation is not among those that
    [load_tmp_chats] returns. *)
Theorem remove_chat_not_restored (fuel : nat) (ctxid : string)
    (h : agents_store) (w w1 : world) :
  online w = true ->
  remove_chat (S fuel) ctxid w = Ok w1 ->
  exists st,
    load_tmp_chats h w1 = Ok (st, w1) /\
    VStr ctxid ∉ restored_ctxids st.
Proof.
  intros Hon Hrm. unfold remove_chat, MemGraphHelper.__init__ in Hrm.
  change (_instance (delete_dir (get_chat_folder_path ctxid) w))
    with (_instance w) in Hrm.
  destruct (_instance w) eqn:Hinst; [discriminate|].
  cbn [mbind result_bind] in Hrm.
  unfold MemGraphHelper.save_history, MemGraphHelper.encode_history in Hrm.
  rewrite dumps_empty_list in Hrm. cbn [mbind result_bind] in Hrm.
  unfold MemGraphHelper._send_command, session_post in Hrm.
  change (online (delete_dir (get_chat_folder_path ctxid) w))
    with (online w) in Hrm.
  rewrite Hon in Hrm. cbn [remote] in Hrm. injection Hrm as <-.
  unfold load_tmp_chats, MemGraphHelper.__init__.
  change (_instance _) with (_instance w). rewrite Hinst.
  cbn [mbind result_bind].
  match goal with
  | |- context [load_folders ?fs ?w0 ?st0] =>
      destruct (load_folders_frame fs w0 st0) as (st & Hrun & _ & _ & _ & Hi);
      rewrite Hrun
  end.
  exists st. split; [reflexivity|]. rewrite Hi. cbn [restored_ctxids app].
  intros Hin. apply list_elem_of_fmap in Hin as (n & [= Hn] & Hin).
  apply list_elem_of_filter in Hin as [Hrest _].
  unfold history_of in Hrest. cbn [online store] in Hrest.
  rewrite <- Hn, lookup_insert_eq in Hrest. discriminate Hrest.
Qed.

(* ===================================================================== *)
(** ** The round trips, further *)
(* ===================================================================== *)

Lemma stored_record_stored_as (qs : list (pyval * pyval)) :
  Forall2 stored_as (map stored_record qs)
    (map (fun q : pyval * pyval =>
            (VStr (if py_truthy q.1 then "ai" else "user"), q.2)) qs).
Proof.
  induction qs as [|q qs IH]; constructor; [|exact IH].
  eexists. split; [reflexivity|]. split; reflexivity.
Qed.

Lemma replayed_stored (qs : list (pyval * pyval)) :
  forall hist : History,
    replayed (map (fun q : pyval * pyval =>
                     (VStr (if py_truthy q.1 then "ai" else "user"), q.2)) qs)
      hist
    = foldl (fun hist q => add_message (py_truthy q.1) q.2 hist) hist qs.
Proof.
  unfold replayed. induction qs as [|q qs IH]; intros hist; [reflexivity|].
  cbn [map foldl fst snd]. rewrite IH. do 2 f_equal.
  destruct (py_truthy q.1); reflexivity.
Qed.

(** X21.  A conversation saved by [save_tmp_chat] is restored by
    [load_tmp_chats], flattened.  For a context that is not a background
    context and has at least one message, saved with the store in reach,
    and whose marker folder the listing shows, [load_tmp_chats] returns the
    identifier of the context and constructs a context with that identifier
    whose single root agent holds the messages of all agents of the saved
    chain, in chain order, each added as a message of the assistant or of
    the user by the truth value of its [ai] entry. *)
Theorem save_tmp_chat_load_tmp_chats (fuel : nat) (c : AgentContext)
    (h h1 : agents_store) (w : world) (ctxid n : string)
    (nodes : list Agent) (mss : list (list (pyval * pyval))) :
  is_background (ctx_type c) = false ->
  ctx_id c = VStr ctxid ->
  _instance w = false ->
  online w = true ->
  chain h (ctx_agent0 c) nodes ->
  Forall2 outputs nodes mss ->
  (length nodes <= fuel)%nat ->
  json_representable (VList (map stored_record (concat mss))) = true ->
  (depth (VList (map stored_record (concat mss))) < fuel)%nat ->
  concat mss <> [] ->
  strip "/" n = ctxid ->
  n ∈ list_files CHATS_FOLDER ({[ get_chat_folder_path ctxid ]} ∪ dirs w) ->
  exists w' st c' a ag,
    save_tmp_chat fuel c h w = Ok w' /\
    load_tmp_chats h1 w' = Ok (st, w') /\
    VStr ctxid ∈ restored_ctxids st /\
    c' ∈ restored_contexts st /\
    ctx_id c' = VStr ctxid /\
    ctx_agent0 c' = VObj a /\
    restored_agents st !! a = Some ag /\
    agent_number ag = VInt 0 /\
    agent_history ag
    = foldl (fun hist q => add_message (py_truthy q.1) q.2 hist) History_new
        (concat mss).
Proof.
  intros Hbg Hid Hinst Hon Hchain Hout Hfuel Hok Hdepth Hne Hn Hlisted.
  unfold save_tmp_chat. rewrite Hbg, Hid.
  cbn [id_string mbind result_bind]. unfold MemGraphHelper.__init__, make_dirs.
  cbn [_instance]. rewrite Hinst. cbn [mbind result_bind].
  rewrite (flatten_histories_chain _ _ _ Hchain mss fuel [] Hout Hfuel).
  cbn [app mbind result_bind].
  rewrite save_history_store by assumption. cbn [online store dirs _instance].
  rewrite Hon.
  set (w' := {| store := _; online := true; dirs := _; _instance := _ |}).
  assert (Hv : history_of w' n = VList (map stored_record (concat mss))).
  { unfold history_of, w'. cbn [online store]. rewrite Hn.
    rewrite lookup_insert_eq. apply loaded_wrap, Hok. }
  assert (Hmsgs : map stored_record (concat mss) <> [])
    by (destruct (concat mss); [contradiction|discriminate]).
  set (st0 := {| restored_ctxids := []; restored_contexts := [];
                 restored_agents := h1 |}).
  assert (Hload : load_tmp_chats h1 w'
                  = Ok (load_folders (list_files CHATS_FOLDER (dirs w')) w' st0))
    by reflexivity.
  change ({[ get_chat_folder_path ctxid ]} ∪ dirs w) with (dirs w') in Hlisted.
  destruct (load_folders_replays _ w' n _ _ Hlisted Hv Hmsgs
              (stored_record_stored_as (concat mss)) st0)
    as (st & c' & a & ag & Hrun & Hc & Hcid & Hroot & Hag & Hnum & Hhist).
  destruct (load_folders_frame (list_files CHATS_FOLDER (dirs w')) w' st0)
    as (st2 & Hrun2 & _ & _ & _ & Hi).
  rewrite Hrun in Hrun2. injection Hrun2 as <-.
  exists w', st, c', a, ag. rewrite Hload, Hrun. split; [reflexivity|].
  split; [reflexivity|]. rewrite Hn in Hcid. split.
  { rewrite Hi. cbn [restored_ctxids st0 app]. rewrite <- Hn.
    apply (list_elem_of_fmap_2 (fun n => VStr (strip "/" n))).
    apply list_elem_of_filter. split; [|exact Hlisted].
    rewrite Hv. unfold restorable.
    destruct (map stored_record (concat mss)) eqn:E; [contradiction|].
    cbn [py_truthy py_iter andb]. rewrite <- E.
    apply (forallb_stored_as _ _ (stored_record_stored_as (concat mss))). }
  repeat split; try assumption.
  rewrite Hhist. apply replayed_stored.
Qed.

Lemma serialize_context_record (fuel : nat) (c : AgentContext)
    (h : agents_store) (nodes : list Agent) (wanted : pyval) :
  chain h (ctx_agent0 c) nodes ->
  (length nodes <= fuel)%nat ->
  (py_truthy (ctx_streaming_agent c) = false /\ wanted = VInt 0 \/
   exists ag, py_truthy (ctx_streaming_agent c) = true /\
              deref h (ctx_streaming_agent c) = Ok ag /\
              wanted = agent_number ag) ->
  _serialize_context fuel c h
  = Ok (VDict [ ("id", ctx_id c);
                ("name", ctx_name c);
                ("created_at",
                 VStr (isoformat (default epoch0 (ctx_created_at c))));
                ("type", VStr (type_value (ctx_type c)));
                ("last_message",
                 VStr (isoformat (default epoch0 (ctx_last_message c))));
                ("agents", VList (map agent_record nodes));
                ("streaming_agent", wanted);
                ("log", _serialize_log (ctx_log c)) ]).
Proof.
  intros Hchain Hfuel Hstream. unfold _serialize_context.
  rewrite (serialize_agents_chain _ _ _ Hchain fuel Hfuel).
  cbn [mbind result_bind].
  destruct Hstream as [[-> ->]|(ag & -> & -> & ->)]; reflexivity.
Qed.

(** X22.  What a round trip through [_serialize_context] and
    [_deserialize_context] normalises.  The copy of a context with a
    well-formed chain keeps a given identifier and gets a new one in the
    place of [None]; an absent time stamp becomes the epoch-zero time stamp;
    the copy is not paused; and its streaming agent is the first agent of
    the copied chain whose number equals the number of the original
    streaming agent, or equals 0 when the original has none: a context
    without a streaming agent whose root has number 0 comes back with its
    root as streaming agent. *)
Theorem roundtrip_normalises (fuel : nat) (c : AgentContext)
    (h h0 : agents_store) (nodes : list Agent) (wanted : pyval) :
  String.prefix "_" DATA_NAME_SUBORDINATE = true ->
  DATA_NAME_SUPERIOR <> DATA_NAME_SUBORDINATE ->
  fromisoformat (isoformat (default epoch0 (ctx_created_at c)))
  = Some (default epoch0 (ctx_created_at c)) ->
  fromisoformat (isoformat (default epoch0 (ctx_last_message c)))
  = Some (default epoch0 (ctx_last_message c)) ->
  (forall a b, type_value a = type_value b -> a = b) ->
  Forall (fun ag => deserialize_history (History_serialize (agent_history ag))
                    = Ok (agent_history ag)) nodes ->
  chain h (ctx_agent0 c) nodes ->
  nodes <> [] ->
  (py_truthy (ctx_streaming_agent c) = false /\ wanted = VInt 0 \/
   exists ag, py_truthy (ctx_streaming_agent c) = true /\
              deref h (ctx_streaming_agent c) = Ok ag /\
              wanted = agent_number ag) ->
  (length nodes <= fuel)%nat ->
  exists rec c' h',
    _serialize_context fuel c h = Ok rec /\
    _deserialize_context fuel rec h0 = Ok (c', h') /\
    ctx_id c' = issued_id (ctx_id c) /\
    ctx_created_at c' = Some (default epoch0 (ctx_created_at c)) /\
    ctx_last_message c' = Some (default epoch0 (ctx_last_message c)) /\
    ctx_paused c' = false /\
    ctx_agent0 c' = VObj (length h0) /\
    ctx_streaming_agent c'
    = first_match wanted (length h0) (map agent_number nodes) /\
    (py_truthy (ctx_streaming_agent c) = false ->
     (exists ag rest, nodes = ag :: rest /\ agent_number ag = VInt 0) ->
     ctx_streaming_agent c' = ctx_agent0 c').
Proof.
  intros Hsub Hne Hiso1 Hiso2 Hinj Hhist Hchain Hnodes Hstream Hfuel.
  pose proof (serialize_context_record fuel c h nodes wanted Hchain Hfuel Hstream)
    as Hser.
  destruct nodes as [|ag0 rest]; [contradiction|].
  eexists _, _, _. split; [exact Hser|]. split.
  - eapply (deserialize_context_records fuel _ h0 _ _
              (map agent_record (ag0 :: rest)) (map fields_of (ag0 :: rest))
              _ _ (ctx_type c)).
    + reflexivity.
    + apply deserialize_serialize_log.
    + cbn [dict_get String.eqb Ascii.eqb Bool.eqb default from_option id
           datetime_fromisoformat].
      rewrite Hiso1. reflexivity.
    + cbn [dict_get String.eqb Ascii.eqb Bool.eqb default from_option id].
      apply AgentContextType_of_value, Hinj.
    + cbn [dict_get String.eqb Ascii.eqb Bool.eqb default from_option id
           datetime_fromisoformat].
      rewrite Hiso2. reflexivity.
    + reflexivity.
    + apply Forall2_fmap, Forall_Forall2_diag.
      eapply Forall_impl; [exact Hhist|]. intros ag Hag.
      apply record_of_agent_record, Hag.
    + exact Hne.
    + apply Forall_fmap. apply Forall_forall. intros ag _.
      unfold no_subordinate, fields_of. cbn [fst snd].
      apply public_items_get, Hsub.
    + cbn [map numbers length] in Hfuel |- *. rewrite !length_map. exact Hfuel.
  - cbn [ctx_id ctx_created_at ctx_last_message ctx_paused ctx_agent0
         ctx_streaming_agent dict_get String.eqb Ascii.eqb Bool.eqb
         default from_option id].
    assert (Hnums : numbers (map fields_of (ag0 :: rest))
                    = map agent_number (ag0 :: rest)).
    { cbn [map numbers fields_of fst]. f_equal. rewrite map_map. reflexivity. }
    rewrite Hnums. repeat split.
    intros Hfalse (ag & rest' & [= <- <-] & Hzero).
    destruct Hstream as [[_ ->]|(? & Htrue & _)]; [|congruence].
    cbn [map first_match]. rewrite Hzero. reflexivity.
Qed.

(** X23.  The walk along the chain has no guard against a cycle.  When the
    agents reachable from the root of a context by the subordinate link form
    a closed set in which every agent has a subordinate, serializing the
    context uses up any amount of fuel: it does not return. *)
Theorem serialize_context_cycle (c : AgentContext) (h : agents_store)
    (P : nat -> Prop) (a0 : nat) :
  (forall a, P a ->
     exists ag d b,
       h !! a = Some ag /\ agent_data ag = VDict d /\
       dict_get DATA_NAME_SUBORDINATE d = Some (VObj b) /\ P b) ->
  ctx_agent0 c = VObj a0 ->
  P a0 ->
  forall fuel, _serialize_context fuel c h = Raise NonTermination.
Proof.
  intros Hclosed Hroot Ha0 fuel. unfold _serialize_context. rewrite Hroot.
  enough (forall a, P a -> serialize_agents fuel h (VObj a) = Raise NonTermination)
    as Hwalk by (rewrite (Hwalk a0 Ha0); reflexivity).
  induction fuel as [|fuel IH]; intros a Ha; [reflexivity|].
  destruct (Hclosed a Ha) as (ag & d & b & Hag & Hd & Hb & HP).
  cbn [serialize_agents py_truthy deref]. rewrite Hag.
  cbn [mbind result_bind]. unfold _serialize_agent. rewrite Hd.
  cbn [mbind result_bind py_get]. rewrite Hb.
  cbn [default from_option id]. rewrite (IH b HP). reflexivity.
Qed.

(* ===================================================================== *)
(** ** Failures and tolerance *)
(* ===================================================================== *)

Lemma save_tmp_chats_app (fuel : nat) (pre rest : list AgentContext)
    (h : agents_store) :
  forall w : world,
    save_tmp_chats fuel (pre ++ rest) h w
    = w1 ← save_tmp_chats fuel pre h w; save_tmp_chats fuel rest h w1.
Proof.
  induction pre as [|c pre IH]; intros w; [reflexivity|].
  cbn [app save_tmp_chats]. destruct (is_background (ctx_type c)); [apply IH|].
  destruct (save_tmp_chat fuel c h w) as [w1|]; [|reflexivity].
  cbn [mbind result_bind]. apply IH.
Qed.

(** X24.  [save_tmp_chats] has no isolation between contexts: when the
    contexts before some context are saved and saving that context, which
    is not a background context, raises, [save_tmp_chats] raises the same
    exception and the contexts after it are not saved. *)
Theorem save_tmp_chats_aborts (fuel : nat) (pre post : list AgentContext)
    (c : AgentContext) (h : agents_store) (w w1 : world) (e : exn) :
  save_tmp_chats fuel pre h w = Ok w1 ->
  is_background (ctx_type c) = false ->
  save_tmp_chat fuel c h w1 = Raise e ->
  save_tmp_chats fuel (pre ++ c :: post) h w = Raise e.
Proof.
  intros Hpre Hbg Hc. rewrite save_tmp_chats_app, Hpre.
  cbn [mbind result_bind save_tmp_chats]. rewrite Hbg, Hc. reflexivity.
Qed.

Lemma deserialize_agents_loop_missing_number (config : AgentConfig)
    (f : dict) (post : list pyval) (pre : list pyval)
    (recs : list agent_fields) :
  dict_get "number" f = None ->
  Forall2 record_of pre recs ->
  forall (prev zero : option nat) (h : agents_store),
    (forall p, prev = Some p ->
       exists ag d, h !! p = Some ag /\ agent_data ag = VDict d) ->
    deserialize_agents_loop (pre ++ VDict f :: post) config prev zero h
    = Raise (KeyError "number").
Proof.
  intros Hf. induction 1 as [|ag r pre recs Hr _ IH]; intros prev zero h Hprev.
  - cbn [app deserialize_agents_loop py_getitem]. rewrite Hf. reflexivity.
  - destruct Hr as (g & -> & Hnum & Hdata & Hhist).
    destruct r as [[num d] hist]. cbn [fst snd] in Hnum, Hdata, Hhist.
    cbn [app deserialize_agents_loop py_getitem py_get mbind result_bind alloc].
    rewrite Hnum. cbn [mbind result_bind]. rewrite Hdata, Hhist.
    cbn [mbind result_bind]. rewrite !alter_last.
    change (with_history (with_data (Agent_new num config) (VDict d)) hist)
      with (node config num d hist).
    destruct prev as [p|].
    + destruct (Hprev p eq_refl) as (agp & dp & Hp & Hdp).
      pose proof (lookup_lt_Some _ _ _ Hp) as Hlt.
      rewrite (set_data_dict p _ _ _ agp dp);
        [|rewrite lookup_app_l by exact Hlt; exact Hp|exact Hdp].
      cbn [mbind result_bind].
      rewrite insert_app_l by exact Hlt.
      set (h1 := <[p := _]> h).
      assert (Hlen : length h1 = length h) by (unfold h1; apply length_insert).
      rewrite <- Hlen.
      rewrite (set_data_dict (length h1) _ _ _ (node config num d hist) d);
        [|apply lookup_last|reflexivity].
      cbn [mbind result_bind]. rewrite insert_last.
      apply IH. intros p' [= <-]. eexists _, _.
      split; [apply lookup_last|]. apply put_data. reflexivity.
    + cbn [mbind result_bind]. apply IH. intros p' [= <-].
      eexists _, _. split; [apply lookup_last|reflexivity].
Qed.

(** X25.  One agent record without [number] fails the whole load of the
    chain with [KeyError], wherever it stands and however many well-formed
    records come before it. *)
Theorem deserialize_agents_missing_number_raises (config : AgentConfig)
    (pre post : list pyval) (recs : list agent_fields) (f : dict)
    (h : agents_store) :
  Forall2 record_of pre recs ->
  dict_get "number" f = None ->
  _deserialize_agents (VList (pre ++ VDict f :: post)) config h
  = Raise (KeyError "number").
Proof.
  intros Hpre Hf. unfold _deserialize_agents. cbn [py_iter mbind result_bind].
  rewrite (deserialize_agents_loop_missing_number config f post pre recs Hf Hpre);
    [reflexivity|discriminate].
Qed.

Lemma history_of_strip (w : world) (n n' : string) :
  strip "/" n' = strip "/" n -> history_of w n' = history_of w n.
Proof. unfold history_of. intros ->. reflexivity. Qed.

Lemma load_folder_unreported (n : string) (w : world) (st : restored) :
  py_truthy (history_of w n) = true ->
  exists st' c',
    load_folder n w st = (st', w) /\
    (exists cs, restored_contexts st' = restored_contexts st ++ c' :: cs) /\
    ctx_id c' = VStr (strip "/" n).
Proof.
  intros Htrue. unfold load_folder. rewrite load_history_loaded.
  fold (history_of w n). rewrite Htrue.
  unfold AgentContext_fresh, alloc. cbn [ctx_agent0 ctx_id issued_id].
  destruct (py_iter (history_of w n)) as [messages|].
  - destruct (replay messages _ _) as [h' [u|e]];
      eexists _, _; (split; [reflexivity|]);
      cbn [restored_contexts]; (split; [exists []; reflexivity|reflexivity]).
  - eexists _, _. split; [reflexivity|]. cbn [restored_contexts].
    split; [exists []; reflexivity|reflexivity].
Qed.

(** X26.  A folder whose stored history is true but cannot be replayed to
    the end (it cannot be iterated, or an element lacks [role] or
    [content]) leaves a trace: [load_tmp_chats] has constructed a context
    with the identifier of the folder, and does not return that
    identifier. *)
Theorem load_tmp_chats_unreported (h : agents_store) (w : world) (n : string) :
  _instance w = false ->
  n ∈ list_files CHATS_FOLDER (dirs w) ->
  py_truthy (history_of w n) = true ->
  restorable (history_of w n) = false ->
  exists st c',
    load_tmp_chats h w = Ok (st, w) /\
    c' ∈ restored_contexts st /\
    ctx_id c' = VStr (strip "/" n) /\
    VStr (strip "/" n) ∉ restored_ctxids st.
Proof.
  intros Hinst Hn Htrue Hbad.
  unfold load_tmp_chats, MemGraphHelper.__init__.
  rewrite Hinst. cbn [mbind result_bind].
  set (st0 := {| restored_ctxids := []; restored_contexts := [];
                 restored_agents := h |}).
  destruct (load_folders_frame (list_files CHATS_FOLDER (dirs w)) w st0)
    as (st & Hrun & _ & _ & _ & Hi).
  assert (Hc : exists c', c' ∈ restored_contexts st /\
                          ctx_id c' = VStr (strip "/" n)).
  { revert Hrun. generalize st0. clear Hi.
    induction (list_files CHATS_FOLDER (dirs w)) as [|n0 folders IH];
      intros st1 Hrun; [apply elem_of_nil in Hn; contradiction|].
    cbn [load_folders] in Hrun.
    destruct (decide (n0 = n)) as [->|Hother].
    - destruct (load_folder_unreported n w st1 Htrue)
        as (st2 & c' & Hstep & [cs Hcs] & Hid).
      rewrite Hstep in Hrun.
      destruct (load_folders_frame folders w st2)
        as (st3 & Hrun3 & _ & _ & [cs3 Hcs3] & _).
      rewrite Hrun3 in Hrun. injection Hrun as <-.
      exists c'. split; [|exact Hid]. rewrite Hcs3, Hcs.
      apply elem_of_app. left. apply elem_of_app. right.
      apply elem_of_cons. left. reflexivity.
    - apply elem_of_cons in Hn as [->|Hn]; [contradiction|].
      destruct (load_folder_frame n0 w st1) as (st2 & Hstep & _).
      rewrite Hstep in Hrun. eapply IH; eassumption. }
  destruct Hc as (c' & Hc & Hid).
  exists st, c'. rewrite Hrun. split; [reflexivity|].
  split; [exact Hc|]. split; [exact Hid|].
  rewrite Hi. cbn [restored_ctxids st0 app]. intros Hin.
  apply list_elem_of_fmap in Hin as (n' & [= Hn'] & Hin).
  apply list_elem_of_filter in Hin as [Hrest _].
  rewrite (history_of_strip w n n') in Hrest by (symmetry; exact Hn').
  congruence.
Qed.

Lemma render_not_quoted (ea : bool) (v : pyval) :
  json_representable v = true ->
  String.prefix "'" (render ea v) = false /\
  String.eqb (render ea v) "(nil)" = false.
Proof.
  destruct v as [| [] | z | s | l | d | a]; intros Hok;
    try discriminate Hok; try (split; reflexivity).
  cbn [render].
  destruct (encode_int_head z EmptyString) as (c & r & E & Hc).
  rewrite append_nil_r in E. rewrite E. clear E.
  destruct c as [[] [] [] [] [] [] [] []]; try discriminate Hc;
    split; reflexivity.
Qed.

(** X27.  The quotes around a stored value are optional on reading: when
    the store holds under the key of a conversation the plain JSON text of a
    value, without the single quotes that [save_history] adds,
    [load_history] returns that value. *)
Theorem load_history_unquoted (conversation_id : string) (v : pyval)
    (w : world) :
  online w = true ->
  json_representable v = true ->
  store w !! MemGraphHelper.key_of conversation_id = Some (render true v) ->
  MemGraphHelper.load_history conversation_id w = Ok (v, w).
Proof.
  intros Hon Hok Hstored. rewrite load_history_loaded, Hon, Hstored.
  unfold loaded, MemGraphHelper.decode_response.
  destruct (render_not_quoted true v Hok) as [-> ->]. cbn [andb].
  rewrite (loads_render true v Hok). reflexivity.
Qed.

(* ===================================================================== *)
(** ** The handshake *)
(* ===================================================================== *)

Lemma expect_Some (lit s r : string) :
  json.expect lit s = Some r -> s = lit +:+ r.
Proof.
  revert s. induction lit as [|a lit IH]; intros s H.
  - cbn in H. injection H as <-. reflexivity.
  - destruct s as [|b s]; [discriminate H|]. cbn [json.expect] in H.
    destruct (Ascii.eqb a b) eqn:E; [|discriminate H].
    apply Ascii.eqb_eq in E. subst b. rewrite append_cons. f_equal.
    apply IH, H.
Qed.

Lemma expect_append (lit r : string) : json.expect lit (lit +:+ r) = Some r.
Proof.
  induction lit as [|a lit IH]; [destruct r; reflexivity|].
  rewrite append_cons. cbn [json.expect]. rewrite Ascii.eqb_refl. exact IH.
Qed.

Lemma span_unquoted_spec (s tok rest : string) :
  re.span_unquoted s = (tok, rest) ->
  s = tok +:+ rest /\ quote_free tok = true /\
  match rest with
  | EmptyString => True
  | String c _ => c = json.dquote
  end.
Proof.
  revert tok rest. induction s as [|c s IH]; intros tok rest H.
  - injection H as <- <-. repeat split.
  - cbn [re.span_unquoted] in H.
    destruct (N_of_ascii c =? 34)%N eqn:E.
    + injection H as <- <-. repeat split.
      apply N.eqb_eq in E. rewrite <- (ascii_N_embedding c), E. reflexivity.
    + destruct (re.span_unquoted s) as [a r]. injection H as <- <-.
      destruct (IH a r eq_refl) as (-> & Hfree & Hrest).
      rewrite append_cons. cbn [quote_free]. rewrite E, Hfree.
      repeat split. exact Hrest.
Qed.

Lemma span_unquoted_token (tok post : string) :
  quote_free tok = true ->
  re.span_unquoted (tok +:+ String json.dquote post)
  = (tok, String json.dquote post).
Proof.
  induction tok as [|c tok IH]; intros Hfree; [reflexivity|].
  cbn [quote_free] in Hfree. apply andb_true_iff in Hfree as [Hc Hfree].
  rewrite append_cons. cbn [re.span_unquoted].
  apply negb_true_iff in Hc. rewrite Hc, IH by exact Hfree. reflexivity.
Qed.

Lemma match_csrf_sound (s tok : string) :
  re.match_csrf s = Some tok ->
  tok <> EmptyString /\ quote_free tok = true /\
  exists post, s = re.csrf_field +:+ tok +:+ String json.dquote post.
Proof.
  unfold re.match_csrf. destruct (json.expect re.csrf_field s) as [r|] eqn:E;
    [|discriminate].
  cbn [mbind option_bind]. apply expect_Some in E.
  destruct (re.span_unquoted r) as [t rest] eqn:Hspan.
  apply span_unquoted_spec in Hspan as (-> & Hfree & Hrest).
  destruct t as [|c t]; [discriminate|].
  destruct rest as [|q post]; [discriminate|]. intros [= <-]. subst q.
  split; [discriminate|]. split; [exact Hfree|]. exists post. exact E.
Qed.

Lemma search_csrf_sound (s tok : string) :
  re.search_csrf s = Some tok ->
  tok <> EmptyString /\ quote_free tok = true /\
  exists pre post,
    s = pre +:+ re.csrf_field +:+ tok +:+ String json.dquote post.
Proof.
  induction s as [|c s IH]; cbn [re.search_csrf];
    destruct (re.match_csrf _) as [t|] eqn:E.
  - intros [= <-]. apply match_csrf_sound in E as (Hne & Hfree & post & Hs).
    repeat split; try assumption. exists EmptyString, post. exact Hs.
  - discriminate.
  - intros [= <-]. apply match_csrf_sound in E as (Hne & Hfree & post & Hs).
    repeat split; try assumption. exists EmptyString, post. exact Hs.
  - intros H. destruct (IH H) as (Hne & Hfree & pre & post & ->).
    repeat split; try assumption. exists (String c pre), post.
    rewrite append_cons. reflexivity.
Qed.

Lemma match_csrf_token (tok post : string) :
  tok <> EmptyString -> quote_free tok = true ->
  re.match_csrf (re.csrf_field +:+ tok +:+ String json.dquote post) = Some tok.
Proof.
  intros Hne Hfree. unfold re.match_csrf. rewrite expect_append.
  cbn [mbind option_bind]. rewrite span_unquoted_token by exact Hfree.
  destruct tok; [contradiction|reflexivity].
Qed.

Lemma search_csrf_here (s : string) :
  re.search_csrf s
  = match re.match_csrf s with
    | Some tok => Some tok
    | None =>
        match s with
        | String _ s' => re.search_csrf s'
        | EmptyString => None
        end
    end.
Proof. destruct s; reflexivity. Qed.

(** X28.  The token of the handshake.  [_get_csrf_token] answers [None]
    when the request fails.  When it answers a token, the token is not
    empty, has no double quote in it, and stands in the page between the
    text of the field ([re.csrf_field]) and a double quote.  A page that
    starts with this field gives the value of the field, and a page that has
    the field anywhere gives a token. *)
Theorem get_csrf_token_extracts (text : string) :
  MemGraphHelper._get_csrf_token (Raise RequestException) = Ok VNone /\
  (forall v,
     MemGraphHelper._get_csrf_token (Ok text) = Ok v ->
     v = VNone \/
     exists tok pre post,
       v = VStr tok /\ tok <> EmptyString /\ quote_free tok = true /\
       text = pre +:+ re.csrf_field +:+ tok +:+ String json.dquote post) /\
  (forall tok pre post,
     tok <> EmptyString -> quote_free tok = true ->
     text = pre +:+ re.csrf_field +:+ tok +:+ String json.dquote post ->
     exists tok', MemGraphHelper._get_csrf_token (Ok text) = Ok (VStr tok') /\
                  (pre = EmptyString -> tok' = tok)).
Proof.
  split; [reflexivity|]. split.
  - intros v. unfold MemGraphHelper._get_csrf_token.
    destruct (re.search_csrf text) as [tok|] eqn:E; intros [= <-];
      [|left; reflexivity].
    apply search_csrf_sound in E as (Hne & Hfree & pre & post & Htext).
    right. exists tok, pre, post. repeat split; assumption.
  - intros tok pre post Hne Hfree ->. unfold MemGraphHelper._get_csrf_token.
    induction pre as [|c pre IH].
    + rewrite append_nil_l, search_csrf_here.
      rewrite (match_csrf_token tok post Hne Hfree).
      exists tok. split; reflexivity.
    + rewrite append_cons. cbn [re.search_csrf].
      destruct (re.match_csrf _) as [t|].
      * exists t. split; [reflexivity|discriminate].
      * destruct IH as (tok' & Hrun & _). exists tok'.
        split; [exact Hrun|discriminate].
Qed.

(* ===================================================================== *)
(** ** What removal and saving leave alone, and the stored text *)
(* ===================================================================== *)

(** X29.  What [remove_chat] leaves alone.  When it returns, no directory
    has been created, every directory outside the marker folder of the
    conversation is still there, and every key of the store other than the
    key of the conversation holds what it held before. *)
Theorem remove_chat_frame (fuel : nat) (ctxid : string) (w w' : world) :
  remove_chat fuel ctxid w = Ok w' ->
  dirs w' ⊆ dirs w /\
  (forall p, p ∈ dirs w -> under (get_chat_folder_path ctxid) p = false ->
             p ∈ dirs w') /\
  (forall key, key <> MemGraphHelper.key_of ctxid ->
               store w' !! key = store w !! key).
Proof.
  unfold remove_chat, MemGraphHelper.__init__.
  change (_instance (delete_dir (get_chat_folder_path ctxid) w))
    with (_instance w).
  destruct (_instance w); [discriminate|].
  cbn [mbind result_bind]. intros Hsave.
  apply save_history_frame in Hsave as (Hd & _ & _ & Hs).
  unfold delete_dir in Hd, Hs. cbn [dirs store] in Hd, Hs.
  rewrite Hd. split; [|split].
  - intros p Hp. apply elem_of_filter in Hp as [_ Hp]. exact Hp.
  - intros p Hp Hout. apply elem_of_filter. split; assumption.
  - exact Hs.
Qed.

Lemma all_ascii_append (a b : string) :
  all_ascii (a +:+ b) = all_ascii a && all_ascii b.
Proof.
  induction a as [|c a IH]; [reflexivity|].
  rewrite append_cons. cbn [all_ascii]. rewrite IH, andb_assoc. reflexivity.
Qed.

Lemma all_ascii_escape (s : string) : all_ascii (json.escape true s) = true.
Proof.
  induction s as [|c s IH]; [reflexivity|].
  cbn [json.escape]. rewrite all_ascii_append, IH, andb_true_r.
  destruct c as [[] [] [] [] [] [] [] []]; reflexivity.
Qed.

Lemma all_ascii_encode_str (s : string) :
  all_ascii (json.encode_str true s) = true.
Proof.
  unfold json.encode_str. cbn [all_ascii].
  rewrite all_ascii_append, all_ascii_escape. reflexivity.
Qed.

Lemma all_ascii_uint (d : Decimal.uint) :
  all_ascii (DecimalString.NilEmpty.string_of_uint d) = true.
Proof. induction d; cbn; assumption || reflexivity. Qed.

Lemma all_ascii_encode_int (z : Z) : all_ascii (json.encode_int z) = true.
Proof.
  unfold json.encode_int.
  destruct (Z.to_int z) as [d|d]; cbn [DecimalString.NilZero.string_of_int];
    unfold DecimalString.NilZero.string_of_uint;
    pose proof (all_ascii_uint d) as Hd;
    destruct d; try reflexivity; try exact Hd;
    cbn [all_ascii]; exact Hd.
Qed.

Lemma all_ascii_join (l : list string) :
  Forall (fun s => all_ascii s = true) l ->
  all_ascii (json.join ", " l) = true.
Proof.
  induction 1 as [|x l Hx _ IH]; [reflexivity|].
  destruct l as [|y l]; [exact Hx|].
  rewrite join_cons2, !all_ascii_append, Hx, IH. reflexivity.
Qed.

Lemma all_ascii_render (v : pyval) : all_ascii (render true v) = true.
Proof.
  induction v as [| b | z | s | l IH | d IH | a] using pyval_induction;
    cbn [render]; try reflexivity.
  - destruct b; reflexivity.
  - apply all_ascii_encode_int.
  - apply all_ascii_encode_str.
  - rewrite !all_ascii_append, all_ascii_join; [reflexivity|].
    apply Forall_fmap. exact IH.
  - rewrite !all_ascii_append, all_ascii_join; [reflexivity|].
    apply Forall_fmap. eapply Forall_impl; [exact IH|].
    intros [k x] Hx. unfold compose. cbn [fst snd] in *.
    rewrite !all_ascii_append, all_ascii_encode_str, Hx. reflexivity.
Qed.

(** X30.  What [save_history] stores is plain ASCII, whatever characters
    the history has: [json.dumps] is called with its default [ensure_ascii],
    so every other character is written as an escape.  With the store in
    reach, after [save_history] the store holds under the key of the
    conversation a text of ASCII characters only, and [load_history] reads
    the history back from it. *)
Theorem save_history_value_ascii (fuel : nat) (conversation_id : string)
    (history : pyval) (w : world) :
  online w = true ->
  json_representable history = true ->
  (depth history < fuel)%nat ->
  exists (value : string) (w' : world),
    MemGraphHelper.save_history fuel conversation_id history w = Ok w' /\
    store w' !! MemGraphHelper.key_of conversation_id = Some value /\
    all_ascii value = true /\
    MemGraphHelper.load_history conversation_id w' = Ok (history, w').
Proof.
  intros Hon Hok Hfuel.
  exists ("'" +:+ render true history +:+ "'"). eexists.
  split; [|split; [|split]].
  - rewrite save_history_store by assumption. rewrite Hon. reflexivity.
  - cbn [store]. apply lookup_insert_eq.
  - rewrite !all_ascii_append, all_ascii_render. reflexivity.
  - rewrite load_history_loaded. cbn [online store].
    rewrite lookup_insert_eq. rewrite loaded_wrap by exact Hok. reflexivity.
Qed.

End PersistChat.

(* ===================================================================== *)
(** ** A concrete setting *)
(* ===================================================================== *)

(** One choice for what the module takes from outside: histories and time
    stamps are kept in their serialized form, the links have the names used
    by the agent runtime. *)
Definition demo_uuid4 : string := "6f1c2d9e-8a47-4b1e-9c55-2f0d3a7b1e90".
Definition demo_progress : pyval := VStr "Waiting for input".
Definition demo_progress_no : pyval := VInt 0.
Definition demo_serialize (hist : string) : pyval := VStr hist.
Definition demo_deserialize (o : pyval) : result string :=
  match o with
  | VStr s => Ok s
  | _ => Raise TypeError
  end.
Definition demo_isoformat (t : string) : string := t.
Definition demo_fromisoformat (s : string) : option string := Some s.
Definition demo_epoch0 : string := "1970-01-01T00:00:00".
Definition demo_superior : string := "_superior".
Definition demo_subordinate : string := "_subordinate".
Definition demo_type_value (ty : AgentContextType) : string :=
  match ty with
  | USER => "user"
  | TASK => "task"
  | BACKGROUND => "background"
  end.
Definition demo_new_id : string := "b7e4c0a2-5d3f-4f6a-8e21-9c1d0f4a6b35".
Definition demo_abs_path (folder name : string) : string :=
  "/a0/" +:+ folder +:+ "/" +:+ name.

Definition demo_entry (i : nat) : LogItem :=
  {| item_no := i; item_type := VStr "info"; item_heading := VStr "step";
     item_content := VStr "done"; item_kvps := None;
     item_temp := VBool false |}.

Definition demo_log (n : nat) : Log :=
  {| log_guid := VStr "log-1"; log_logs := map demo_entry (seq 0 n);
     log_updates := seq 0 n; log_progress := demo_progress;
     log_progress_no := demo_progress_no |}.

Lemma serialize_log_truncates_witness :
  (1000 < length (log_logs (demo_log 1500)))%nat /\
  exists out,
    py_getitem (_serialize_log (demo_log 1500)) "logs" = Ok (VList out) /\
    length out = 1000%nat /\
    out = map LogItem_output
            (drop (length (log_logs (demo_log 1500)) - 1000)
               (log_logs (demo_log 1500))) /\
    forall i, (i < 1000)%nat ->
      out !! i = LogItem_output <$>
                   log_logs (demo_log 1500)
                     !! (length (log_logs (demo_log 1500)) - 1000 + i)%nat.
Proof.
  split.
  - apply Nat.ltb_lt. vm_compute. reflexivity.
  - apply serialize_log_truncates. apply Nat.ltb_lt. vm_compute. reflexivity.
Defined.

Definition demo_stored_log : dict :=
  [ ("guid", VStr "log-1");
    ("logs", VList [VDict [("type", VStr "info"); ("heading", VStr "step")]]) ].

Lemma deserialize_log_missing_kvps_raises_witness :
  _deserialize_log demo_uuid4 demo_progress demo_progress_no
    (VDict demo_stored_log)
  = Raise (KeyError "kvps").
Proof.
  apply (deserialize_log_missing_kvps_raises demo_uuid4 demo_progress
           demo_progress_no demo_stored_log
           [("type", VStr "info"); ("heading", VStr "step")] (VStr "info"));
    reflexivity.
Defined.

Definition demo_no_log : dict :=
  [ ("id", VStr "ctx-1"); ("name", VStr "chat"); ("agents", VList []) ].

Lemma deserialize_context_requires_log_witness :
  _deserialize_context demo_uuid4 demo_progress demo_progress_no unit tt
    string EmptyString demo_deserialize string demo_isoformat
    demo_fromisoformat demo_epoch0 demo_superior demo_subordinate
    demo_type_value demo_new_id 5 (VDict demo_no_log) []
  = Raise AttributeError.
Proof.
  apply (deserialize_context_requires_log demo_uuid4 demo_progress
           demo_progress_no unit tt string EmptyString demo_deserialize string
           demo_isoformat demo_fromisoformat demo_epoch0 demo_superior
           demo_subordinate demo_type_value demo_new_id 5 demo_no_log []).
  reflexivity.
Defined.

Definition demo_world : world :=
  {| store := {[ "chat_history:ctx-1" := "'[1]'" ]};
     online := true;
     dirs := {[ demo_abs_path CHATS_FOLDER "ctx-1" ]};
     _instance := false |}.


Definition demo_agent_record (n : Z) : pyval :=
  VDict [ ("number", VInt n);
          ("data", VDict [("ctx_window", VInt 4096)]);
          ("history", VStr "[]") ].

Definition demo_fields (n : Z) : pyval * dict * string :=
  (VInt n, [("ctx_window", VInt 4096)], "[]").

Definition demo_stored_entry : pyval :=
  VDict [("type", VStr "info"); ("heading", VStr "step"); ("kvps", VNone)].

(** A legacy record: no [created_at], no [last_message], no [type]. *)
Definition demo_legacy : dict :=
  [ ("id", VStr "ctx-1");
    ("name", VStr "chat");
    ("agents", VList [demo_agent_record 0; demo_agent_record 1]);
    ("streaming_agent", VInt 0);
    ("log", VDict [("guid", VStr "log-1"); ("logs", VList [demo_stored_entry])]) ].

Lemma demo_log_record_ok :
  log_record_ok
    (VDict [("guid", VStr "log-1"); ("logs", VList [demo_stored_entry])]).
Proof.
  eexists _, _. split; [reflexivity|]. split; [reflexivity|].
  repeat constructor. eexists _, _. split; [reflexivity|].
  split; [eexists; reflexivity|]. split; [reflexivity|]. left. reflexivity.
Defined.

Lemma demo_record_of (n : Z) :
  record_of string demo_deserialize (demo_agent_record n) (demo_fields n).
Proof. eexists. repeat split; reflexivity. Defined.

Lemma deserialize_context_legacy_defaults_witness :
  exists c h',
    _deserialize_context demo_uuid4 demo_progress demo_progress_no unit tt
      string EmptyString demo_deserialize string demo_isoformat
      demo_fromisoformat demo_epoch0 demo_superior demo_subordinate
      demo_type_value demo_new_id 5 (VDict demo_legacy) [] = Ok (c, h') /\
    ctx_created_at unit string c = Some demo_epoch0 /\
    ctx_last_message unit string c = Some demo_epoch0 /\
    ctx_type unit string c = USER.
Proof.
  apply (deserialize_context_legacy_defaults demo_uuid4 demo_progress
           demo_progress_no unit tt string EmptyString demo_deserialize string
           demo_isoformat demo_fromisoformat demo_epoch0 demo_superior
           demo_subordinate demo_type_value demo_new_id 5 demo_legacy []
           (VDict [("guid", VStr "log-1"); ("logs", VList [demo_stored_entry])])
           [demo_agent_record 0; demo_agent_record 1]
           [demo_fields 0; demo_fields 1]);
    try reflexivity.
  - exact demo_log_record_ok.
  - repeat constructor; apply demo_record_of.
  - repeat constructor.
  - discriminate.
  - vm_compute. lia.
Defined.

(** Two stored records that have a [log] field and none of [created_at],
    [last_message] and [type]: in the first the one entry of the log has no
    [kvps], in the second the log is null. *)
Definition demo_legacy_entry : dict :=
  [ ("id", VStr "ctx-1");
    ("name", VStr "chat");
    ("log", VDict [("guid", VStr "log-1");
                   ("logs", VList [VDict [("type", VStr "info")]])]) ].

Definition demo_legacy_null : dict :=
  [ ("id", VStr "ctx-1"); ("name", VStr "chat"); ("log", VNone) ].

(** C5, as stated, fails on these records: loading the first raises
    [KeyError] for [kvps] and loading the second raises [AttributeError],
    whatever the fuel and the agents in the store. *)
Lemma legacy_defaults_counterexample :
  (dict_get "created_at" demo_legacy_entry = None /\
   dict_get "last_message" demo_legacy_entry = None /\
   dict_get "type" demo_legacy_entry = None /\
   is_Some (dict_get "log" demo_legacy_entry) /\
   forall (fuel : nat) (h : list (Agent unit string)),
     _deserialize_context demo_uuid4 demo_progress demo_progress_no unit tt
       string EmptyString demo_deserialize string demo_isoformat
       demo_fromisoformat demo_epoch0 demo_superior demo_subordinate
       demo_type_value demo_new_id fuel (VDict demo_legacy_entry) h
     = Raise (KeyError "kvps")) /\
  (dict_get "created_at" demo_legacy_null = None /\
   dict_get "last_message" demo_legacy_null = None /\
   dict_get "type" demo_legacy_null = None /\
   is_Some (dict_get "log" demo_legacy_null) /\
   forall (fuel : nat) (h : list (Agent unit string)),
     _deserialize_context demo_uuid4 demo_progress demo_progress_no unit tt
       string EmptyString demo_deserialize string demo_isoformat
       demo_fromisoformat demo_epoch0 demo_superior demo_subordinate
       demo_type_value demo_new_id fuel (VDict demo_legacy_null) h
     = Raise AttributeError).
Proof.
  split; (split; [reflexivity|]); (split; [reflexivity|]);
    (split; [reflexivity|]); (split; [eexists; reflexivity|]);
    intros fuel h; reflexivity.
Qed.

(** A record with three agents and the second one streaming. *)
Definition demo_three : dict :=
  [ ("id", VStr "ctx-1");
    ("name", VStr "chat");
    ("created_at", VStr "2025-03-01T10:00:00");
    ("type", VStr "task");
    ("last_message", VStr "2025-03-01T10:05:00");
    ("agents", VList [demo_agent_record 0; demo_agent_record 1;
                      demo_agent_record 2]);
    ("streaming_agent", VInt 1);
    ("log", VDict [("guid", VStr "log-1"); ("logs", VList [demo_stored_entry])]) ].


Definition demo_history : list pyval :=
  [ VDict [("role", VStr "user"); ("content", VStr "what's 2 + 2?")];
    VDict [("role", VStr "ai"); ("content", VStr "It is 4.")] ].

Lemma history_encode_decode_witness :
  exists js w',
    json.dumps true None 3 (VList demo_history) = Ok js /\
    MemGraphHelper.save_history 3 "ctx-1" (VList demo_history) demo_world
    = Ok w' /\
    store w' !! MemGraphHelper.key_of "ctx-1" = Some ("'" +:+ js +:+ "'") /\
    forall (other : string) (w2 : world),
      online w2 = true ->
      store w2 !! MemGraphHelper.key_of other = Some ("'" +:+ js +:+ "'") ->
      MemGraphHelper.load_history other w2 = Ok (VList demo_history, w2).
Proof.
  apply (history_encode_decode 3 "ctx-1" demo_history demo_world).
  - reflexivity.
  - reflexivity.
  - vm_compute. lia.
Defined.

(** A context with a chain of two agents. *)
Definition demo_agents : list (Agent unit string) :=
  [ {| agent_number := VInt 0; agent_config := tt;
       agent_data := VDict [("ctx_window", VInt 4096); ("_subordinate", VObj 1)];
       agent_history := "[]" |};
    {| agent_number := VInt 1; agent_config := tt;
       agent_data := VDict [("_superior", VObj 0); ("note", VStr "draft")];
       agent_history := "[]" |} ].

Definition demo_context (log : Log) (agent0 streaming : pyval)
    : AgentContext unit string :=
  {| ctx_config := tt; ctx_id := VStr "ctx-1"; ctx_name := VStr "chat";
     ctx_created_at := Some "2025-03-01T10:00:00"; ctx_type := TASK;
     ctx_last_message := Some "2025-03-01T10:05:00";
     ctx_log := log; ctx_paused := true;
     ctx_agent0 := agent0; ctx_streaming_agent := streaming |}.

Lemma demo_type_value_inj (a b : AgentContextType) :
  demo_type_value a = demo_type_value b -> a = b.
Proof. destruct a, b; (reflexivity || discriminate). Defined.

Lemma serialize_deserialize_roundtrip_witness :
  reproduces demo_uuid4 demo_progress demo_progress_no unit tt string
    EmptyString demo_serialize demo_deserialize string demo_isoformat
    demo_fromisoformat demo_epoch0 demo_superior demo_subordinate
    demo_type_value demo_new_id 5 (demo_context (demo_log 3) (VObj 0) (VObj 1))
    demo_agents demo_agents.
Proof.
  apply (serialize_deserialize_roundtrip demo_uuid4 demo_progress
           demo_progress_no unit tt string EmptyString demo_serialize
           demo_deserialize string demo_isoformat demo_fromisoformat
           demo_epoch0 demo_superior demo_subordinate demo_type_value demo_new_id 5
           (demo_context (demo_log 3) (VObj 0) (VObj 1))
           demo_agents demo_agents demo_agents
           "2025-03-01T10:00:00" "2025-03-01T10:05:00");
    try reflexivity.
  - discriminate.
  - exact demo_type_value_inj.
  - repeat constructor.
  - discriminate.
  - eapply chain_step; [reflexivity|reflexivity|].
    eapply chain_step; [reflexivity|reflexivity|].
    apply chain_end. reflexivity.
  - discriminate.
  - right. eexists. reflexivity.
  - vm_compute. lia.
  - repeat constructor; discriminate.
  - vm_compute. lia.
Defined.

(** A context that meets the conditions of the round-trip contract (no data
    key starts with [_], every value has a JSON text, the progress markers
    are in their initial state) and has 1001 log entries. *)
Definition long_agents : list (Agent unit string) :=
  [ {| agent_number := VInt 0; agent_config := tt;
       agent_data := VDict [("ctx_window", VInt 4096)];
       agent_history := "[]" |} ].

Definition long_context : AgentContext unit string :=
  demo_context (demo_log 1001) (VObj 0) VNone.

(** C1, as stated, fails on this context: the loaded log has 1000 entries,
    whatever the fuel. *)
Lemma roundtrip_counterexample :
  Forall (fun ag : Agent unit string =>
            exists d, agent_data unit string ag = VDict d /\
                      json_representable (VDict d) = true /\
                      Forall (fun kv : string * pyval =>
                                String.prefix "_" kv.1 = false) d)
         long_agents /\
  log_progress (ctx_log unit string long_context) = demo_progress /\
  log_progress_no (ctx_log unit string long_context) = demo_progress_no /\
  ~ exists fuel,
      reproduces demo_uuid4 demo_progress demo_progress_no unit tt string
        EmptyString demo_serialize demo_deserialize string demo_isoformat
        demo_fromisoformat demo_epoch0 demo_superior demo_subordinate
        demo_type_value demo_new_id fuel long_context long_agents long_agents.
Proof.
  split; [|split; [reflexivity|split; [reflexivity|]]].
  - repeat constructor. eexists. split; [reflexivity|].
    split; [reflexivity|]. repeat constructor.
  - intros (fuel & rec & c' & h' & Hser & Hdes & _ & _ & _ & _ & _ & _ & _ &
            Hentries & _).
    assert (Hbound : (length (log_logs (ctx_log unit string c')) <= 1000)%nat)
      by (eapply roundtrip_log_bound; [exact Hser|exact Hdes]).
    apply Forall2_length in Hentries. rewrite <- Hentries in Hbound.
    apply Nat.leb_le in Hbound. vm_compute in Hbound. discriminate.
Qed.

(* ===================================================================== *)
(** ** The concrete setting, continued *)
(* ===================================================================== *)

Definition demo_offline : world :=
  {| store := store demo_world; online := false; dirs := dirs demo_world;
     _instance := false |}.

Lemma save_history_offline_witness :
  MemGraphHelper.save_history 3 "ctx-1" (VList demo_history) demo_offline
  = Ok demo_offline /\
  MemGraphHelper.load_history "ctx-1" demo_offline = Ok (VList [], demo_offline).
Proof.
  apply (save_history_offline 3 "ctx-1" (VList demo_history) demo_offline).
  - reflexivity.
  - reflexivity.
  - vm_compute. lia.
Defined.

Lemma load_history_reads_only_witness :
  (forall (v : pyval) (w' : world),
     MemGraphHelper.load_history "ctx-9" demo_world = Ok (v, w') ->
     w' = demo_world) /\
  MemGraphHelper.load_history "ctx-9" demo_world = Ok (VList [], demo_world).
Proof.
  destruct (load_history_reads_only "ctx-9" demo_world) as [Hframe Hempty].
  split; [exact Hframe|]. apply Hempty. right. left. reflexivity.
Defined.

Lemma save_history_load_history_witness :
  exists w',
    MemGraphHelper.save_history 3 "ctx-2" (VList demo_history) demo_world
    = Ok w' /\
    MemGraphHelper.load_history "ctx-2" w' = Ok (VList demo_history, w') /\
    forall other v,
      other <> "ctx-2" ->
      MemGraphHelper.load_history other demo_world = Ok (v, demo_world) ->
      MemGraphHelper.load_history other w' = Ok (v, w').
Proof.
  apply (save_history_load_history 3 "ctx-2" (VList demo_history) demo_world).
  - reflexivity.
  - reflexivity.
  - vm_compute. lia.
Defined.

Definition demo_bag : pyval :=
  VDict [ ("a", VInt 1); ("h", VObj 7);
          ("cfg", VDict [("h", VObj 8); ("n", VList [VInt 1; VObj 9])]) ].

Lemma safe_json_serialize_never_drops_witness :
  exists js,
    _safe_json_serialize 10 demo_bag false = Ok js /\
    json.loads js = Ok (nullify demo_bag).
Proof.
  apply (safe_json_serialize_never_drops 10 demo_bag false).
  - vm_compute. lia.
  - reflexivity.
Defined.

(** A stored log whose entries carry numbers and progress markers of their
    own. *)
Definition demo_stored_entries : list dict :=
  [ [("no", VInt 7); ("type", VStr "info"); ("heading", VStr "step");
     ("kvps", VDict [("tool", VStr "search")]); ("temp", VBool true)];
    [("no", VInt 9); ("type", VStr "error"); ("content", VStr "failed");
     ("kvps", VNone)];
    [("type", VStr "hint"); ("kvps", VDict [])] ].

Definition demo_stored_log2 : dict :=
  [ ("logs", VList (map VDict demo_stored_entries));
    ("progress", VStr "Searching");
    ("progress_no", VInt 9) ].

Lemma demo_stored_entries_ok :
  Forall (fun f => log_entry_ok (VDict f)) demo_stored_entries.
Proof.
  repeat constructor.
  - eexists _, _. split; [reflexivity|]. split; [eexists; reflexivity|].
    split; [reflexivity|]. right. eexists. reflexivity.
  - eexists _, _. split; [reflexivity|]. split; [eexists; reflexivity|].
    split; [reflexivity|]. left. reflexivity.
  - eexists _, _. split; [reflexivity|]. split; [eexists; reflexivity|].
    split; [reflexivity|]. left. reflexivity.
Defined.

Lemma deserialize_log_renumbers_witness :
  _deserialize_log demo_uuid4 demo_progress demo_progress_no
    (VDict demo_stored_log2)
  = Ok {| log_guid := VStr demo_uuid4;
          log_logs := imap loaded_entry demo_stored_entries;
          log_updates := [0; 1; 2]%nat;
          log_progress := demo_progress;
          log_progress_no := demo_progress_no |}.
Proof.
  apply (deserialize_log_renumbers demo_uuid4 demo_progress demo_progress_no
           demo_stored_log2 demo_stored_entries).
  - reflexivity.
  - exact demo_stored_entries_ok.
Defined.

Definition demo_stored_log3 : dict :=
  [ ("guid", VStr "log-1");
    ("logs", VList (map VDict demo_stored_entries
                    ++ VDict [("heading", VStr "step"); ("kvps", VNone)]
                    :: [VDict [("type", VStr "info"); ("kvps", VNone)]])) ].

Lemma deserialize_log_missing_type_raises_witness :
  _deserialize_log demo_uuid4 demo_progress demo_progress_no
    (VDict demo_stored_log3)
  = Raise (KeyError "type").
Proof.
  apply (deserialize_log_missing_type_raises demo_uuid4 demo_progress
           demo_progress_no demo_stored_log3 demo_stored_entries
           [("heading", VStr "step"); ("kvps", VNone)]
           [VDict [("type", VStr "info"); ("kvps", VNone)]]).
  - reflexivity.
  - exact demo_stored_entries_ok.
  - reflexivity.
Defined.

Definition demo_agent0 : Agent unit string :=
  {| agent_number := VInt 0; agent_config := tt;
     agent_data := VDict [("ctx_window", VInt 4096); ("_subordinate", VObj 1);
                          ("note", VStr "draft"); ("_cache", VObj 5)];
     agent_history := "[]" |}.

Lemma serialize_agent_drops_private_witness :
  exists data,
    _serialize_agent unit string demo_serialize demo_agent0
    = Ok (VDict [ ("number", VInt 0); ("data", VDict data);
                  ("history", VStr "[]") ]) /\
    sublist data [("ctx_window", VInt 4096); ("_subordinate", VObj 1);
                  ("note", VStr "draft"); ("_cache", VObj 5)] /\
    forall k, dict_get k data
              = if String.prefix "_" k then None
                else dict_get k [("ctx_window", VInt 4096);
                                 ("_subordinate", VObj 1);
                                 ("note", VStr "draft"); ("_cache", VObj 5)].
Proof.
  apply (serialize_agent_drops_private unit string demo_serialize demo_agent0).
  reflexivity.
Defined.

Lemma deserialize_agents_wires_chain_witness :
  exists nodes,
    _deserialize_agents unit string EmptyString demo_deserialize demo_superior
      demo_subordinate
      (VList [demo_agent_record 0; demo_agent_record 1; demo_agent_record 2])
      tt demo_agents
    = Ok (2%nat, demo_agents ++ nodes) /\
    length nodes = 3%nat /\
    forall i r ag,
      [demo_fields 0; demo_fields 1; demo_fields 2] !! i = Some r ->
      nodes !! i = Some ag ->
      wired unit string demo_superior demo_subordinate tt 2 3 i r ag.
Proof.
  apply (deserialize_agents_wires_chain unit string EmptyString
           demo_deserialize demo_superior demo_subordinate tt
           [demo_agent_record 0; demo_agent_record 1; demo_agent_record 2]
           [demo_fields 0; demo_fields 1; demo_fields 2] demo_agents).
  - discriminate.
  - repeat constructor; apply demo_record_of.
  - discriminate.
Defined.

Local Abbreviation demo_load :=
  (_deserialize_context demo_uuid4 demo_progress demo_progress_no unit tt
     string EmptyString demo_deserialize string demo_isoformat
     demo_fromisoformat demo_epoch0 demo_superior demo_subordinate
     demo_type_value demo_new_id).

Lemma deserialize_context_frame_witness :
  exists c h',
    demo_load 5 (VDict demo_three) demo_agents = Ok (c, h') /\
    take (length demo_agents) h' = demo_agents /\
    (exists z, ctx_agent0 unit string c = VObj z /\
               (length demo_agents <= z < length h')%nat) /\
    ctx_paused unit string c = false /\
    (py_truthy (ctx_streaming_agent unit string c) = false \/
     exists ag wanted,
       deref unit string h' (ctx_streaming_agent unit string c) = Ok ag /\
       py_get (VDict demo_three) "streaming_agent" (VInt 0) = Ok wanted /\
       py_eq (agent_number unit string ag) wanted = true).
Proof.
  eexists _, _. split; [vm_compute; reflexivity|].
  apply (deserialize_context_frame demo_uuid4 demo_progress demo_progress_no
           unit tt string EmptyString demo_deserialize string demo_isoformat
           demo_fromisoformat demo_epoch0 demo_superior demo_subordinate
           demo_type_value demo_new_id 5 (VDict demo_three) demo_agents).
  vm_compute. reflexivity.
Defined.

(** Time stamps of the form [YYYY-MM-DDTHH:MM:SS] only. *)
Definition demo_fromisoformat_strict (s : string) : option string :=
  if (String.length s =? 19)%nat then Some s else None.

Definition demo_bad_time : dict :=
  [ ("id", VStr "ctx-1");
    ("created_at", VStr "yesterday");
    ("log", VDict [("guid", VStr "log-1"); ("logs", VList [demo_stored_entry])]) ].

Definition demo_bad_type : dict :=
  [ ("id", VStr "ctx-1");
    ("created_at", VStr "2025-03-01T10:00:00");
    ("type", VStr "system");
    ("log", VDict [("guid", VStr "log-1"); ("logs", VList [demo_stored_entry])]) ].

Local Abbreviation demo_load_strict :=
  (_deserialize_context demo_uuid4 demo_progress demo_progress_no unit tt
     string EmptyString demo_deserialize string demo_isoformat
     demo_fromisoformat_strict demo_epoch0 demo_superior demo_subordinate
     demo_type_value demo_new_id).

Lemma deserialize_context_rejects_bad_fields_witness :
  demo_load_strict 5 (VDict demo_bad_time) [] = Raise ValueError /\
  demo_load_strict 5 (VDict demo_bad_type) [] = Raise ValueError.
Proof.
  split.
  - eapply (proj1 (deserialize_context_rejects_bad_fields demo_uuid4
                     demo_progress demo_progress_no unit tt string EmptyString
                     demo_deserialize string demo_isoformat
                     demo_fromisoformat_strict demo_epoch0 demo_superior
                     demo_subordinate demo_type_value demo_new_id 5
                     demo_bad_time [] _ _ eq_refl eq_refl));
      reflexivity.
  - eapply (proj2 (deserialize_context_rejects_bad_fields demo_uuid4
                     demo_progress demo_progress_no unit tt string EmptyString
                     demo_deserialize string demo_isoformat
                     demo_fromisoformat_strict demo_epoch0 demo_superior
                     demo_subordinate demo_type_value demo_new_id 5
                     demo_bad_type [] _ _ eq_refl eq_refl));
      [reflexivity|reflexivity|].
    intros []; reflexivity.
Defined.

(** The JSON text of a stored record. *)
Definition demo_text : string := render false (VDict demo_three).

Local Abbreviation demo_import :=
  (load_json_chats demo_uuid4 demo_progress demo_progress_no unit tt
     string EmptyString demo_deserialize string demo_isoformat
     demo_fromisoformat demo_epoch0 demo_superior demo_subordinate
     demo_type_value demo_new_id).

(** The same record stored under another identifier, and one that was
    stored without any. *)
Definition demo_text_renamed : string :=
  render false (VDict (dict_set "id" (VStr "ctx-7") demo_three)).

Definition demo_text_anonymous : string :=
  render false (VDict (dict_del "id" demo_three)).

Lemma load_json_chats_ignores_ids_witness :
  demo_import 5 [demo_text; demo_text] demo_agents
  = demo_import 5 [demo_text_renamed; demo_text_anonymous] demo_agents /\
  exists ids h',
    demo_import 5 [demo_text; demo_text] demo_agents = Ok (ids, h') /\
    length ids = 2%nat /\ take (length demo_agents) h' = demo_agents.
Proof.
  destruct (load_json_chats_ignores_ids demo_uuid4 demo_progress
              demo_progress_no unit tt string EmptyString demo_deserialize
              string demo_isoformat demo_fromisoformat demo_epoch0
              demo_superior demo_subordinate demo_type_value demo_new_id 5
              [demo_text; demo_text] [demo_text_renamed; demo_text_anonymous]
              demo_agents) as [Hsame Hret].
  - repeat constructor; eexists _, _;
      (split; [vm_compute; reflexivity|split; vm_compute; reflexivity]).
  - split; [exact Hsame|]. eexists _, _. split; [vm_compute; reflexivity|].
    apply Hret. vm_compute. reflexivity.
Defined.

Lemma load_json_chats_aborts_witness :
  demo_import 5 ([demo_text] ++ "{not json" :: [demo_text]) []
  = Raise JSONDecodeError.
Proof.
  eapply (load_json_chats_aborts demo_uuid4 demo_progress demo_progress_no
           unit tt string EmptyString demo_deserialize string demo_isoformat
           demo_fromisoformat demo_epoch0 demo_superior demo_subordinate
           demo_type_value demo_new_id 5 [demo_text] [demo_text] "{not json"
           []).
  - vm_compute. reflexivity.
  - vm_compute. reflexivity.
Defined.

Lemma export_import_roundtrip_witness :
  exists js c' h',
    export_json_chat unit string demo_serialize string demo_isoformat
      demo_epoch0 demo_subordinate demo_type_value 20
      (demo_context (demo_log 3) (VObj 0) (VObj 1)) demo_agents = Ok js /\
    load_json_chat demo_uuid4 demo_progress demo_progress_no unit tt string
      EmptyString demo_deserialize string demo_isoformat demo_fromisoformat
      demo_epoch0 demo_superior demo_subordinate demo_type_value demo_new_id
      20 js demo_agents = Ok (c', h') /\
    demo_import 20 [js] demo_agents = Ok ([VStr demo_new_id], h') /\
    ctx_id unit string c' = VStr demo_new_id /\
    same_but_id demo_progress demo_progress_no unit string string
      demo_superior demo_subordinate
      (demo_context (demo_log 3) (VObj 0) (VObj 1)) demo_agents c' h'.
Proof.
  eapply (export_import_roundtrip demo_uuid4 demo_progress demo_progress_no
            unit tt string EmptyString demo_serialize demo_deserialize string
            demo_isoformat demo_fromisoformat demo_epoch0 demo_superior
            demo_subordinate demo_type_value demo_new_id 20
            (demo_context (demo_log 3) (VObj 0) (VObj 1))
            demo_agents demo_agents demo_agents
            "2025-03-01T10:00:00" "2025-03-01T10:05:00").
  - reflexivity.
  - reflexivity.
  - discriminate.
  - reflexivity.
  - reflexivity.
  - exact demo_type_value_inj.
  - repeat constructor.
  - reflexivity.
  - reflexivity.
  - eapply chain_step; [reflexivity|reflexivity|].
    eapply chain_step; [reflexivity|reflexivity|].
    apply chain_end. reflexivity.
  - discriminate.
  - vm_compute. lia.
  - repeat constructor; discriminate.
  - vm_compute. lia.
  - vm_compute. reflexivity.
  - vm_compute. reflexivity.
  - vm_compute. lia.
Defined.

(** A context without time stamps and without a streaming agent. *)
Definition demo_bare_context : AgentContext unit string :=
  {| ctx_config := tt; ctx_id := VNone; ctx_name := VNone;
     ctx_created_at := None; ctx_type := USER; ctx_last_message := None;
     ctx_log := demo_log 2; ctx_paused := true;
     ctx_agent0 := VObj 0; ctx_streaming_agent := VNone |}.

Lemma roundtrip_normalises_witness :
  exists rec c' h',
    _serialize_context unit string demo_serialize string demo_isoformat
      demo_epoch0 demo_subordinate demo_type_value 5 demo_bare_context
      demo_agents = Ok rec /\
    demo_load 5 rec demo_agents = Ok (c', h') /\
    ctx_id unit string c' = VStr demo_new_id /\
    ctx_created_at unit string c' = Some demo_epoch0 /\
    ctx_last_message unit string c' = Some demo_epoch0 /\
    ctx_paused unit string c' = false /\
    ctx_agent0 unit string c' = VObj 2 /\
    ctx_streaming_agent unit string c' = VObj 2.
Proof.
  destruct (roundtrip_normalises demo_uuid4 demo_progress demo_progress_no
              unit tt string EmptyString demo_serialize demo_deserialize string
              demo_isoformat demo_fromisoformat demo_epoch0 demo_superior
              demo_subordinate demo_type_value demo_new_id 5 demo_bare_context
              demo_agents demo_agents demo_agents (VInt 0))
    as (rec & c' & h' & Hser & Hload & Hid & Hc & Hl & Hp & Hroot & _ & Hstream).
  - reflexivity.
  - discriminate.
  - reflexivity.
  - reflexivity.
  - exact demo_type_value_inj.
  - repeat constructor.
  - eapply chain_step; [reflexivity|reflexivity|].
    eapply chain_step; [reflexivity|reflexivity|].
    apply chain_end. reflexivity.
  - discriminate.
  - left. split; reflexivity.
  - vm_compute. lia.
  - exists rec, c', h'. repeat split; try assumption.
    rewrite Hstream, Hroot; [reflexivity|reflexivity|].
    eexists _, _. split; reflexivity.
Defined.

(** An agent that is its own subordinate. *)
Definition demo_loop : list (Agent unit string) :=
  [ {| agent_number := VInt 0; agent_config := tt;
       agent_data := VDict [("_subordinate", VObj 0)];
       agent_history := "[]" |} ].

Lemma serialize_context_cycle_witness :
  _serialize_context unit string demo_serialize string demo_isoformat
    demo_epoch0 demo_subordinate demo_type_value 1000
    (demo_context (demo_log 1) (VObj 0) VNone) demo_loop
  = Raise NonTermination.
Proof.
  apply (serialize_context_cycle unit string demo_serialize string
           demo_isoformat demo_epoch0 demo_subordinate demo_type_value
           (demo_context (demo_log 1) (VObj 0) VNone) demo_loop
           (fun a => a = 0%nat) 0%nat).
  - intros a ->. eexists _, _, 0%nat. repeat split; reflexivity.
  - reflexivity.
  - reflexivity.
Defined.

(** Histories kept as the list of their messages; a file system that can
    hold the marker folders of three conversations. *)
Definition demo_output (hist : list (bool * pyval)) : pyval :=
  VList (map (fun m : bool * pyval =>
                VDict [("ai", VBool m.1); ("content", m.2)]) hist).

Definition demo_add_message (ai : bool) (content : pyval)
    (hist : list (bool * pyval)) : list (bool * pyval) :=
  hist ++ [(ai, content)].

Definition demo_list_files (folder : string) (ds : gset string) : list string :=
  filter (fun n => demo_abs_path folder n ∈ ds) ["ctx-1"; "ctx-2"; "ctx-3"].

Definition demo_now : string := "2025-03-02T09:00:00".

Definition demo_talk : list (Agent unit (list (bool * pyval))) :=
  [ {| agent_number := VInt 0; agent_config := tt;
       agent_data := VDict [("_subordinate", VObj 1)];
       agent_history := [ (false, VStr "what's 2 + 2?");
                          (true, VStr "asking the calculator") ] |};
    {| agent_number := VInt 1; agent_config := tt;
       agent_data := VDict [("_superior", VObj 0)];
       agent_history := [ (true, VStr "It is 4.") ] |} ].

Definition demo_talk_messages : list (list (pyval * pyval)) :=
  [ [ (VBool false, VStr "what's 2 + 2?");
      (VBool true, VStr "asking the calculator") ];
    [ (VBool true, VStr "It is 4.") ] ].

Definition demo_talk_context (ty : AgentContextType)
    : AgentContext unit string :=
  {| ctx_config := tt; ctx_id := VStr "ctx-2"; ctx_name := VStr "sums";
     ctx_created_at := Some "2025-03-01T10:00:00"; ctx_type := ty;
     ctx_last_message := Some "2025-03-01T10:05:00";
     ctx_log := demo_log 1; ctx_paused := false;
     ctx_agent0 := VObj 0; ctx_streaming_agent := VNone |}.

Lemma demo_talk_chain :
  chain unit (list (bool * pyval)) demo_subordinate demo_talk (VObj 0)
    demo_talk.
Proof.
  eapply chain_step; [reflexivity|reflexivity|].
  eapply chain_step; [reflexivity|reflexivity|].
  apply chain_end. reflexivity.
Defined.

Lemma demo_talk_outputs :
  Forall2 (outputs unit (list (bool * pyval)) demo_output) demo_talk
    demo_talk_messages.
Proof.
  repeat constructor.
  - eexists. split; [reflexivity|].
    repeat constructor; eexists; repeat split; reflexivity.
  - eexists. split; [reflexivity|].
    repeat constructor; eexists; repeat split; reflexivity.
Defined.

Local Abbreviation demo_save :=
  (save_tmp_chat unit (list (bool * pyval)) string demo_subordinate
     demo_abs_path demo_output).

Lemma save_tmp_chat_stores_history_witness :
  exists w',
    demo_save 5 (demo_talk_context USER) demo_talk demo_world = Ok w' /\
    get_chat_folder_path demo_abs_path "ctx-2" ∈ dirs w' /\
    MemGraphHelper.load_history "ctx-2" w'
    = Ok (VList (map stored_record (concat demo_talk_messages)), w').
Proof.
  apply (save_tmp_chat_stores_history unit (list (bool * pyval)) string
           demo_subordinate demo_abs_path demo_output 5
           (demo_talk_context USER) demo_talk demo_world "ctx-2" demo_talk
           demo_talk_messages).
  - reflexivity.
  - reflexivity.
  - reflexivity.
  - reflexivity.
  - exact demo_talk_chain.
  - exact demo_talk_outputs.
  - vm_compute. lia.
  - reflexivity.
  - vm_compute. lia.
Defined.

Lemma save_tmp_chats_frame_witness :
  exists w',
    save_tmp_chats unit (list (bool * pyval)) string demo_subordinate
      demo_abs_path demo_output 5
      [demo_talk_context BACKGROUND; demo_talk_context TASK] demo_talk
      demo_world = Ok w' /\
    dirs demo_world ⊆ dirs w' /\
    store w' !! "chat_history:ctx-1" = store demo_world !! "chat_history:ctx-1".
Proof.
  eexists. split; [reflexivity|].
  edestruct (save_tmp_chats_frame unit (list (bool * pyval)) string
               demo_subordinate demo_abs_path demo_output 5
               [demo_talk_context BACKGROUND; demo_talk_context TASK]
               demo_talk demo_world) as [Hdirs Hstore]; [reflexivity|].
  split; [exact Hdirs|]. apply Hstore.
  intros c id Hc Hbg Hid.
  apply elem_of_cons in Hc as [->|Hc]; [discriminate Hbg|].
  apply list_elem_of_singleton in Hc as ->. injection Hid as <-.
  discriminate.
Defined.

(** A world in which the conversation [ctx-1] has a stored history, and the
    conversations [ctx-1] and [ctx-3] have marker folders. *)
Definition demo_saved : world :=
  {| store := {[ "chat_history:ctx-1" :=
                   "'" +:+ render true (VList demo_history) +:+ "'" ]};
     online := true;
     dirs := {[ demo_abs_path CHATS_FOLDER "ctx-1";
                demo_abs_path CHATS_FOLDER "ctx-3" ]};
     _instance := false |}.

Local Abbreviation demo_restore :=
  (load_tmp_chats demo_uuid4 demo_progress demo_progress_no unit tt
     (list (bool * pyval)) [] string demo_new_id demo_add_message
     demo_list_files demo_now).

Lemma load_tmp_chats_ids_witness :
  exists st,
    demo_restore [] demo_saved = Ok (st, demo_saved) /\
    restored_ctxids unit (list (bool * pyval)) string st
    = map (fun n => VStr (strip "/" n))
        (filter (fun n => restorable (history_of demo_saved n) = true)
           (demo_list_files CHATS_FOLDER (dirs demo_saved))) /\
    take 0 (restored_agents unit (list (bool * pyval)) string st) = [].
Proof.
  apply (load_tmp_chats_ids demo_uuid4 demo_progress demo_progress_no unit tt
           (list (bool * pyval)) [] string demo_new_id demo_add_message
           demo_list_files demo_now [] demo_saved).
  reflexivity.
Defined.

Lemma demo_saved_listed :
  "ctx-1" ∈ demo_list_files CHATS_FOLDER (dirs demo_saved).
Proof.
  apply list_elem_of_filter. split; [|apply elem_of_cons; left; reflexivity].
  apply elem_of_union_l, elem_of_singleton. reflexivity.
Defined.

Lemma load_tmp_chats_replays_witness :
  exists st c' a ag,
    demo_restore [] demo_saved = Ok (st, demo_saved) /\
    VStr "ctx-1" ∈ restored_ctxids unit (list (bool * pyval)) string st /\
    c' ∈ restored_contexts unit (list (bool * pyval)) string st /\
    ctx_id unit string c' = VStr "ctx-1" /\
    ctx_agent0 unit string c' = VObj a /\
    restored_agents unit (list (bool * pyval)) string st !! a = Some ag /\
    agent_number unit (list (bool * pyval)) ag = VInt 0 /\
    agent_history unit (list (bool * pyval)) ag
    = [ (false, VStr "what's 2 + 2?"); (true, VStr "It is 4.") ].
Proof.
  apply (load_tmp_chats_replays demo_uuid4 demo_progress demo_progress_no
           unit tt (list (bool * pyval)) [] string demo_new_id
           demo_add_message demo_list_files demo_now [] demo_saved "ctx-1"
           demo_history
           [ (VStr "user", VStr "what's 2 + 2?"); (VStr "ai", VStr "It is 4.") ]).
  - reflexivity.
  - exact demo_saved_listed.
  - vm_compute. reflexivity.
  - discriminate.
  - repeat constructor; eexists; repeat split; reflexivity.
Defined.

Lemma remove_chat_not_restored_witness :
  exists w1 st,
    remove_chat demo_abs_path 1 "ctx-1" demo_saved = Ok w1 /\
    demo_restore [] w1 = Ok (st, w1) /\
    VStr "ctx-1" ∉ restored_ctxids unit (list (bool * pyval)) string st.
Proof.
  eexists.
  edestruct (remove_chat_not_restored demo_uuid4 demo_progress demo_progress_no
               unit tt (list (bool * pyval)) [] string demo_abs_path demo_new_id
               demo_add_message demo_list_files demo_now 0 "ctx-1" []
               demo_saved) as (st & Hload & Hnot);
    [reflexivity|reflexivity|].
  exists st. split; [reflexivity|]. split; [exact Hload|exact Hnot].
Defined.

Lemma demo_talk_listed :
  "ctx-2" ∈ demo_list_files CHATS_FOLDER
              ({[ get_chat_folder_path demo_abs_path "ctx-2" ]} ∪ dirs demo_world).
Proof.
  apply list_elem_of_filter.
  split; [|apply elem_of_cons; right; apply elem_of_cons; left; reflexivity].
  apply elem_of_union_l, elem_of_singleton. reflexivity.
Defined.

Lemma save_tmp_chat_load_tmp_chats_witness :
  exists w' st c' a ag,
    demo_save 5 (demo_talk_context USER) demo_talk demo_world = Ok w' /\
    demo_restore [] w' = Ok (st, w') /\
    VStr "ctx-2" ∈ restored_ctxids unit (list (bool * pyval)) string st /\
    c' ∈ restored_contexts unit (list (bool * pyval)) string st /\
    ctx_id unit string c' = VStr "ctx-2" /\
    ctx_agent0 unit string c' = VObj a /\
    restored_agents unit (list (bool * pyval)) string st !! a = Some ag /\
    agent_number unit (list (bool * pyval)) ag = VInt 0 /\
    agent_history unit (list (bool * pyval)) ag
    = [ (false, VStr "what's 2 + 2?"); (true, VStr "asking the calculator");
        (true, VStr "It is 4.") ].
Proof.
  apply (save_tmp_chat_load_tmp_chats demo_uuid4 demo_progress demo_progress_no
           unit tt (list (bool * pyval)) [] string demo_subordinate
           demo_abs_path demo_new_id demo_output demo_add_message
           demo_list_files demo_now 5 (demo_talk_context USER) demo_talk []
           demo_world "ctx-2" "ctx-2" demo_talk demo_talk_messages).
  - reflexivity.
  - reflexivity.
  - reflexivity.
  - reflexivity.
  - exact demo_talk_chain.
  - exact demo_talk_outputs.
  - vm_compute. lia.
  - reflexivity.
  - vm_compute. lia.
  - discriminate.
  - reflexivity.
  - exact demo_talk_listed.
Defined.

(** A conversation with a message whose content is a live object. *)
Definition demo_broken_talk : list (Agent unit (list (bool * pyval))) :=
  [ {| agent_number := VInt 0; agent_config := tt;
       agent_data := VDict [];
       agent_history := [ (false, VStr "show me the file");
                          (true, VObj 3) ] |} ].

Lemma save_tmp_chats_aborts_witness :
  save_tmp_chats unit (list (bool * pyval)) string demo_subordinate
    demo_abs_path demo_output 5
    ([demo_talk_context BACKGROUND] ++ demo_talk_context USER
       :: [demo_talk_context TASK])
    demo_broken_talk demo_world
  = Raise TypeError.
Proof.
  apply (save_tmp_chats_aborts unit (list (bool * pyval)) string
           demo_subordinate demo_abs_path demo_output 5
           [demo_talk_context BACKGROUND] [demo_talk_context TASK]
           (demo_talk_context USER) demo_broken_talk demo_world demo_world).
  - reflexivity.
  - reflexivity.
  - vm_compute. reflexivity.
Defined.

Lemma deserialize_agents_missing_number_raises_witness :
  _deserialize_agents unit string EmptyString demo_deserialize demo_superior
    demo_subordinate
    (VList ([demo_agent_record 0; demo_agent_record 1]
            ++ VDict [("data", VDict []); ("history", VStr "[]")]
            :: [demo_agent_record 3]))
    tt demo_agents
  = Raise (KeyError "number").
Proof.
  apply (deserialize_agents_missing_number_raises unit string EmptyString
           demo_deserialize demo_superior demo_subordinate tt
           [demo_agent_record 0; demo_agent_record 1] [demo_agent_record 3]
           [demo_fields 0; demo_fields 1]
           [("data", VDict []); ("history", VStr "[]")] demo_agents).
  - repeat constructor; apply demo_record_of.
  - reflexivity.
Defined.

Lemma demo_world_listed :
  "ctx-1" ∈ demo_list_files CHATS_FOLDER (dirs demo_world).
Proof.
  apply list_elem_of_filter. split; [|apply elem_of_cons; left; reflexivity].
  change (demo_abs_path CHATS_FOLDER "ctx-1"
          ∈ ({[ demo_abs_path CHATS_FOLDER "ctx-1" ]} : gset string)).
  apply elem_of_singleton. reflexivity.
Defined.

Lemma load_tmp_chats_unreported_witness :
  exists st c',
    demo_restore [] demo_world = Ok (st, demo_world) /\
    c' ∈ restored_contexts unit (list (bool * pyval)) string st /\
    ctx_id unit string c' = VStr "ctx-1" /\
    VStr "ctx-1" ∉ restored_ctxids unit (list (bool * pyval)) string st.
Proof.
  apply (load_tmp_chats_unreported demo_uuid4 demo_progress demo_progress_no
           unit tt (list (bool * pyval)) [] string demo_new_id
           demo_add_message demo_list_files demo_now [] demo_world "ctx-1").
  - reflexivity.
  - exact demo_world_listed.
  - vm_compute. reflexivity.
  - vm_compute. reflexivity.
Defined.

(** A store that holds a history without the quotes around it. *)
Definition demo_plain : world :=
  {| store := {[ "chat_history:ctx-1" := render true (VList demo_history) ]};
     online := true; dirs := ∅; _instance := false |}.

Lemma load_history_unquoted_witness :
  MemGraphHelper.load_history "ctx-1" demo_plain
  = Ok (VList demo_history, demo_plain).
Proof.
  apply (load_history_unquoted "ctx-1" (VList demo_history) demo_plain).
  - reflexivity.
  - reflexivity.
  - vm_compute. reflexivity.
Defined.

Lemma remove_chat_frame_witness :
  exists w',
    remove_chat demo_abs_path 1 "ctx-1" demo_saved = Ok w' /\
    dirs w' ⊆ dirs demo_saved /\
    demo_abs_path CHATS_FOLDER "ctx-3" ∈ dirs w' /\
    store w' !! "chat_history:ctx-2" = store demo_saved !! "chat_history:ctx-2".
Proof.
  eexists. split; [reflexivity|].
  edestruct (remove_chat_frame demo_abs_path 1 "ctx-1" demo_saved)
    as (Hsub & Hkeep & Hstore); [reflexivity|].
  split; [exact Hsub|]. split.
  - apply Hkeep; [|reflexivity].
    change (demo_abs_path CHATS_FOLDER "ctx-3"
            ∈ ({[ demo_abs_path CHATS_FOLDER "ctx-1";
                  demo_abs_path CHATS_FOLDER "ctx-3" ]} : gset string)).
    apply elem_of_union_r, elem_of_singleton. reflexivity.
  - apply Hstore. discriminate.
Defined.

(** A history with characters outside ASCII. *)
Definition demo_umlaut : pyval :=
  VList [ VDict [ ("role", VStr "user");
                  ("content", VStr (String "252"%char "ber")) ] ].

Lemma save_history_value_ascii_witness :
  exists (value : string) (w' : world),
    MemGraphHelper.save_history 5 "ctx-1" demo_umlaut demo_world = Ok w' /\
    store w' !! MemGraphHelper.key_of "ctx-1" = Some value /\
    all_ascii value = true /\
    MemGraphHelper.load_history "ctx-1" w' = Ok (demo_umlaut, w').
Proof.
  apply (save_history_value_ascii 5 "ctx-1" demo_umlaut demo_world).
  - reflexivity.
  - reflexivity.
  - vm_compute. lia.
Defined.
